(** * Payment / withdrawal reconciliation core of electrician-api

    A shallow embedding of the balance calculator, the withdrawal state
    machine (electricianController) and the payment webhook / status query
    (paymentController), together with the properties of the specification
    that concern them; and, with further properties of the code itself, of
    what lies around them: the certification handlers, the creation and
    test confirmation of a payment, the transfer request of
    WechatPayV3Service, and the middleware in front of the status route.

    Conventions of the embedding
    - JavaScript numbers that carry money are exact rationals ([Q]);
      [toFixed2] is [Number(x.toFixed(2))].
    - A string is the byte sequence of its UTF-8 encoding; where
      JavaScript counts ([substring], [slice]) it counts UTF-16 code
      units, which [JS.units] and [JS.substring0] recover from the bytes.
    - A Sequelize table is the list of its rows in primary-key order;
      [findOne] returns the first matching row, [update ... where] rewrites
      every matching row, [create] appends a row with the next id.  An
      amount written to a [DECIMAL(10,2)] column without validation is
      rounded by the database ([Table.decimal_10_2]).
    - A handler that awaits the payment gateway between two accesses to
      the database is also given in two halves, cut at that call, so that
      calls can overlap ([System.step], [Checkout.createPayment_begin]).
    - Every call to the payment gateway is answered by an oracle
      ([Gateway]) and recorded in the world's call log, so that "no gateway
      call is made" is a statement about that log.
    - [new Date()], [Date.now()] and [crypto.randomBytes] are inputs of the
      request. *)

From Stdlib Require Import List String Ascii ZArith QArith Qround Qabs Bool Lia Lqa DecimalString.
Import ListNotations.
Open Scope string_scope.
Open Scope Z_scope.

Set Implicit Arguments.

(* ================================================================== *)
(** * JavaScript value helpers *)

Module JS.

(** Truthiness of a possibly-missing string: [undefined], [null] and the
    empty string are falsy. *)
Definition truthy_str (s : option string) : bool :=
  match s with
  | Some s' => negb (String.eqb s' "")
  | None => false
  end.

(** [a || b] on possibly-missing strings. *)
Definition or_str (a : option string) (b : string) : string :=
  match a with
  | Some s => if String.eqb s "" then b else s
  | None => b
  end.

(** [a || b] where both sides may be missing. *)
Definition or_opt (a b : option string) : option string :=
  if truthy_str a then a else b.

Definition Qltb (x y : Q) : bool := negb (Qle_bool y x).

(** Truthiness of a possibly-missing number: [undefined] and [0] are
    falsy. *)
Definition truthy_num (x : option Q) : bool :=
  match x with
  | Some q => negb (Qeq_bool q 0)
  | None => false
  end.

(** [x || 0] where [x] is the result of an SQL [SUM] ([null] when no row
    matched). *)
Definition or_zero (x : option Q) : Q :=
  match x with
  | Some q => if Qeq_bool q 0 then 0%Q else q
  | None => 0%Q
  end.

(** [Number(x.toFixed(2))]: the nearest multiple of 1/100, ties resolved
    away from zero ([toFixed] works on the absolute value and picks the
    larger candidate). *)
Definition toFixed2 (x : Q) : Q :=
  if Qle_bool 0 x
  then (inject_Z (Qfloor (x * 100 + (1 # 2))) / 100)%Q
  else (- (inject_Z (Qfloor ((- x) * 100 + (1 # 2))) / 100))%Q.

(** A string is kept as the bytes of its UTF-8 encoding, while
    JavaScript counts a string in UTF-16 code units.  A character of one,
    two or three bytes is one code unit; a character of four bytes (lead
    byte 0xF0 or above) is a surrogate pair, two code units. *)
Definition utf8_bytes (c : ascii) : nat :=
  let b := N_of_ascii c in
  if (b <? 192)%N then 1%nat
  else if (b <? 224)%N then 2%nat
  else if (b <? 240)%N then 3%nat
  else 4%nat.

Definition utf16_units (c : ascii) : nat :=
  if (N_of_ascii c <? 240)%N then 1%nat else 2%nat.

(** U+FFFD: what the UTF-8 encoding of a string makes of one half of a
    surrogate pair. *)
Definition replacement : string :=
  String "239" (String "191" (String "189" EmptyString)).

(** Code units of [s], the first [skip] bytes being the rest of a
    character already counted. *)
Fixpoint units_after (skip : nat) (s : string) : nat :=
  match s with
  | EmptyString => 0%nat
  | String c r =>
      match skip with
      | S k => units_after k r
      | O => (utf16_units c + units_after (utf8_bytes c - 1) r)%nat
      end
  end.

(** [s.length] *)
Definition units (s : string) : nat := units_after 0 s.

(** The first [n] code units of [s], the first [skip] bytes being the
    rest of a character already taken.  A cut between the two halves of a
    surrogate pair leaves the first half alone. *)
Fixpoint take_units (n skip : nat) (s : string) : string :=
  match s with
  | EmptyString => EmptyString
  | String c r =>
      match skip with
      | S k => String c (take_units n k r)
      | O =>
          match n with
          | O => EmptyString
          | S m =>
              if (N_of_ascii c <? 240)%N
              then String c (take_units m (utf8_bytes c - 1) r)
              else
                match m with
                | S m' => String c (take_units m' 3 r)
                | O => replacement
                end
          end
      end
  end.

(** [s.substring(0, n)]. *)
Definition substring0 (n : nat) (s : string) : string := take_units n 0 s.

(** Decimal rendering of an integer inside a template string. *)
Definition int_text (z : Z) : string := NilZero.string_of_int (Z.to_int z).

(** Rendering of a number with at most two decimals, given in
    hundredths: [12.5], [12.05], [12], [-0.5]. *)
Definition cents_text (c : Z) : string :=
  let a := Z.abs c in
  let f := a mod 100 in
  (if c <? 0 then "-" else "") ++ int_text (a / 100) ++
  (if f =? 0 then ""
   else "." ++ (if f mod 10 =? 0 then int_text (f / 10)
                else (if f <? 10 then "0" else "") ++ int_text f)).

(** [`${x}`] for a number that went through [toFixed2]. *)
Definition number_text (x : Q) : string :=
  cents_text (if Qle_bool 0 x then Qfloor (x * 100 + (1 # 2))
              else - Qfloor ((- x) * 100 + (1 # 2))).

End JS.

(* ================================================================== *)
(** * Data model (Sequelize models) *)

Inductive WithdrawalStatus := WPending | WProcessing | WSuccess | WFailed | WCancelled.

Inductive PaymentStatus := PPending | PSuccess | PFailed | PExpired.

(** [payments.type]: what the orders' payments carry, and [transfer],
    which the migration for the transfer feature adds to the column. *)
Inductive PaymentType := Prepay | Repair | Transfer.

Inductive PaymentMethod := Wechat | TestPay.

Definition wstatus_eqb (a b : WithdrawalStatus) : bool :=
  match a, b with
  | WPending, WPending | WProcessing, WProcessing | WSuccess, WSuccess
  | WFailed, WFailed | WCancelled, WCancelled => true
  | _, _ => false
  end.

Definition pstatus_eqb (a b : PaymentStatus) : bool :=
  match a, b with
  | PPending, PPending | PSuccess, PSuccess | PFailed, PFailed
  | PExpired, PExpired => true
  | _, _ => false
  end.

Definition ptype_eqb (a b : PaymentType) : bool :=
  match a, b with
  | Prepay, Prepay | Repair, Repair | Transfer, Transfer => true
  | _, _ => false
  end.

Definition pmethod_eqb (a b : PaymentMethod) : bool :=
  match a, b with
  | Wechat, Wechat | TestPay, TestPay => true
  | _, _ => false
  end.

(** Row of table [Withdrawals]. *)
Record Withdrawal := mkWithdrawal {
  w_id : Z;
  w_electrician_id : Z;
  w_amount : Q;
  w_status : WithdrawalStatus;
  w_out_batch_no : string;
  w_transfer_bill_no : option string;
  w_package_info : option string;
  w_openid : string;
  w_real_name : string;
  w_total_income_snapshot : Q;
  w_withdrawn_snapshot : Q;
  w_available_balance_snapshot : Q;
  w_fail_reason : option string;
  w_created_at : Z;
  w_completed_at : option Z
}.

(** Row of table [payments]. *)
Record Payment := mkPayment {
  p_id : Z;
  p_order_id : Z;
  p_user_id : Z;
  p_amount : Q;
  p_payment_method : PaymentMethod;
  p_out_trade_no : string;
  p_type : PaymentType;
  p_status : PaymentStatus;
  p_transaction_id : option string;
  p_paid_at : option Z;
  p_failed_reason : option string
}.

(** Row of table [orders]; the status is kept as the string the code
    writes and compares. *)
Record Order := mkOrder {
  o_id : Z;
  o_order_no : string;
  o_user_id : Z;
  o_electrician_id : option Z;
  o_status : string;
  o_prepaid_at : option Z;
  o_repair_paid_at : option Z
}.

Record Review := mkReview {
  r_order_id : Z;
  r_rating : Z
}.

Record User := mkUser {
  u_id : Z;
  u_openid : option string
}.

Record ElectricianCertification := mkCertification {
  c_user_id : Z;
  c_status : string;
  c_real_name : option string
}.

Record OrderStatusLog := mkOrderStatusLog {
  l_order_id : Z;
  l_from_status : option string;
  l_to_status : string;
  l_operator_id : Z;
  l_operator_type : string;
  l_remark : string
}.

Record Message := mkMessage {
  m_user_id : Z;
  m_title : string;
  m_content : string;
  m_type : string;
  m_related_id : Z
}.

(** The database: one list per table. *)
Record DB := mkDB {
  orders : list Order;
  reviews : list Review;
  payments : list Payment;
  withdrawals : list Withdrawal;
  users : list User;
  certifications : list ElectricianCertification;
  status_logs : list OrderStatusLog;
  messages : list Message
}.

(* ================================================================== *)
(** * Payment gateway (WechatPayV3Service) as an oracle *)

(** What a gateway call throws: an HTTP status, a gateway error code and a
    message, each possibly missing. *)
Record ApiError := mkApiError {
  e_status : option Z;
  e_code : option string;
  e_message : option string
}.

Inductive ApiResult (A : Type) :=
| Returned (a : A)
| Failed (e : ApiError).
Arguments Returned {A} a.
Arguments Failed {A} e.

Record TransferParams := mkTransferParams {
  tp_out_bill_no : string;
  tp_transfer_scene_id : string;
  tp_openid : string;
  tp_user_name : string;
  tp_transfer_amount : Q;
  tp_transfer_remark : string;
  tp_user_recv_perception : string
}.

Record TransferResult := mkTransferResult {
  tr_transfer_bill_no : option string;
  tr_out_bill_no : option string;
  tr_package_info : option string;
  tr_state : option string
}.

Record TransferQuery := mkTransferQuery {
  tq_state : string;
  tq_fail_reason : option string
}.

Record CancelResult := mkCancelResult {
  cr_transfer_bill_no : option string;
  cr_state : option string
}.

Record OrderQuery := mkOrderQuery {
  oq_success : bool;
  oq_trade_state : string;
  oq_transaction_id : option string
}.

Record Gateway := mkGateway {
  createTransferBill : TransferParams -> ApiResult TransferResult;
  queryTransferBill : string -> ApiResult TransferQuery;
  cancelTransferBill : string -> ApiResult CancelResult;
  queryOrder : string -> ApiResult OrderQuery
}.

(** One entry of the log of calls that reached the gateway. *)
Inductive GwCall :=
| CallCreateTransferBill (p : TransferParams)
| CallQueryTransferBill (out_bill_no : string)
| CallCancelTransferBill (out_bill_no : string)
| CallQueryOrder (out_trade_no : string).

Record World := mkWorld {
  db : DB;
  gateway_calls : list GwCall
}.

(* ================================================================== *)
(** * Exceptions and the handler monad *)

(** The exceptions the controllers see: [AppError(message, statusCode)],
    whatever a gateway call threw, and a plain [Error] / [TypeError]. *)
Inductive Exn :=
| AppError (message : string) (statusCode : Z)
| GatewayError (e : ApiError)
| JsError (message : string).

(** [`${error.message}`] *)
Definition message_text (m : option string) : string :=
  match m with
  | Some s => s
  | None => "undefined"
  end.

Definition exn_message (e : Exn) : string :=
  match e with
  | AppError m _ => m
  | GatewayError a => message_text (e_message a)
  | JsError m => m
  end.

(** [error.statusCode] *)
Definition exn_statusCode (e : Exn) : option Z :=
  match e with
  | AppError _ c => Some c
  | GatewayError _ => None
  | JsError _ => None
  end.

Inductive Outcome (A : Type) :=
| Ok (a : A)
| Thrown (e : Exn).
Arguments Ok {A} a.
Arguments Thrown {A} e.

Section HandlerMonad.
Variable S : Type.

Definition M (A : Type) : Type := S -> Outcome A * S.

Definition ret {A} (a : A) : M A := fun s => (Ok a, s).

Definition bind {A B} (m : M A) (k : A -> M B) : M B :=
  fun s =>
    match m s with
    | (Ok a, s') => k a s'
    | (Thrown e, s') => (Thrown e, s')
    end.

Definition throw {A} (e : Exn) : M A := fun s => (Thrown e, s).

(** [try { m } catch (e) { h e }]: the handler runs in the state the
    exception left behind. *)
Definition try_catch {A} (m : M A) (h : Exn -> M A) : M A :=
  fun s =>
    match m s with
    | (Ok a, s') => (Ok a, s')
    | (Thrown e, s') => h e s'
    end.

Definition get : M S := fun s => (Ok s, s).
Definition gets {A} (f : S -> A) : M A := fun s => (Ok (f s), s).
Definition modify (f : S -> S) : M unit := fun s => (Ok tt, f s).

(** [if (c) throw e;] *)
Definition throw_if (c : bool) (e : Exn) : M unit :=
  if c then throw e else ret tt.
End HandlerMonad.

Arguments ret {S A} a.
Arguments bind {S A B} m k.
Arguments throw {S A} e.
Arguments try_catch {S A} m h.
Arguments get {S}.
Arguments gets {S A} f.
Arguments modify {S} f.
Arguments throw_if {S} c e.

Declare Scope handler_scope.
Delimit Scope handler_scope with handler.
Notation "x <- m ;; k" := (bind m (fun x => k))
  (at level 100, m at next level, right associativity) : handler_scope.
Notation "m ;;; k" := (bind m (fun _ => k))
  (at level 100, right associativity) : handler_scope.

(* ================================================================== *)
(** * Table operations *)

Module Table.

Fixpoint Qsum (l : list Q) : Q :=
  match l with
  | [] => 0%Q
  | x :: r => (x + Qsum r)%Q
  end.

(** SQL [SUM]: [NULL] when no row matched. *)
Definition sql_sum (l : list Q) : option Q :=
  match l with
  | [] => None
  | _ => Some (Qsum l)
  end.

(** [Model.findOne({ where })] *)
Definition findOne {A} (where_ : A -> bool) (rows : list A) : option A :=
  List.find where_ rows.

(** [Model.update(values, { where })] *)
Definition update {A} (values : A -> A) (where_ : A -> bool) (rows : list A) : list A :=
  List.map (fun r => if where_ r then values r else r) rows.

(** Next value of an auto-increment primary key. *)
Definition next_id {A} (id : A -> Z) (rows : list A) : Z :=
  1 + List.fold_right (fun r m => Z.max (id r) m) 0 rows.

(** What a [DECIMAL(10,2)] column keeps of a number that has more
    decimals: the nearest hundredth, a tie going away from zero (the
    rounding MySQL applies when it stores into an exact type).  Amounts are
    taken to fit the column's ten digits. *)
Definition decimal_10_2 (x : Q) : Q := JS.toFixed2 x.

End Table.

Definition set_withdrawals (f : list Withdrawal -> list Withdrawal) (d : DB) : DB :=
  mkDB (orders d) (reviews d) (payments d) (f (withdrawals d)) (users d)
       (certifications d) (status_logs d) (messages d).

Definition set_payments (f : list Payment -> list Payment) (d : DB) : DB :=
  mkDB (orders d) (reviews d) (f (payments d)) (withdrawals d) (users d)
       (certifications d) (status_logs d) (messages d).

Definition set_orders (f : list Order -> list Order) (d : DB) : DB :=
  mkDB (f (orders d)) (reviews d) (payments d) (withdrawals d) (users d)
       (certifications d) (status_logs d) (messages d).

Definition add_status_log (l : OrderStatusLog) (d : DB) : DB :=
  mkDB (orders d) (reviews d) (payments d) (withdrawals d) (users d)
       (certifications d) (status_logs d ++ [l]) (messages d).

Definition add_message (m : Message) (d : DB) : DB :=
  mkDB (orders d) (reviews d) (payments d) (withdrawals d) (users d)
       (certifications d) (status_logs d) (messages d ++ [m]).

Definition on_db (f : DB -> DB) (w : World) : World :=
  mkWorld (f (db w)) (gateway_calls w).

Definition log_call (c : GwCall) (w : World) : World :=
  mkWorld (db w) (gateway_calls w ++ [c]).

Definition opt_Z_eqb (a : option Z) (b : Z) : bool :=
  match a with
  | Some x => x =? b
  | None => false
  end.

(* ================================================================== *)
(** * Balance calculator *)

Module Balance.

Record t := mk {
  totalIncome : Q;
  withdrawnAmount : Q;
  lockedAmount : Q;
  availableBalance : Q
}.

(** [Order.findAll] with the required [review] include: the inner join
    of the electrician's completed orders with their 5-star reviews, one
    result row per matching review. *)
Definition eligibleOrders (d : DB) (electricianId : Z) : list Order :=
  List.flat_map
    (fun o =>
       List.map (fun _ => o)
         (List.filter
            (fun r => (r_order_id r =? o_id o) && (r_rating r =? 5))
            (reviews d)))
    (List.filter
       (fun o => opt_Z_eqb (o_electrician_id o) electricianId
                 && String.eqb (o_status o) "completed")
       (orders d)).

(** [Payment.sum('amount', { where: { order_id in orderIds, status:
    'success', type in ['prepay','repair'] } })] *)
Definition incomeResult (d : DB) (orderIds : list Z) : option Q :=
  Table.sql_sum
    (List.map p_amount
       (List.filter
          (fun p => List.existsb (Z.eqb (p_order_id p)) orderIds
                    && pstatus_eqb (p_status p) PSuccess
                    && (ptype_eqb (p_type p) Prepay || ptype_eqb (p_type p) Repair))
          (payments d))).

Definition rawTotalIncome (d : DB) (electricianId : Z) : Q :=
  let orderIds := List.map o_id (eligibleOrders d electricianId) in
  match orderIds with
  | [] => 0%Q
  | _ => JS.or_zero (incomeResult d orderIds)
  end.

(** [Withdrawal.sum('amount', { where: { electrician_id, status in
    statuses } })] *)
Definition withdrawalSum (d : DB) (electricianId : Z) (statuses : list WithdrawalStatus) : option Q :=
  Table.sql_sum
    (List.map w_amount
       (List.filter
          (fun w => (w_electrician_id w =? electricianId)
                    && List.existsb (wstatus_eqb (w_status w)) statuses)
          (withdrawals d))).

(** [calculateBalance] of the current controller: withdrawn counts
    [success] only, locked counts [processing]. *)
Definition calculateBalance (d : DB) (electricianId : Z) : t :=
  let totalIncome := rawTotalIncome d electricianId in
  let withdrawnAmount := JS.or_zero (withdrawalSum d electricianId [WSuccess]) in
  let lockedAmount := JS.or_zero (withdrawalSum d electricianId [WProcessing]) in
  let availableBalance := JS.toFixed2 (totalIncome - withdrawnAmount - lockedAmount) in
  mk (JS.toFixed2 totalIncome) (JS.toFixed2 withdrawnAmount)
     (JS.toFixed2 lockedAmount) availableBalance.

End Balance.

(** The earlier revision of [calculateBalance], still present in the
    repository: one sum over [success] and [processing] together, and no
    [lockedAmount] in the result. *)
Module LegacyBalance.

Record t := mk {
  totalIncome : Q;
  withdrawnAmount : Q;
  availableBalance : Q
}.

Definition calculateBalance (d : DB) (electricianId : Z) : t :=
  let totalIncome := Balance.rawTotalIncome d electricianId in
  let withdrawnAmount :=
    JS.or_zero (Balance.withdrawalSum d electricianId [WSuccess; WProcessing]) in
  let availableBalance := JS.toFixed2 (totalIncome - withdrawnAmount) in
  mk (JS.toFixed2 totalIncome) (JS.toFixed2 withdrawnAmount) availableBalance.

End LegacyBalance.

(* ================================================================== *)
(** * HTTP responses *)

(** The projection of a Withdrawal row that the status endpoints return. *)
Record WithdrawalView := mkView {
  v_id : Z;
  v_amount : Q;
  v_status : WithdrawalStatus;
  v_out_batch_no : string;
  v_transfer_bill_no : option string;
  v_fail_reason : option string;
  v_created_at : Z;
  v_completed_at : option Z;
  v_wechat_state : option string;
  v_query_error : option string
}.

Inductive Body :=
| WithdrawSubmitted (withdrawal_id : Z) (amount : Q) (status : WithdrawalStatus)
    (out_batch_no : string) (transfer_bill_no package_info : option string)
    (state : string)
| RateLimited (message code : string)
| WithdrawalData (v : WithdrawalView)
| Unauthenticated (message : string)
| NotifyAck (code message : string)
| PaymentData (payment : option Payment)
| ErrorBody (message : string).

(** What a handler hands back to express: a JSON response, or
    [next(error)]. *)
Inductive Response :=
| Json (status : Z) (body : Body)
| Next (error : Exn).

(** Runs a handler body; an exception nobody caught reaches express as
    [next(error)] too. *)
Definition respond {S} (m : M S Response) (s : S) : Response * S :=
  match m s with
  | (Ok r, s') => (r, s')
  | (Thrown e, s') => (Next e, s')
  end.

(* ================================================================== *)
(** * WechatPayV3Service.handlePaymentNotify *)

Module Service.

Record NotifyHeaders := mkHeaders {
  h_signature : option string;   (* wechatpay-signature *)
  h_serial : option string;      (* wechatpay-serial *)
  h_nonce : option string;       (* wechatpay-nonce *)
  h_timestamp : option string    (* wechatpay-timestamp *)
}.

Record Resource := mkResource {
  rs_ciphertext : string;
  rs_associated_data : string;
  rs_nonce : string
}.

(** The request body: its [JSON.stringify] and its [resource] field. *)
Record NotifyBody := mkNotifyBody {
  nb_text : string;
  nb_resource : option Resource
}.

(** The cryptography the service relies on, for a payload of type [A]:
    whether the platform public key was loaded, RSA-SHA256 verification
    of a signature over a message, and AES-256-GCM decryption followed
    by [JSON.parse] (the message of the error when either throws). *)
Record Crypto (A : Type) := mkCrypto {
  wechatPublicKey_loaded : bool;
  rsa_verify : string -> string -> bool;
  decryptAES256GCM : Resource -> A + string
}.

Inductive NotifyResult (A : Type) :=
| NotifyOk (decrypted_data : A)
| NotifyFail (error : string).
Arguments NotifyOk {A} decrypted_data.
Arguments NotifyFail {A} error.

Definition newline : string := String (Ascii.ascii_of_nat 10) EmptyString.

Definition handlePaymentNotify {A} (c : Crypto A) (headers : NotifyHeaders)
    (body : NotifyBody) : NotifyResult A :=
  if negb (wechatPublicKey_loaded c) then NotifyFail "微信支付公钥未加载，无法验签"
  else
    match h_signature headers, h_serial headers, h_nonce headers, h_timestamp headers with
    | Some signature, Some serial, Some nonce, Some timestamp =>
        if negb (JS.truthy_str (Some signature) && JS.truthy_str (Some serial)
                 && JS.truthy_str (Some nonce) && JS.truthy_str (Some timestamp))
        then NotifyFail "缺少必要的签名参数"
        else
          let verifyString :=
            timestamp ++ newline ++ nonce ++ newline ++ nb_text body ++ newline in
          if negb (rsa_verify c verifyString signature)
          then NotifyFail "支付通知签名验证失败"
          else
            match nb_resource body with
            | None => NotifyFail "回调数据缺少resource字段"
            | Some resource =>
                match decryptAES256GCM c resource with
                | inl paymentData => NotifyOk paymentData
                | inr message => NotifyFail message
                end
            end
    | _, _, _, _ => NotifyFail "缺少必要的签名参数"
    end.

(** [generateSuccessResponse] / [generateFailResponse] *)
Definition generateSuccessResponse : Body := NotifyAck "SUCCESS" "成功".
Definition generateFailResponse (message : string) : Body := NotifyAck "FAIL" message.

End Service.

(* ================================================================== *)
(** * WechatPayV3Service.createTransferBill: error path *)

Module Adapter.

(** What the HTTP client throws: status and message of the gateway's
    response when there is one, and the error's own message. *)
Record HttpError := mkHttpError {
  response_status : option Z;
  response_message : option string;
  message : string
}.

(** The [catch] of [createTransferBill]: whatever the request threw is
    replaced by [new Error(`转账失败: ...`)], which has a message only. *)
Definition rethrown (error : HttpError) : ApiError :=
  mkApiError None None
    (Some ("转账失败: " ++ JS.or_str (response_message error) (message error))).

End Adapter.

(* ================================================================== *)
(** * electricianController: withdrawals *)

Module Electrician.
Import Balance.
Local Open Scope handler_scope.

Inductive TxFinished := TxCommit | TxRollback.

(** A Sequelize transaction: the rows created under it and not yet
    committed, and its [finished] flag. *)
Record Tx := mkTx {
  tx_created : list Withdrawal;
  tx_finished : option TxFinished
}.

Definition fresh_tx : Tx := mkTx [] None.

(** State of one [withdraw] call: the shared world and its own
    transaction [t]. *)
Record WState := mkWState {
  ws_world : World;
  ws_tx : Tx
}.

Definition on_world (f : World -> World) : M WState unit :=
  modify (fun s => mkWState (f (ws_world s)) (ws_tx s)).

(** What a query run with [{ transaction: t }] sees. *)
Definition tx_db (s : WState) : DB :=
  set_withdrawals (fun rows => (rows ++ tx_created (ws_tx s))%list) (db (ws_world s)).

(** [Withdrawal.create(values, { transaction: t })] *)
Definition tx_create (values : Z -> Withdrawal) : M WState Withdrawal :=
  fun s =>
    let row := values (Table.next_id w_id (withdrawals (tx_db s))) in
    (Ok row, mkWState (ws_world s)
               (mkTx (tx_created (ws_tx s) ++ [row])%list (tx_finished (ws_tx s)))).

(** [t.commit()] *)
Definition commit : M WState unit :=
  modify (fun s =>
    mkWState (on_db (set_withdrawals (fun rows => (rows ++ tx_created (ws_tx s))%list))
                (ws_world s))
             (mkTx [] (Some TxCommit))).

(** [t.rollback()] *)
Definition rollback : M WState unit :=
  modify (fun s => mkWState (ws_world s) (mkTx [] (Some TxRollback))).

(** [Withdrawal.update(values, { where })] outside any transaction. *)
Definition Withdrawal_update {S} (lift : (World -> World) -> M S unit)
    (values : Withdrawal -> Withdrawal) (where_ : Withdrawal -> bool) : M S unit :=
  lift (on_db (set_withdrawals (Table.update values where_))).

(** A column assigned [undefined] keeps its value. *)
Definition assign (new old : option string) : option string :=
  match new with
  | Some _ => new
  | None => old
  end.

Definition set_processing (transfer_bill_no package_info : option string)
    (w : Withdrawal) : Withdrawal :=
  mkWithdrawal (w_id w) (w_electrician_id w) (w_amount w) WProcessing
    (w_out_batch_no w) (assign transfer_bill_no (w_transfer_bill_no w))
    (assign package_info (w_package_info w)) (w_openid w) (w_real_name w)
    (w_total_income_snapshot w) (w_withdrawn_snapshot w)
    (w_available_balance_snapshot w) (w_fail_reason w) (w_created_at w)
    (w_completed_at w).

(** [{ status: 'failed' | 'cancelled', fail_reason }] *)
Definition set_status_reason (st : WithdrawalStatus) (fail_reason : option string)
    (w : Withdrawal) : Withdrawal :=
  mkWithdrawal (w_id w) (w_electrician_id w) (w_amount w) st
    (w_out_batch_no w) (w_transfer_bill_no w) (w_package_info w) (w_openid w)
    (w_real_name w) (w_total_income_snapshot w) (w_withdrawn_snapshot w)
    (w_available_balance_snapshot w) (assign fail_reason (w_fail_reason w))
    (w_created_at w) (w_completed_at w).

(** [{ status: 'success', completed_at }] *)
Definition set_success (completed_at : Z) (w : Withdrawal) : Withdrawal :=
  mkWithdrawal (w_id w) (w_electrician_id w) (w_amount w) WSuccess
    (w_out_batch_no w) (w_transfer_bill_no w) (w_package_info w) (w_openid w)
    (w_real_name w) (w_total_income_snapshot w) (w_withdrawn_snapshot w)
    (w_available_balance_snapshot w) (w_fail_reason w) (w_created_at w)
    (Some completed_at).

(** [{ status: 'cancelled', fail_reason, completed_at }] *)
Definition set_cancelled (fail_reason : string) (completed_at : Z)
    (w : Withdrawal) : Withdrawal :=
  mkWithdrawal (w_id w) (w_electrician_id w) (w_amount w) WCancelled
    (w_out_batch_no w) (w_transfer_bill_no w) (w_package_info w) (w_openid w)
    (w_real_name w) (w_total_income_snapshot w) (w_withdrawn_snapshot w)
    (w_available_balance_snapshot w) (Some fail_reason) (w_created_at w)
    (Some completed_at).

(** [['success', 'failed', 'cancelled'].includes(status)] *)
Definition is_terminal (st : WithdrawalStatus) : bool :=
  match st with
  | WSuccess | WFailed | WCancelled => true
  | WPending | WProcessing => false
  end.

(** [generateOutBatchNo] *)
Definition generateOutBatchNo (timestamp : Z) (electricianId : Z) (random : string) : string :=
  JS.substring0 32 ("W" ++ JS.int_text timestamp ++ JS.int_text electricianId ++ random).

(** Input of [withdraw]: [req.user.id], [req.body.amount], and the
    clock and random bytes the call draws. *)
Record WithdrawReq := mkWithdrawReq {
  wr_user_id : Z;
  wr_amount : option Q;
  wr_now : Z;
  wr_random : string
}.

(** The values the part of [withdraw] after the commit closes over. *)
Record Transfer := mkTransfer {
  tf_withdrawal_id : Z;
  tf_outBatchNo : string;
  tf_openid : string;
  tf_real_name : string;
  tf_withdrawAmount : Q
}.

(** [!user || !user.openid] fails, giving the openid. *)
Definition bound_openid (user : option User) : option string :=
  match user with
  | Some u => if JS.truthy_str (u_openid u) then u_openid u else None
  | None => None
  end.

(** [!certification || !certification.real_name] fails, giving the name. *)
Definition legal_name (certification : option ElectricianCertification) : option string :=
  match certification with
  | Some c => if JS.truthy_str (c_real_name c) then c_real_name c else None
  | None => None
  end.

(** [User.findByPk(electricianId)] *)
Definition User_findByPk (d : DB) (electricianId : Z) : option User :=
  Table.findOne (fun u => u_id u =? electricianId) (users d).

(** [ElectricianCertification.findOne({ where: { user_id, status:
    'approved' } })] *)
Definition approved_certification (d : DB) (electricianId : Z) : option ElectricianCertification :=
  Table.findOne (fun c => (c_user_id c =? electricianId)
                          && String.eqb (c_status c) "approved")
                (certifications d).

Definition minWithdrawAmount : Q := 1 # 10.

(** [amount ? Number(amount) : balance.availableBalance] *)
Definition requestedAmount (amount : option Q) (availableBalance : Q) : Q :=
  match amount with
  | Some a => if JS.truthy_num (Some a) then a else availableBalance
  | None => availableBalance
  end.

Definition err_processing : Exn :=
  AppError "您有提现申请正在处理中，请等待处理完成后再试" 400.
Definition err_no_openid : Exn := AppError "用户未绑定微信，无法提现" 400.
Definition err_no_real_name : Exn := AppError "请先完成实名认证" 400.
Definition err_below_minimum : Exn := AppError "提现金额不能低于0.10元" 400.
Definition err_insufficient (availableBalance : Q) : Exn :=
  AppError ("余额不足，可用余额：¥" ++ JS.number_text availableBalance) 400.

(** The row [Withdrawal.create] inserts: [pending], carrying the balance
    snapshot.  [amount] is a [DECIMAL(10,2)] column and the request's amount
    is not validated, so the row holds what the database makes of it
    ([Table.decimal_10_2]); the snapshots are two-decimal numbers as
    [calculateBalance] returns them. *)
Definition new_withdrawal (req : WithdrawReq) (balance : Balance.t)
    (withdrawAmount : Q) (outBatchNo openid real_name : string) (id : Z) : Withdrawal :=
  mkWithdrawal id (wr_user_id req) (Table.decimal_10_2 withdrawAmount) WPending outBatchNo None None
    openid real_name (totalIncome balance) (withdrawnAmount balance)
    (availableBalance balance) None (wr_now req) None.

(** [withdraw], steps 1 to 7: everything done under the transaction,
    up to and including the commit. *)
Definition withdraw_reserve (req : WithdrawReq) : M WState Transfer :=
  let electricianId := wr_user_id req in
  d <- gets tx_db ;;
  let processingWithdrawal :=
    Table.findOne (fun w => (w_electrician_id w =? electricianId)
                            && wstatus_eqb (w_status w) WProcessing)
                  (withdrawals d) in
  match processingWithdrawal with
  | Some _ => throw err_processing
  | None =>
  let user := User_findByPk d electricianId in
  match bound_openid user with
  | None => throw err_no_openid
  | Some openid =>
  let certification := approved_certification d electricianId in
  match legal_name certification with
  | None => throw err_no_real_name
  | Some real_name =>
  let balance := calculateBalance d electricianId in
  let withdrawAmount := requestedAmount (wr_amount req) (availableBalance balance) in
  throw_if (JS.Qltb withdrawAmount minWithdrawAmount) err_below_minimum ;;;
  throw_if (JS.Qltb (availableBalance balance) withdrawAmount)
           (err_insufficient (availableBalance balance)) ;;;
  let outBatchNo := generateOutBatchNo (wr_now req) electricianId (wr_random req) in
  withdrawal <- tx_create
    (new_withdrawal req balance withdrawAmount outBatchNo openid real_name) ;;
  commit ;;;
  ret (mkTransfer (w_id withdrawal) outBatchNo openid real_name withdrawAmount)
  end end end.

(** [wechatPayService.createTransferBill(params)]: the call is logged,
    the oracle answers, a failure is thrown. *)
Definition call_createTransferBill (gw : Gateway) (p : TransferParams) : M WState TransferResult :=
  on_world (log_call (CallCreateTransferBill p)) ;;;
  match createTransferBill gw p with
  | Returned r => ret r
  | Failed e => throw (GatewayError e)
  end.

(** [apiError.status === 429 || apiError.code === 'FREQUENCY_LIMIT_EXCEED'] *)
Definition is_rate_limit (apiError : Exn) : bool :=
  match apiError with
  | GatewayError e =>
      opt_Z_eqb (e_status e) 429
      || match e_code e with
         | Some c => String.eqb c "FREQUENCY_LIMIT_EXCEED"
         | None => false
         end
  | AppError _ _ | JsError _ => false
  end.

(** [apiError.message] *)
Definition exn_message_opt (e : Exn) : option string :=
  match e with
  | AppError m _ => Some m
  | GatewayError a => e_message a
  | JsError m => Some m
  end.

(** The [transferParams] object (amount in yuan). *)
Definition transferParams (tf : Transfer) : TransferParams :=
  mkTransferParams (tf_outBatchNo tf) "1005" (tf_openid tf) (tf_real_name tf)
    (tf_withdrawAmount tf) "电工收入提现" "劳务报酬".

(** [withdraw], steps 8 to 10 with their own try/catch: the transfer
    request after the commit. *)
Definition withdraw_transfer (gw : Gateway) (tf : Transfer) : M WState Response :=
  try_catch
    (transferResult <- call_createTransferBill gw (transferParams tf) ;;
     Withdrawal_update on_world
       (set_processing
          (JS.or_opt (tr_transfer_bill_no transferResult) (tr_out_bill_no transferResult))
          (tr_package_info transferResult))
       (fun w => w_id w =? tf_withdrawal_id tf) ;;;
     ret (Json 200
            (WithdrawSubmitted (tf_withdrawal_id tf) (tf_withdrawAmount tf) WProcessing
               (tf_outBatchNo tf) (tr_transfer_bill_no transferResult)
               (tr_package_info transferResult)
               (JS.or_str (tr_state transferResult) "WAIT_USER_CONFIRM"))))
    (fun apiError =>
       if is_rate_limit apiError then
         Withdrawal_update on_world
           (set_status_reason WFailed (Some "请求过于频繁，请稍后再试"))
           (fun w => w_id w =? tf_withdrawal_id tf) ;;;
         throw (AppError "提现请求过于频繁，请5分钟后再试" 429)
       else
         Withdrawal_update on_world
           (set_status_reason WFailed
              (Some (JS.or_str (exn_message_opt apiError) "微信转账接口调用失败")))
           (fun w => w_id w =? tf_withdrawal_id tf) ;;;
         throw (AppError ("提现申请失败：" ++ message_text (exn_message_opt apiError)) 500)).

(** The outer [catch (error)] of [withdraw]. *)
Definition withdraw_catch (error : Exn) : M WState Response :=
  t <- gets ws_tx ;;
  match tx_finished t with
  | None => rollback
  | Some _ => ret tt
  end ;;;
  if opt_Z_eqb (exn_statusCode error) 429 then
    ret (Json 429 (RateLimited (exn_message error) "RATE_LIMIT_EXCEEDED"))
  else
    ret (Next error).

(** [exports.withdraw] *)
Definition withdraw_body (gw : Gateway) (req : WithdrawReq) : M WState Response :=
  try_catch
    (tf <- withdraw_reserve req ;; withdraw_transfer gw tf)
    withdraw_catch.

Definition withdraw (gw : Gateway) (req : WithdrawReq) (w : World) : Response * WState :=
  respond (withdraw_body gw req) (mkWState w fresh_tx).

(* ---------------------------------------------------------------- *)
(** ** Status query, webhook and cancellation (plain [World] state) *)

Definition id_lift (f : World -> World) : M World unit := modify f.

Definition call_queryTransferBill (gw : Gateway) (out_bill_no : string) : M World TransferQuery :=
  modify (log_call (CallQueryTransferBill out_bill_no)) ;;;
  match queryTransferBill gw out_bill_no with
  | Returned r => ret r
  | Failed e => throw (GatewayError e)
  end.

Definition call_cancelTransferBill (gw : Gateway) (out_bill_no : string) : M World CancelResult :=
  modify (log_call (CallCancelTransferBill out_bill_no)) ;;;
  match cancelTransferBill gw out_bill_no with
  | Returned r => ret r
  | Failed e => throw (GatewayError e)
  end.

Definition view (w : Withdrawal) (wechat_state query_error : option string) : WithdrawalView :=
  mkView (w_id w) (w_amount w) (w_status w) (w_out_batch_no w) (w_transfer_bill_no w)
    (w_fail_reason w) (w_created_at w) (w_completed_at w) wechat_state query_error.

(** The [updateData] object built from the state the gateway reports:
    [None] is the empty object. *)
Definition updateData_of_query (now : Z) (cancelled_reason : string)
    (queryResult : TransferQuery) : option (Withdrawal -> Withdrawal) :=
  if String.eqb (tq_state queryResult) "SUCCESS" then Some (set_success now)
  else if String.eqb (tq_state queryResult) "FAIL" then
    Some (set_status_reason WFailed
            (Some (JS.or_str (tq_fail_reason queryResult) "转账失败")))
  else if String.eqb (tq_state queryResult) "CANCELLED" then
    Some (set_status_reason WCancelled (Some cancelled_reason))
  else None.

(** [if (Object.keys(updateData).length > 0) await Withdrawal.update(...)] *)
Definition apply_updateData (updateData : option (Withdrawal -> Withdrawal))
    (where_ : Withdrawal -> bool) : M World unit :=
  match updateData with
  | Some values => Withdrawal_update id_lift values where_
  | None => ret tt
  end.

Record StatusQuery := mkStatusQuery {
  sq_user_id : option Z;            (* req.user && req.user.id *)
  sq_withdrawal_id : option Z;      (* req.query.withdrawal_id *)
  sq_out_batch_no : option string;  (* req.query.out_batch_no *)
  sq_now : Z
}.

(** The [where] object of the status query: the caller's rows, narrowed
    by id when [withdrawal_id] is given, else by batch number; [None] when
    neither is given. *)
Definition status_where (electricianId : Z) (req : StatusQuery) : option (Withdrawal -> bool) :=
  match sq_withdrawal_id req with
  | Some wid =>
      Some (fun w => (w_electrician_id w =? electricianId) && (w_id w =? wid))
  | None =>
      if JS.truthy_str (sq_out_batch_no req) then
        Some (fun w => (w_electrician_id w =? electricianId)
                       && String.eqb (w_out_batch_no w)
                            (JS.or_str (sq_out_batch_no req) ""))
      else None
  end.

(** [req.user && req.user.id]: [None] when it is falsy. *)
Definition authenticated (user_id : option Z) : option Z :=
  match user_id with
  | Some i => if i =? 0 then None else Some i
  | None => None
  end.

(** [exports.queryWithdrawalStatus] *)
Definition queryWithdrawalStatus_body (gw : Gateway) (req : StatusQuery) : M World Response :=
  match authenticated (sq_user_id req) with
  | None => ret (Json 401 (Unauthenticated "用户未认证，请重新登录"))
  | Some electricianId =>
    try_catch
      (where_ <-
         match status_where electricianId req with
         | Some where_ => ret where_
         | None => throw (AppError "缺少查询参数" 400)
         end ;;
       d <- gets db ;;
       match Table.findOne where_ (withdrawals d) with
       | None => throw (AppError "提现记录不存在" 404)
       | Some withdrawal =>
         if is_terminal (w_status withdrawal) then
           ret (Json 200 (WithdrawalData (view withdrawal None None)))
         else
           try_catch
             (queryResult <- call_queryTransferBill gw (w_out_batch_no withdrawal) ;;
              apply_updateData (updateData_of_query (sq_now req) "用户取消" queryResult)
                (fun w => w_id w =? w_id withdrawal) ;;;
              d' <- gets db ;;
              match Table.findOne (fun w => w_id w =? w_id withdrawal) (withdrawals d') with
              | Some updatedWithdrawal =>
                  ret (Json 200 (WithdrawalData
                         (view updatedWithdrawal (Some (tq_state queryResult)) None)))
              | None => throw (JsError "Cannot read properties of null")
              end)
             (fun apiError =>
                ret (Json 200 (WithdrawalData
                       (view withdrawal None (exn_message_opt apiError)))))
       end)
      (fun error => ret (Next error))
  end.

Definition queryWithdrawalStatus (gw : Gateway) (req : StatusQuery) (w : World) : Response * World :=
  respond (queryWithdrawalStatus_body gw req) w.

(** Payload of a transfer notification after decryption. *)
Record TransferNotice := mkTransferNotice {
  tn_out_bill_no : option string;
  tn_state : option string;
  tn_transfer_state : option string
}.

Record CallbackReq := mkCallbackReq {
  cb_headers : Service.NotifyHeaders;
  cb_body : Service.NotifyBody;
  cb_now : Z
}.

(** [exports.withdrawalCallback]: after the signature check the handler
    asks the gateway for the state and applies what the gateway says. *)
Definition withdrawalCallback_body (c : Service.Crypto TransferNotice) (gw : Gateway)
    (req : CallbackReq) : M World Response :=
  try_catch
    (match Service.handlePaymentNotify c (cb_headers req) (cb_body req) with
     | Service.NotifyFail _ => throw (AppError "签名验证失败" 400)
     | Service.NotifyOk decrypted_data =>
       (if JS.truthy_str (tn_out_bill_no decrypted_data) then
          let out_bill_no := JS.or_str (tn_out_bill_no decrypted_data) "" in
          try_catch
            (queryResult <- call_queryTransferBill gw out_bill_no ;;
             apply_updateData (updateData_of_query (cb_now req) "用户取消" queryResult)
               (fun w => String.eqb (w_out_batch_no w) out_bill_no))
            (fun queryError => ret tt)
        else ret tt) ;;;
       ret (Json 200 (NotifyAck "SUCCESS" "成功"))
     end)
    (fun error => ret (Json 500 (NotifyAck "FAIL" (exn_message error)))).

Definition withdrawalCallback (c : Service.Crypto TransferNotice) (gw : Gateway)
    (req : CallbackReq) (w : World) : Response * World :=
  respond (withdrawalCallback_body c gw req) w.

Record PathQuery := mkPathQuery {
  pq_user_id : Z;          (* req.user.id *)
  pq_outBatchNo : string;  (* req.params.outBatchNo *)
  pq_now : Z
}.

Definition status_upper (st : WithdrawalStatus) : string :=
  match st with
  | WPending => "PENDING"
  | WProcessing => "PROCESSING"
  | WSuccess => "SUCCESS"
  | WFailed => "FAILED"
  | WCancelled => "CANCELLED"
  end.

Definition by_batch_and_owner (outBatchNo : string) (electricianId : Z) (w : Withdrawal) : bool :=
  String.eqb (w_out_batch_no w) outBatchNo && (w_electrician_id w =? electricianId).

(** [exports.getWithdrawalStatus] (path-parameter variant of the query) *)
Definition getWithdrawalStatus_body (gw : Gateway) (req : PathQuery) : M World Response :=
  try_catch
    (d <- gets db ;;
     match Table.findOne (by_batch_and_owner (pq_outBatchNo req) (pq_user_id req))
             (withdrawals d) with
     | None => throw (AppError "提现记录不存在" 404)
     | Some withdrawal =>
       if is_terminal (w_status withdrawal) then
         ret (Json 200 (WithdrawalData
                (view withdrawal (Some (status_upper (w_status withdrawal))) None)))
       else
         r <- try_catch
                (queryResult <- call_queryTransferBill gw (pq_outBatchNo req) ;;
                 (* [withdrawal.update(updateData)]: instance update *)
                 apply_updateData
                   (updateData_of_query (pq_now req) "用户取消收款" queryResult)
                   (fun w => w_id w =? w_id withdrawal) ;;;
                 ret (inl (tq_state queryResult)))
                (fun apiError =>
                   ret (inr (Json 200 (WithdrawalData
                          (view withdrawal None
                             (Some ("查询失败: " ++ message_text (exn_message_opt apiError)))))))) ;;
         match r with
         | inr early => ret early
         | inl wechatState =>
           d' <- gets db ;;
           match Table.findOne (fun w => w_id w =? w_id withdrawal) (withdrawals d') with
           | Some updatedWithdrawal =>
               ret (Json 200 (WithdrawalData (view updatedWithdrawal (Some wechatState) None)))
           | None => throw (JsError "Cannot read properties of null")
           end
         end
     end)
    (fun error => ret (Next error)).

Definition getWithdrawalStatus (gw : Gateway) (req : PathQuery) (w : World) : Response * World :=
  respond (getWithdrawalStatus_body gw req) w.

(** [exports.cancelWithdrawal].  Database writes always succeed here, so
    the branch that repairs the [status] enum after a truncation error and
    retries the same update is not taken. *)
Definition cancelWithdrawal_body (gw : Gateway) (req : PathQuery) : M World Response :=
  try_catch
    (d <- gets db ;;
     match Table.findOne (by_batch_and_owner (pq_outBatchNo req) (pq_user_id req))
             (withdrawals d) with
     | None => throw (AppError "提现记录不存在" 404)
     | Some withdrawal =>
       if is_terminal (w_status withdrawal) then
         ret (Json 200 (WithdrawalData (view withdrawal None None)))
       else
         cancelResult <- call_cancelTransferBill gw (pq_outBatchNo req) ;;
         (* [withdrawal.update({...})]: instance update *)
         Withdrawal_update id_lift (set_cancelled "用户取消" (pq_now req))
           (fun w => w_id w =? w_id withdrawal) ;;;
         ret (Json 200 (WithdrawalData
                (mkView (w_id withdrawal) (w_amount withdrawal) WCancelled
                   (w_out_batch_no withdrawal)
                   (JS.or_opt (cr_transfer_bill_no cancelResult)
                              (w_transfer_bill_no withdrawal))
                   None (w_created_at withdrawal) (Some (pq_now req))
                   (cr_state cancelResult) None)))
     end)
    (fun error => ret (Next error)).

Definition cancelWithdrawal (gw : Gateway) (req : PathQuery) (w : World) : Response * World :=
  respond (cancelWithdrawal_body gw req) w.

End Electrician.

(** The webhook of the earlier controller revision, still present in the
    repository: it trusts the state carried by the notification and has no
    [cancelled] status. *)
Module LegacyCallback.
Import Electrician.
Local Open Scope handler_scope.

(** What [decryptCallback(req.body)] yields. *)
Record Decrypted := mkDecrypted {
  out_bill_no : string;
  fail_reason : option string;
  state : option string;
  transfer_state : option string
}.

(** [verifySignature(req)] and [decryptCallback(req.body)] as oracles
    ([inr] carries the message of the error thrown). *)
Record CallbackReq := mkReq {
  isValid : bool;
  decrypted : Decrypted + string;
  now : Z
}.

Definition updateData_of_state (now : Z) (fail_reason : option string)
    (transferState : option string) : option (Withdrawal -> Withdrawal) :=
  match transferState with
  | Some s =>
      if String.eqb s "SUCCESS" then Some (set_success now)
      else if String.eqb s "FAIL" || String.eqb s "CANCELLED" then
        Some (set_status_reason WFailed (Some (JS.or_str fail_reason "转账失败")))
      else None
  | None => None
  end.

Definition withdrawalCallback_body (req : CallbackReq) : M World Response :=
  try_catch
    (throw_if (negb (isValid req)) (AppError "签名验证失败" 400) ;;;
     match decrypted req with
     | inr message => throw (JsError message)
     | inl result =>
       let transferState := JS.or_opt (state result) (transfer_state result) in
       apply_updateData (updateData_of_state (now req) (fail_reason result) transferState)
         (fun w => String.eqb (w_out_batch_no w) (out_bill_no result)) ;;;
       ret (Json 200 (NotifyAck "SUCCESS" "成功"))
     end)
    (fun error => ret (Json 500 (NotifyAck "FAIL" (exn_message error)))).

Definition withdrawalCallback (req : CallbackReq) (w : World) : Response * World :=
  respond (withdrawalCallback_body req) w.

End LegacyCallback.

(* ================================================================== *)
(** * paymentController: webhook and status query *)

Module PaymentCtl.
Local Open Scope handler_scope.

(** Payload of a payment notification after decryption. *)
Record PaymentNotice := mkNotice {
  out_trade_no : string;
  transaction_id : option string;
  trade_state : string;
  success_time : option Z
}.

Definition assign_opt {A} (new old : option A) : option A :=
  match new with
  | Some _ => new
  | None => old
  end.

(** [{ status: 'success', transaction_id, paid_at }] *)
Definition set_paid (transaction_id : option string) (paid_at : Z) (p : Payment) : Payment :=
  mkPayment (p_id p) (p_order_id p) (p_user_id p) (p_amount p) (p_payment_method p)
    (p_out_trade_no p) (p_type p) PSuccess
    (assign_opt transaction_id (p_transaction_id p)) (Some paid_at) (p_failed_reason p).

(** [{ status: 'expired', failed_reason }] *)
Definition set_expired (failed_reason : string) (p : Payment) : Payment :=
  mkPayment (p_id p) (p_order_id p) (p_user_id p) (p_amount p) (p_payment_method p)
    (p_out_trade_no p) (p_type p) PExpired (p_transaction_id p) (p_paid_at p)
    (Some failed_reason).

(** [{ status: 'pending', prepaid_at }] *)
Definition set_order_prepaid (now : Z) (o : Order) : Order :=
  mkOrder (o_id o) (o_order_no o) (o_user_id o) (o_electrician_id o) "pending"
    (Some now) (o_repair_paid_at o).

(** [{ status: 'in_progress', repair_paid_at }] *)
Definition set_order_in_progress (now : Z) (o : Order) : Order :=
  mkOrder (o_id o) (o_order_no o) (o_user_id o) (o_electrician_id o) "in_progress"
    (o_prepaid_at o) (Some now).

Definition Payment_update (values : Payment -> Payment) (where_ : Payment -> bool) : M World unit :=
  modify (on_db (set_payments (Table.update values where_))).

Definition Order_update (values : Order -> Order) (where_ : Order -> bool) : M World unit :=
  modify (on_db (set_orders (Table.update values where_))).

Definition OrderStatusLog_create (l : OrderStatusLog) : M World unit :=
  modify (on_db (add_status_log l)).

Definition Message_create (m : Message) : M World unit :=
  modify (on_db (add_message m)).

Definition by_out_trade_no (no : string) (p : Payment) : bool :=
  String.eqb (p_out_trade_no p) no.

(** [transitionRepairPaymentSuccess(order, operatorId)] with the default
    remark; [operatorId] is falsy when missing or [0]. *)
Definition transitionRepairPaymentSuccess (now : Z) (order : Order) (operatorId : option Z) : M World unit :=
  let operator_given :=
    match operatorId with
    | Some i => negb (i =? 0)
    | None => false
    end in
  Order_update (set_order_in_progress now) (fun o => o_id o =? o_id order) ;;;
  OrderStatusLog_create
    (mkOrderStatusLog (o_id order) (Some (o_status order)) "in_progress"
       (match operatorId with
        | Some i => if i =? 0 then o_user_id order else i
        | None => o_user_id order
        end)
       (if operator_given then "user" else "system")
       "维修费支付成功，订单进入维修中") ;;;
  Message_create
    (mkMessage (o_user_id order) "维修费支付成功"
       ("您的工单 " ++ o_order_no order ++ " 维修费已支付成功，电工即将上门维修。")
       "order" (o_id order)) ;;;
  match o_electrician_id order with
  | Some electrician_id =>
      if electrician_id =? 0 then ret tt
      else
        Message_create
          (mkMessage electrician_id "用户已支付维修费"
             ("工单 " ++ o_order_no order ++ " 用户已支付维修费，请尽快安排维修。")
             "order" (o_id order))
  | None => ret tt
  end.

(** The prepay branch shared, word for word, by the webhook and the
    status query. *)
Definition prepay_success (now : Z) (payment : Payment) (order : Order) : M World unit :=
  Order_update (set_order_prepaid now) (fun o => o_id o =? p_order_id payment) ;;;
  OrderStatusLog_create
    (mkOrderStatusLog (p_order_id payment) None "pending" (o_user_id order) "user"
       "预付款支付成功，进入待接单") ;;;
  Message_create
    (mkMessage (o_user_id order) "预付款支付成功"
       ("您的工单 " ++ o_order_no order ++ " 预付款已支付成功，现已进入待接单。")
       "order" (o_id order)).

Record NotifyReq := mkNotifyReq {
  nr_headers : Service.NotifyHeaders;
  nr_body : Service.NotifyBody;
  nr_now : Z
}.

(** [PaymentController.wechatNotify] *)
Definition wechatNotify_body (c : Service.Crypto PaymentNotice) (req : NotifyReq) : M World Response :=
  try_catch
    (match Service.handlePaymentNotify c (nr_headers req) (nr_body req) with
     | Service.NotifyFail error => ret (Json 200 (Service.generateFailResponse error))
     | Service.NotifyOk notifyResult =>
       d <- gets db ;;
       match Table.findOne (by_out_trade_no (out_trade_no notifyResult)) (payments d) with
       | None => ret (Json 200 (Service.generateFailResponse "支付记录不存在"))
       | Some payment =>
         if pstatus_eqb (p_status payment) PSuccess then
           ret (Json 200 Service.generateSuccessResponse)
         else
           Payment_update
             (set_paid (transaction_id notifyResult)
                (match success_time notifyResult with
                 | Some t => t
                 | None => nr_now req
                 end))
             (by_out_trade_no (out_trade_no notifyResult)) ;;;
           d' <- gets db ;;
           match Table.findOne (fun o => o_id o =? p_order_id payment) (orders d') with
           | Some order =>
               if ptype_eqb (p_type payment) Prepay
               then prepay_success (nr_now req) payment order
               else transitionRepairPaymentSuccess (nr_now req) order (Some (o_user_id order))
           | None => ret tt
           end ;;;
           ret (Json 200 Service.generateSuccessResponse)
       end
     end)
    (fun error => ret (Json 200 (Service.generateFailResponse "处理失败"))).

Definition wechatNotify (c : Service.Crypto PaymentNotice) (req : NotifyReq) (w : World) : Response * World :=
  respond (wechatNotify_body c req) w.

Definition call_queryOrder (gw : Gateway) (outTradeNo : string) : M World OrderQuery :=
  modify (log_call (CallQueryOrder outTradeNo)) ;;;
  match queryOrder gw outTradeNo with
  | Returned r => ret r
  | Failed e => throw (GatewayError e)
  end.

Record QueryReq := mkQueryReq {
  qr_payment_no : string;  (* req.params.payment_no *)
  qr_user_id : Z;          (* req.user.id *)
  qr_now : Z
}.

(** The branch of [queryPayment] taken when the gateway reports
    [SUCCESS]; it yields the payment row read back afterwards. *)
Definition query_success (req : QueryReq) (payment : Payment) (queryResult : OrderQuery) : M World (option Payment) :=
  Payment_update (set_paid (oq_transaction_id queryResult) (qr_now req))
    (by_out_trade_no (qr_payment_no req)) ;;;
  d <- gets db ;;
  match Table.findOne (fun o => o_id o =? p_order_id payment) (orders d) with
  | Some order =>
      if ptype_eqb (p_type payment) Prepay
      then prepay_success (qr_now req) payment order
      else
        OrderStatusLog_create
          (mkOrderStatusLog (p_order_id payment) None "pending_repair_payment"
             (o_user_id order) "user" "维修费支付成功") ;;;
        Message_create
          (mkMessage (o_user_id order) "维修费支付成功"
             ("您的工单 " ++ o_order_no order ++ " 维修费已支付成功，请等待电工开始维修。")
             "order" (o_id order))
  | None => ret tt
  end ;;;
  d' <- gets db ;;
  ret (Table.findOne (by_out_trade_no (qr_payment_no req)) (payments d')).

(** [PaymentController.queryPayment] *)
Definition queryPayment_body (gw : Gateway) (req : QueryReq) : M World Response :=
  try_catch
    (d <- gets db ;;
     match Table.findOne (by_out_trade_no (qr_payment_no req)) (payments d) with
     | None => ret (Json 404 (ErrorBody "支付记录不存在"))
     | Some payment =>
       if negb (p_user_id payment =? qr_user_id req)
       then ret (Json 403 (ErrorBody "无权限查看此支付"))
       else
         payment' <-
           (if pstatus_eqb (p_status payment) PPending
               && pmethod_eqb (p_payment_method payment) Wechat
            then
              try_catch
                (queryResult <- call_queryOrder gw (qr_payment_no req) ;;
                 if oq_success queryResult && String.eqb (oq_trade_state queryResult) "SUCCESS"
                 then query_success req payment queryResult
                 else if oq_success queryResult
                         && String.eqb (oq_trade_state queryResult) "CLOSED"
                 then
                   Payment_update (set_expired "支付超时关闭")
                     (by_out_trade_no (qr_payment_no req)) ;;;
                   d' <- gets db ;;
                   ret (Table.findOne (by_out_trade_no (qr_payment_no req)) (payments d'))
                 else ret (Some payment))
                (fun error => ret (Some payment))
            else ret (Some payment)) ;;
         ret (Json 200 (PaymentData payment'))
     end)
    (fun error => ret (Next error)).

Definition queryPayment (gw : Gateway) (req : QueryReq) (w : World) : Response * World :=
  respond (queryPayment_body gw req) w.

End PaymentCtl.

(* ================================================================== *)
(** * The service as a whole *)

Module System.
Import Electrician.

(** One HTTP request together with the answers the outside world gives
    while it is served. *)
Inductive Request :=
| Withdraw (gw : Gateway) (req : WithdrawReq)
| QueryWithdrawalStatus (gw : Gateway) (req : StatusQuery)
| GetWithdrawalStatus (gw : Gateway) (req : PathQuery)
| WithdrawalCallback (c : Service.Crypto TransferNotice) (gw : Gateway) (req : CallbackReq)
| CancelWithdrawal (gw : Gateway) (req : PathQuery)
| WechatNotify (c : Service.Crypto PaymentCtl.PaymentNotice) (req : PaymentCtl.NotifyReq)
| QueryPayment (gw : Gateway) (req : PaymentCtl.QueryReq).

(** Serving a request from start to end. *)
Definition handle (r : Request) (w : World) : Response * World :=
  match r with
  | Withdraw gw req => let (resp, s) := withdraw gw req w in (resp, ws_world s)
  | QueryWithdrawalStatus gw req => queryWithdrawalStatus gw req w
  | GetWithdrawalStatus gw req => getWithdrawalStatus gw req w
  | WithdrawalCallback c gw req => withdrawalCallback c gw req w
  | CancelWithdrawal gw req => cancelWithdrawal gw req w
  | WechatNotify c req => PaymentCtl.wechatNotify c req w
  | QueryPayment gw req => PaymentCtl.queryPayment gw req w
  end.

(** Requests served one after the other. *)
Fixpoint run (rs : list Request) (w : World) : World :=
  match rs with
  | [] => w
  | r :: rest => run rest (snd (handle r w))
  end.

(** *** Overlapping [withdraw] calls

    [withdraw] suspends at the gateway call, after its transaction is
    committed; other requests are served meanwhile.  A call is cut at
    that point: [withdraw_begin] runs it up to the commit (or to its
    rejection), [withdraw_resume] runs the rest once the gateway has
    answered. *)

Definition withdraw_begin (req : WithdrawReq) (w : World) : (Response + Transfer) * World :=
  match withdraw_reserve req (mkWState w fresh_tx) with
  | (Ok tf, s) => (inr tf, ws_world s)
  | (Thrown e, s) => (inl (fst (respond (withdraw_catch e) s)),
                      ws_world (snd (respond (withdraw_catch e) s)))
  end.

Definition withdraw_resume (gw : Gateway) (tf : Transfer) (w : World) : Response * World :=
  let r := respond (try_catch (withdraw_transfer gw tf) withdraw_catch)
             (mkWState w (mkTx [] (Some TxCommit))) in
  (fst r, ws_world (snd r)).

Inductive Event :=
| Begin (req : WithdrawReq)
| Resume (gw : Gateway) (k : nat)
| Serve (r : Request).

(** The world and the [withdraw] calls waiting for the gateway. *)
Record Sys := mkSys {
  world : World;
  waiting : list Transfer
}.

Fixpoint remove_nth {A} (k : nat) (l : list A) : list A :=
  match l, k with
  | [], _ => []
  | _ :: r, O => r
  | x :: r, S k' => x :: remove_nth k' r
  end.

Definition step (e : Event) (s : Sys) : Sys :=
  match e with
  | Begin req =>
      match withdraw_begin req (world s) with
      | (inr tf, w') => mkSys w' (waiting s ++ [tf])
      | (inl _, w') => mkSys w' (waiting s)
      end
  | Resume gw k =>
      match nth_error (waiting s) k with
      | Some tf => mkSys (snd (withdraw_resume gw tf (world s))) (remove_nth k (waiting s))
      | None => s
      end
  | Serve r => mkSys (snd (handle r (world s))) (waiting s)
  end.

Fixpoint run_events (es : list Event) (s : Sys) : Sys :=
  match es with
  | [] => s
  | e :: rest => run_events rest (step e s)
  end.

End System.

(* ================================================================== *)
(** * Vocabulary of the specification *)

Module Spec.

(** A value of a [DECIMAL(10,2)] column: a whole number of hundredths. *)
Definition decimal2 (q : Q) : Prop := exists c : Z, (q == inject_Z c / 100)%Q.

(** Every amount of the ledger is a [DECIMAL(10,2)] value. *)
Definition ledger_decimal2 (d : DB) : Prop :=
  Forall (fun p => decimal2 (p_amount p)) (payments d)
  /\ Forall (fun w => decimal2 (w_amount w)) (withdrawals d).

(** Sum of [amount] over the withdrawals of an electrician that are in
    a given status. *)
Fixpoint sum_amount (electricianId : Z) (st : WithdrawalStatus) (rows : list Withdrawal) : Q :=
  match rows with
  | [] => 0%Q
  | w :: rest =>
      if (w_electrician_id w =? electricianId) && wstatus_eqb (w_status w) st
      then (w_amount w + sum_amount electricianId st rest)%Q
      else sum_amount electricianId st rest
  end.

(** Number of [processing] withdrawals of an electrician. *)
Fixpoint processing_count (electricianId : Z) (rows : list Withdrawal) : nat :=
  match rows with
  | [] => O
  | w :: rest =>
      if (w_electrician_id w =? electricianId) && wstatus_eqb (w_status w) WProcessing
      then S (processing_count electricianId rest)
      else processing_count electricianId rest
  end.

Definition at_most_one_processing (d : DB) : Prop :=
  forall electricianId, (processing_count electricianId (withdrawals d) <= 1)%nat.

(** The three snapshot columns of a row, with its primary key. *)
Definition snapshot (w : Withdrawal) : Z * (Q * Q * Q) :=
  (w_id w, (w_total_income_snapshot w, w_withdrawn_snapshot w,
            w_available_balance_snapshot w)).


(** A row update that leaves primary key, snapshot, owner and batch
    number alone. *)
Definition keeps (f : Withdrawal -> Withdrawal) : Prop :=
  forall x, snapshot (f x) = snapshot x
            /\ w_electrician_id (f x) = w_electrician_id x
            /\ w_out_batch_no (f x) = w_out_batch_no x.

(** A row update that writes a terminal status. *)
Definition settles (f : Withdrawal -> Withdrawal) : Prop :=
  forall x, Electrician.is_terminal (w_status (f x)) = true.

(** [rows'] is [rows] after some of its rows were moved to a terminal
    status. *)
Definition settled_from (rows rows' : list Withdrawal) : Prop :=
  exists f p, keeps f /\ settles f /\ rows' = Table.update f p rows.

(** Every row of [rows] is still in [rows'], at its place and with its
    snapshot. *)
Definition snapshots_kept (rows rows' : list Withdrawal) : Prop :=
  exists more, List.map snapshot rows' = (List.map snapshot rows ++ more)%list.

(** State of a [withdraw] call right after its commit: the new row is in
    the table and the transaction is finished. *)
Definition committed (w : World) (new : Withdrawal) : Electrician.WState :=
  Electrician.mkWState
    (on_db (set_withdrawals (fun rows => (rows ++ [new])%list)) w)
    (Electrician.mkTx [] (Some Electrician.TxCommit)).

(** The world after the transfer request of a [withdraw] call was
    answered and its row updated with [f]. *)
Definition after_transfer (tf : Electrician.Transfer) (f : Withdrawal -> Withdrawal)
    (w : World) : World :=
  on_db (set_withdrawals
           (Table.update f (fun x => w_id x =? Electrician.tf_withdrawal_id tf)))
    (log_call (CallCreateTransferBill (Electrician.transferParams tf)) w).

(** The gates of [withdraw] that come before the amount is looked at:
    nothing in [processing], a bound payout identity, an approved
    certification with a legal name. *)
Definition payout_allowed (d : DB) (electricianId : Z) : Prop :=
  processing_count electricianId (withdrawals d) = 0%nat
  /\ Electrician.bound_openid (Electrician.User_findByPk d electricianId) <> None
  /\ Electrician.legal_name (Electrician.approved_certification d electricianId) <> None.

(** The same notification reporting another [trade_state]. *)
Definition with_trade_state (ts : string) (n : PaymentCtl.PaymentNotice) : PaymentCtl.PaymentNotice :=
  PaymentCtl.mkNotice (PaymentCtl.out_trade_no n) (PaymentCtl.transaction_id n) ts
    (PaymentCtl.success_time n).

(** Status of the order once a payment of the given type succeeded:
    a prepaid order waits to be accepted, a repair-paid order is in
    progress; the handlers ask [type === 'prepay'] and treat every other
    type as a repair payment. *)
Definition order_status_after (t : PaymentType) : string :=
  match t with
  | Prepay => "pending"
  | Repair | Transfer => "in_progress"
  end.

(** Local status the specification assigns to a gateway state. *)
Definition local_status (gateway_state : string) : option WithdrawalStatus :=
  if String.eqb gateway_state "SUCCESS" then Some WSuccess
  else if String.eqb gateway_state "FAIL" then Some WFailed
  else if String.eqb gateway_state "CANCELLED" then Some WCancelled
  else None.


(** Primary key and status of every row, after the rows selected by
    [hit] were given the status [st] ([None]: no change). *)
Definition statuses_after (hit : Withdrawal -> bool) (st : option WithdrawalStatus)
    (rows : list Withdrawal) : list (Z * WithdrawalStatus) :=
  List.map
    (fun x => (w_id x,
               match st with
               | Some s => if hit x then s else w_status x
               | None => w_status x
               end))
    rows.

Definition statuses (rows : list Withdrawal) : list (Z * WithdrawalStatus) :=
  List.map (fun x => (w_id x, w_status x)) rows.

End Spec.

(* ================================================================== *)
(** * Sample data *)

Module Sample.
Import Electrician.

(** Electrician 1 earned 50.00 on a completed, 5-star order; a second
    order waits for its repair payment. *)
Definition order1 : Order := mkOrder 1 "ORD1" 7 (Some 1) "completed" None None.

Definition repair_order : Order :=
  mkOrder 2 "ORD2" 7 (Some 1) "pending_repair_payment" None None.

Definition paid1 : Payment :=
  mkPayment 1 1 7 (5000 # 100) Wechat "PAY1" Repair PSuccess (Some "TX1") (Some 900) None.

Definition pending_repair : Payment :=
  mkPayment 2 2 7 (10000 # 100) Wechat "PAY2" Repair PPending None None None.

Definition row (id electricianId : Z) (st : WithdrawalStatus) (amount : Q) (no : string) : Withdrawal :=
  mkWithdrawal id electricianId amount st no None None "openid" "name"
    (5000 # 100) 0 (5000 # 100) None 500 None.

Definition base : DB :=
  mkDB [order1; repair_order] [mkReview 1 5] [paid1; pending_repair] []
    [mkUser 1 (Some "openid-1")]
    [mkCertification 1 "approved" (Some "Zhang")] [] [].

Definition own_row : Withdrawal := row 1 1 WProcessing (1000 # 100) "W1".

Definition done_row : Withdrawal := row 1 1 WSuccess (1000 # 100) "W1".

(** The same ledger with a [processing] withdrawal of 10.00. *)
Definition with_processing : DB := set_withdrawals (fun _ => [own_row]) base.

(** The same ledger with a [success] withdrawal of 10.00. *)
Definition with_success : DB := set_withdrawals (fun _ => [done_row]) base.

Definition transfer_ok : TransferResult :=
  mkTransferResult (Some "BILL") None (Some "pkg") (Some "WAIT_USER_CONFIRM").

(** A gateway that accepts every transfer. *)
Definition gw_ok : Gateway :=
  mkGateway (fun _ => Returned transfer_ok)
    (fun _ => Returned (mkTransferQuery "WAIT_USER_CONFIRM" None))
    (fun _ => Returned (mkCancelResult None (Some "CANCELLING")))
    (fun _ => Returned (mkOrderQuery true "SUCCESS" (Some "TX2"))).

(** A gateway whose every call fails with the given error. *)
Definition gw_failing (e : ApiError) : Gateway :=
  mkGateway (fun _ => Failed e)
    (fun _ => Failed e) (fun _ => Failed e) (fun _ => Failed e).

(** A gateway that reports the given state. *)
Definition gw_state (s : string) : Gateway :=
  mkGateway (fun _ => Returned transfer_ok)
    (fun _ => Returned (mkTransferQuery s None))
    (fun _ => Returned (mkCancelResult None (Some s)))
    (fun _ => Returned (mkOrderQuery true s (Some "TX2"))).

Definition rate_limited : ApiError := mkApiError (Some 429) None (Some "Too Many Requests").

Definition req_30 : WithdrawReq := mkWithdrawReq 1 (Some (30 # 1)) 1000 "aaaa".
Definition req_30' : WithdrawReq := mkWithdrawReq 1 (Some (30 # 1)) 1001 "bbbb".

(** What [req_30] hands to the gateway call on the [base] ledger. *)
Definition transfer_30 : Transfer :=
  mkTransfer 1 "W10001aaaa" "openid-1" "Zhang" (30 # 1).

(** Two [withdraw] calls of electrician 1 that overlap: both commit
    their row before either hears from the gateway. *)
Definition overlap : list System.Event :=
  [System.Begin req_30; System.Begin req_30';
   System.Resume gw_ok 0; System.Resume gw_ok 0].

Definition start (d : DB) : System.Sys := System.mkSys (mkWorld d []) [].

(** A verified notification for [PAY2] reporting a trade state. *)
Definition notice (ts : string) : PaymentCtl.PaymentNotice :=
  PaymentCtl.mkNotice "PAY2" (Some "TX2") ts (Some 2000).


Definition headers : Service.NotifyHeaders :=
  Service.mkHeaders (Some "sig") (Some "serial") (Some "nonce") (Some "1700000000").

Definition body : Service.NotifyBody :=
  Service.mkNotifyBody "{}" (Some (Service.mkResource "ct" "ad" "n")).

(** Cryptography that accepts the signature and decrypts to [a]. *)
Definition crypto_ok {A} (a : A) : Service.Crypto A :=
  Service.mkCrypto true (fun _ _ => true) (fun _ => inl a).

(** The status query of electrician 1 for withdrawal 1. *)
Definition status_req : StatusQuery := mkStatusQuery (Some 1) (Some 1) None 4000.



(** Electrician 1 and electrician 2 asking to cancel transfer [W1]. *)
Definition cancel_own : PathQuery := mkPathQuery 1 "W1" 5000.
Definition cancel_foreign : PathQuery := mkPathQuery 2 "W1" 5000.

Definition notify_req : PaymentCtl.NotifyReq := PaymentCtl.mkNotifyReq headers body 3000.

Definition query_req : PaymentCtl.QueryReq := PaymentCtl.mkQueryReq "PAY2" 7 3000.

End Sample.

(* ================================================================== *)
(** * WechatPayV3Service.createTransferBill *)

Module Wechat.

(** [/[0-9A-Za-z]/] on one code unit; no byte of a character outside
    ASCII matches. *)
Definition is_alnum (c : ascii) : bool :=
  let n := nat_of_ascii c in
  ((48 <=? n) && (n <=? 57) || (65 <=? n) && (n <=? 90) || (97 <=? n) && (n <=? 122))%nat.

(** [s.replace(/[^0-9A-Za-z]/g, '')] *)
Fixpoint strip (s : string) : string :=
  match s with
  | EmptyString => EmptyString
  | String c r => if is_alnum c then String c (strip r) else strip r
  end.

(** [String(out_bill_no || '').replace(/[^0-9A-Za-z]/g, '').slice(0, 32)] *)
Definition safeOutBillNo (out_bill_no : string) : string :=
  JS.substring0 32 (strip out_bill_no).

(** [Math.round]: the nearest integer, ties toward positive infinity. *)
Definition Math_round (x : Q) : Z := Qfloor (x + (1 # 2)).

(** The body of the POST to [/v3/fund-app/mch-transfer/transfer-bills].
    [notify_url] is absent and [transfer_scene_report_infos] is the same
    constant list whether the caller passes it or not, as [withdraw]
    does. *)
Record TransferRequest := mkTransferRequest {
  rq_appid : string;
  rq_out_bill_no : string;
  rq_transfer_scene_id : string;
  rq_openid : string;
  rq_transfer_amount : Z;              (* in fen *)
  rq_transfer_remark : string;
  rq_user_name : option string;        (* encrypted *)
  rq_user_recv_perception : option string
}.

Record HttpResponse := mkHttpResponse {
  status : Z;
  data : TransferResult
}.

(** A constructed service object and the outside world it talks to:
    its configuration, RSA-OAEP encryption with the platform key ([None]
    when it throws), the clock, and the answer of the HTTP client to a
    request ([inr] when it throws). *)
Record Env := mkEnv {
  isSandbox : bool;
  appId : string;
  wechatPublicKey_loaded : bool;
  publicEncrypt : string -> option string;
  Date_now : Z;
  request : TransferRequest -> HttpResponse + Adapter.HttpError
}.

(** A plain [new Error(message)]. *)
Definition plain_error (message : string) : Adapter.HttpError :=
  Adapter.mkHttpError None None message.

(** [encryptSensitiveField]: the encrypted field, or the message of the
    error thrown. *)
Definition encryptSensitiveField (env : Env) (str : string) : string + string :=
  if negb (wechatPublicKey_loaded env) then inr "未加载微信支付公钥，无法加密敏感字段"
  else
    match publicEncrypt env str with
    | Some encrypted => inl encrypted
    | None => inr "敏感字段加密失败"
    end.

(** [createTransferBill]: what it returns or throws, and the requests it
    sent. *)
Definition createTransferBill (env : Env) (transferData : TransferParams) : ApiResult TransferResult * list TransferRequest :=
  let safeOutBillNo := safeOutBillNo (tp_out_bill_no transferData) in
  if isSandbox env then
    (Returned (mkTransferResult (Some ("mock_bill_" ++ JS.int_text (Date_now env)))
                 (Some safeOutBillNo) (Some "mock_package_info") (Some "WAIT_USER_CONFIRM")),
     [])
  else
    let user_name :=
      if String.eqb (tp_user_name transferData) "" then inl None
      else
        match encryptSensitiveField env (tp_user_name transferData) with
        | inl encrypted => inl (Some encrypted)
        | inr message => inr message
        end in
    match user_name with
    | inr message => (Failed (Adapter.rethrown (plain_error message)), [])
    | inl user_name =>
      let requestData :=
        mkTransferRequest (appId env) safeOutBillNo
          (JS.or_str (Some (tp_transfer_scene_id transferData)) "1000")
          (tp_openid transferData)
          (Math_round (tp_transfer_amount transferData * 100))
          (JS.or_str (Some (tp_transfer_remark transferData)) "劳务报酬")
          user_name
          (if String.eqb (tp_user_recv_perception transferData) "" then None
           else Some (tp_user_recv_perception transferData)) in
      match request env requestData with
      | inl response =>
          if (status response =? 200) || (status response =? 202)
          then (Returned (data response), [requestData])
          else (Failed (Adapter.rethrown
                          (plain_error ("转账请求返回异常状态码: "
                                        ++ JS.int_text (status response)))),
                [requestData])
      | inr error => (Failed (Adapter.rethrown error), [requestData])
      end
    end.

(** A gateway whose transfers go through this service. *)
Definition gateway (env : Env) (rest : Gateway) : Gateway :=
  mkGateway (fun p => fst (createTransferBill env p))
    (queryTransferBill rest) (cancelTransferBill rest) (queryOrder rest).

(** Every character is a digit or an ASCII letter. *)
Fixpoint all_alnum (s : string) : bool :=
  match s with
  | EmptyString => true
  | String c r => is_alnum c && all_alnum r
  end.

End Wechat.

(* ================================================================== *)
(** * electricianController: certification *)

Module Certification.
Local Open Scope handler_scope.

(** The part of [req.body] that reaches the columns kept in
    [ElectricianCertification]; the other fields of the application
    ([work_types], [id_card], the images, the certificate number and
    dates) are copied to columns nothing here reads. *)
Record Application := mkApplication {
  ap_real_name : option string
}.

Inductive Answer :=
| Accepted (status : Z) (message : string) (data : ElectricianCertification)
| Current (data : option ElectricianCertification)   (* [None]: [{ status: 'none' }] *)
| Forward (error : Exn).

Definition set_certifications
    (f : list ElectricianCertification -> list ElectricianCertification) (d : DB) : DB :=
  mkDB (orders d) (reviews d) (payments d) (withdrawals d) (users d)
       (f (certifications d)) (status_logs d) (messages d).

(** [instance.update(values)] on the instance [findOne({ where })]
    returned: that instance is the first row matching [where_], and only
    that row is written. *)
Fixpoint update_first {A} (where_ : A -> bool) (values : A -> A) (rows : list A) : list A :=
  match rows with
  | [] => []
  | r :: rest =>
      if where_ r then values r :: rest else r :: update_first where_ values rest
  end.

Definition of_user (userId : Z) (c : ElectricianCertification) : bool :=
  c_user_id c =? userId.

(** [{ ..., real_name, status: 'pending', reject_reason: null }]: a
    field that is [undefined] keeps its value. *)
Definition resubmitted (body : Application) (c : ElectricianCertification) : ElectricianCertification :=
  mkCertification (c_user_id c) "pending" (Electrician.assign (ap_real_name body) (c_real_name c)).


Definition run_answer (m : M World Answer) (w : World) : Answer * World :=
  match m w with
  | (Ok a, w') => (a, w')
  | (Thrown e, w') => (Forward e, w')
  end.


(** [exports.getCertificationStatus] *)
Definition getCertificationStatus (userId : Z) (w : World) : Answer * World :=
  (Current (Table.findOne (of_user userId) (certifications (db w))), w).

(** [exports.reapplyCertification] *)
Definition reapplyCertification_body (userId : Z) (body : Application) : M World Answer :=
  try_catch
    (d <- gets db ;;
     match Table.findOne (of_user userId) (certifications d) with
     | None => throw (AppError "未找到认证记录，请先提交认证申请" 404)
     | Some certification =>
         throw_if (String.eqb (c_status certification) "pending")
           (AppError "您的认证申请正在审核中，请勿重复提交" 400) ;;;
         modify (on_db (set_certifications (update_first (of_user userId) (resubmitted body)))) ;;;
         ret (Accepted 200 "重新认证申请已提交，请等待审核" (resubmitted body certification))
     end)
    (fun error => ret (Forward error)).

Definition reapplyCertification (userId : Z) (body : Application) (w : World) : Answer * World :=
  run_answer (reapplyCertification_body userId body) w.

(** Number of certification rows of a user. *)
Definition rows_of (userId : Z) (rows : list ElectricianCertification) : nat :=
  List.length (List.filter (of_user userId) rows).

End Certification.

(* ================================================================== *)
(** * paymentController: creating and confirming a payment *)

Module Checkout.
Import PaymentCtl.
Local Open Scope handler_scope.

(** The columns of an order that [createPayment] reads besides those of
    [Order], and the table of service types.  Nothing modelled here
    writes them, so they are given once, the order columns by order id.
    The two amounts are read from the database and are taken to be
    money values of two decimals, which the payment's amount column
    stores as they are. *)
Record OrderDetails := mkOrderDetails {
  od_service_type_id : option Z;
  od_final_amount : option Q;
  od_title : string
}.

Record ServiceType := mkServiceType {
  st_id : Z;
  st_prepay_amount : option Q;
  st_name : option string
}.

Record Catalog := mkCatalog {
  details : Z -> OrderDetails;
  service_types : list ServiceType
}.

(** [req.user.id], [req.body], and what the call draws from the clock
    and from [Math.random]: the fresh order number
    [PAY<yyyymmddhhmmss><3 digits>] and the expiry time. *)
Record CreateReq := mkCreateReq {
  cr_user_id : Z;
  cr_order_id : Z;
  cr_payment_method : option string;
  cr_openid : option string;
  cr_type : option string;
  cr_fresh_no : string;
  cr_time_expire : string
}.

(** What is handed to [createJsapiOrder]. *)
Record JsapiOrder := mkJsapiOrder {
  jo_description : string;
  jo_out_trade_no : string;
  jo_amount : Q;
  jo_openid : option string;
  jo_time_expire : string
}.

Record JsapiResult := mkJsapiResult {
  js_success : bool;
  js_error : option string;
  js_prepay_id : option string;
  js_pay_params : string
}.

Inductive Reply :=
| WechatCreated (payment_id : Z) (payment_no : string) (amount : Q) (pay_params : string)
| TestCreated (payment_id : Z) (payment_no : string) (amount : Q)
| Confirmed (message : string)
| Rejected (message : string) (code : Z)       (* [res.error(message, code)] *)
| Forwarded (error : Exn).                     (* [next(error)] *)

(** A destructuring default: used when the field is [undefined]. *)
Definition default (x : option string) (d : string) : string :=
  match x with
  | Some s => s
  | None => d
  end.

(** The checks by type and the amount they settle on: the payment type,
    amount and description, or the message of the 400. *)
Definition priced (cat : Catalog) (order : Order) (type : string) : (PaymentType * Q * string) + string :=
  let extra := details cat (o_id order) in
  if String.eqb type "prepay" then
    if negb (String.eqb (o_status order) "pending_payment")
    then inr "当前工单不处于待支付预付款状态"
    else
      let serviceType :=
        match od_service_type_id extra with
        | Some i => Table.findOne (fun s => st_id s =? i) (service_types cat)
        | None => None
        end in
      match serviceType with
      | None => inr "预付款金额未配置或无效"
      | Some s =>
          match st_prepay_amount s with
          | None => inr "预付款金额未配置或无效"
          | Some a =>
              if Qle_bool a 0 then inr "预付款金额未配置或无效"
              else inl (Prepay, a, "工单预付款-" ++ JS.or_str (st_name s) (od_title extra))
          end
      end
  else if String.eqb type "repair" then
    if negb (String.eqb (o_status order) "pending_repair_payment")
    then inr "当前工单不处于待支付维修费状态"
    else
      match od_final_amount extra with
      | None => inr "工单最终金额异常"
      | Some a =>
          if Qle_bool a 0 then inr "工单最终金额异常"
          else inl (Repair, a, "工单支付-" ++ od_title extra)
      end
  else inr "无效的支付类型".

(** [{ order_id, status: 'pending', type }] *)
Definition pending_for (order_id : Z) (type : PaymentType) (p : Payment) : bool :=
  (p_order_id p =? order_id) && pstatus_eqb (p_status p) PPending && ptype_eqb (p_type p) type.

(** [paymentData] written over an existing row: the columns it does not
    name keep their values. *)
Definition set_paymentData (order_id user_id : Z) (amount : Q) (method : PaymentMethod)
    (out_trade_no : string) (type : PaymentType) (p : Payment) : Payment :=
  mkPayment (p_id p) order_id user_id amount method out_trade_no type PPending
    (p_transaction_id p) (p_paid_at p) (p_failed_reason p).

(** [{ status: 'failed', failed_reason }] *)
Definition set_failed (failed_reason : string) (p : Payment) : Payment :=
  mkPayment (p_id p) (p_order_id p) (p_user_id p) (p_amount p) (p_payment_method p)
    (p_out_trade_no p) (p_type p) PFailed (p_transaction_id p) (p_paid_at p)
    (Some failed_reason).

(** [payment.update(paymentData)] on the row found, or
    [Payment.create(paymentData)]: the database afterwards and the row. *)
Definition save (payment : option Payment) (order_id user_id : Z) (amount : Q)
    (method : PaymentMethod) (out_trade_no : string) (type : PaymentType) (w : World) : Payment * World :=
  match payment with
  | Some p =>
      (set_paymentData order_id user_id amount method out_trade_no type p,
       on_db (set_payments
                (Table.update (set_paymentData order_id user_id amount method out_trade_no type)
                   (fun x => p_id x =? p_id p))) w)
  | None =>
      let row := mkPayment (Table.next_id p_id (payments (db w))) order_id user_id amount
                   method out_trade_no type PPending None None None in
      (row, on_db (set_payments (fun rows => (rows ++ [row])%list)) w)
  end.

(** The [catch] of [createPayment]. *)
Definition failed (payment : option Payment) (message : string) (w : World) : Reply * World :=
  (Rejected (JS.or_str (Some message) "支付创建失败") 500,
   match payment with
   | Some p =>
       if negb (p_id p =? 0)
       then on_db (set_payments
                     (Table.update (set_failed (JS.substring0 250 message))
                        (fun x => p_id x =? p_id p))) w
       else w
   | None => w
   end).

(** [PaymentController.createPayment]: the reply, the world afterwards
    and the orders placed with the gateway.  [createJsapiOrder] returns a
    result or throws an error with the given message. *)
Definition createPayment (cat : Catalog) (createJsapiOrder : JsapiOrder -> JsapiResult + string)
    (req : CreateReq) (w : World) : Reply * World * list JsapiOrder :=
  let userId := cr_user_id req in
  let order_id := cr_order_id req in
  let payment_method := default (cr_payment_method req) "wechat" in
  let type := default (cr_type req) "prepay" in
  match Table.findOne (fun o => o_id o =? order_id) (orders (db w)) with
  | None => (Rejected "工单不存在" 404, w, [])
  | Some order =>
    if negb (o_user_id order =? userId) then (Rejected "无权限支付此工单" 403, w, [])
    else
      match priced cat order type with
      | inr message => (Rejected message 400, w, [])
      | inl (ptype, amount, description) =>
        let payment := Table.findOne (pending_for order_id ptype) (payments (db w)) in
        let out_trade_no :=
          match payment with
          | Some p => p_out_trade_no p
          | None => cr_fresh_no req
          end in
        if String.eqb payment_method "wechat" then
          let wechatOrderData :=
            mkJsapiOrder description out_trade_no amount (cr_openid req) (cr_time_expire req) in
          match createJsapiOrder wechatOrderData with
          | inr message => (failed payment message w, [wechatOrderData])
          | inl paymentResult =>
              if negb (js_success paymentResult)
              then (failed payment (JS.or_str (js_error paymentResult) "微信支付下单失败") w,
                    [wechatOrderData])
              else
                let (row, w') := save payment order_id userId amount Wechat out_trade_no ptype w in
                (WechatCreated (p_id row) (p_out_trade_no row) (p_amount row)
                   (js_pay_params paymentResult),
                 w', [wechatOrderData])
          end
        else if String.eqb payment_method "test" then
          let (row, w') := save payment order_id userId amount TestPay out_trade_no ptype w in
          (TestCreated (p_id row) (p_out_trade_no row) (p_amount row), w', [])
        else (Rejected "不支持的支付方式" 400, w, [])
      end
  end.

(** *** Overlapping [createPayment] calls

    With the WeChat method [createPayment] suspends at
    [createJsapiOrder], after it has looked for a pending payment and
    before it saves one, with no transaction around the two.  A call is
    cut at that point: [createPayment_begin] runs it up to the gateway
    call (or to its end, when it does not get there),
    [createPayment_resume] runs the rest once the gateway has answered,
    on the table as it is by then. *)

(** What the part after the gateway call closes over. *)
Record Placed := mkPlaced {
  pl_user_id : Z;
  pl_order_id : Z;
  pl_amount : Q;
  pl_type : PaymentType;
  pl_payment : option Payment;   (* the row [Payment.findOne] gave *)
  pl_out_trade_no : string;
  pl_order_data : JsapiOrder
}.

Definition createPayment_begin (cat : Catalog) (req : CreateReq) (w : World) : (Reply * World) + Placed :=
  let userId := cr_user_id req in
  let order_id := cr_order_id req in
  let payment_method := default (cr_payment_method req) "wechat" in
  let type := default (cr_type req) "prepay" in
  match Table.findOne (fun o => o_id o =? order_id) (orders (db w)) with
  | None => inl (Rejected "工单不存在" 404, w)
  | Some order =>
    if negb (o_user_id order =? userId) then inl (Rejected "无权限支付此工单" 403, w)
    else
      match priced cat order type with
      | inr message => inl (Rejected message 400, w)
      | inl (ptype, amount, description) =>
        let payment := Table.findOne (pending_for order_id ptype) (payments (db w)) in
        let out_trade_no :=
          match payment with
          | Some p => p_out_trade_no p
          | None => cr_fresh_no req
          end in
        if String.eqb payment_method "wechat" then
          inr (mkPlaced userId order_id amount ptype payment out_trade_no
                 (mkJsapiOrder description out_trade_no amount (cr_openid req)
                    (cr_time_expire req)))
        else if String.eqb payment_method "test" then
          let (row, w') := save payment order_id userId amount TestPay out_trade_no ptype w in
          inl (TestCreated (p_id row) (p_out_trade_no row) (p_amount row), w')
        else inl (Rejected "不支持的支付方式" 400, w)
      end
  end.

Definition createPayment_resume (answer : JsapiResult + string) (pl : Placed) (w : World) : Reply * World :=
  match answer with
  | inr message => failed (pl_payment pl) message w
  | inl paymentResult =>
      if negb (js_success paymentResult)
      then failed (pl_payment pl) (JS.or_str (js_error paymentResult) "微信支付下单失败") w
      else
        let (row, w') := save (pl_payment pl) (pl_order_id pl) (pl_user_id pl) (pl_amount pl)
                           Wechat (pl_out_trade_no pl) (pl_type pl) w in
        (WechatCreated (p_id row) (p_out_trade_no row) (p_amount row)
           (js_pay_params paymentResult),
         w')
  end.

Record ConfirmReq := mkConfirmReq {
  cf_payment_no : string;  (* req.body.payment_no *)
  cf_user_id : Z;          (* req.user.id *)
  cf_now : Z
}.

(** [PaymentController.confirmTestPayment] *)
Definition confirmTestPayment_body (req : ConfirmReq) : M World Reply :=
  let userId := cf_user_id req in
  try_catch
    (d <- gets db ;;
     match Table.findOne (by_out_trade_no (cf_payment_no req)) (payments d) with
     | None => ret (Rejected "支付记录不存在" 404)
     | Some payment =>
       if negb (p_user_id payment =? userId) then ret (Rejected "无权限操作此支付" 403)
       else if negb (pmethod_eqb (p_payment_method payment) TestPay)
       then ret (Rejected "非测试支付，无法手动确认" 400)
       else if negb (pstatus_eqb (p_status payment) PPending)
       then ret (Rejected "支付状态异常" 400)
       else
         Payment_update
           (set_paid (Some ("test_" ++ JS.int_text (cf_now req))) (cf_now req))
           (by_out_trade_no (cf_payment_no req)) ;;;
         d' <- gets db ;;
         match Table.findOne (fun o => o_id o =? p_order_id payment) (orders d') with
         | Some order =>
             if ptype_eqb (p_type payment) Prepay then
               Order_update (set_order_prepaid (cf_now req))
                 (fun o => o_id o =? p_order_id payment) ;;;
               OrderStatusLog_create
                 (mkOrderStatusLog (p_order_id payment) None "pending" userId "user"
                    "预付款支付成功，进入待接单") ;;;
               Message_create
                 (mkMessage (o_user_id order) "预付款支付成功"
                    ("您的工单 " ++ o_order_no order ++ " 预付款已支付成功，现已进入待接单。")
                    "order" (o_id order))
             else transitionRepairPaymentSuccess (cf_now req) order (Some userId)
         | None => ret tt
         end ;;;
         ret (Confirmed "测试支付确认成功")
     end)
    (fun error => ret (Forwarded error)).

Definition confirmTestPayment (req : ConfirmReq) (w : World) : Reply * World :=
  match confirmTestPayment_body req w with
  | (Ok r, w') => (r, w')
  | (Thrown e, w') => (Forwarded e, w')
  end.

(** Number of [pending] payments of an order and type. *)
Definition pending_count (order_id : Z) (type : PaymentType) (rows : list Payment) : nat :=
  List.length (List.filter (pending_for order_id type) rows).

(** At most one [pending] payment per order and type. *)
Definition one_pending (rows : list Payment) : Prop :=
  forall order_id type, (pending_count order_id type rows <= 1)%nat.

End Checkout.

(* ================================================================== *)
(** * middleware/auth: authenticateToken, and the status route *)

Module Auth.

(** The user row as the middleware reads it. *)
Record AuthUser := mkAuthUser {
  au_id : Z;
  au_status : string
}.

Record AuthReq := mkAuthReq {
  path : string;                   (* req.path *)
  authorization : option string    (* req.headers['authorization'] *)
}.

(** [redis.get(key)]: the value stored ([None]: [null]), or a failed
    connection. *)
Inductive RedisAnswer :=
| RedisValue (value : option string)
| RedisError.

(** [jwt.verify(token, secret)]: the [id] of the payload, or the name of
    the error thrown. *)
Inductive JwtAnswer :=
| Decoded (id : option Z)
| JwtThrows (name : string).

Record AuthEnv := mkAuthEnv {
  redis_get : string -> RedisAnswer;
  jwt_verify : string -> JwtAnswer;
  User_findById : option Z -> option AuthUser
}.

Inductive AuthResult :=
| Proceed (user_id : Z)                       (* [req.user] set, [next()] *)
| Deny (status : Z) (message : string)        (* the middleware answers *)
| Raise (name : string).                      (* [next(error)] *)

(** What follows the first space, if there is one. *)
Fixpoint after_space (s : string) : option string :=
  match s with
  | EmptyString => None
  | String c r => if Ascii.eqb c " " then Some r else after_space r
  end.

Fixpoint until_space (s : string) : string :=
  match s with
  | EmptyString => EmptyString
  | String c r => if Ascii.eqb c " " then EmptyString else String c (until_space r)
  end.

(** [authHeader && authHeader.split(' ')[1]], [None] when it is falsy. *)
Definition token_of (authHeader : option string) : option string :=
  match authHeader with
  | Some h =>
      match after_space h with
      | Some r => if String.eqb (until_space r) "" then None else Some (until_space r)
      | None => None
      end
  | None => None
  end.

(** [authenticateToken] *)
Definition authenticateToken (env : AuthEnv) (req : AuthReq) : AuthResult :=
  if String.eqb (path req) "/withdrawal/status" then Proceed 53
  else
    match token_of (authorization req) with
    | None => Deny 401 "未提供访问令牌"
    | Some token =>
        let isBlacklisted :=
          match redis_get env ("blacklist:" ++ token) with
          | RedisValue v => JS.truthy_str v
          | RedisError => false        (* the check is skipped *)
          end in
        if isBlacklisted then Deny 401 "Token已失效，请重新登录"
        else
          match jwt_verify env token with
          | JwtThrows name =>
              if String.eqb name "JsonWebTokenError" then Deny 401 "无效的访问令牌"
              else if String.eqb name "TokenExpiredError" then Deny 401 "访问令牌已过期"
              else Raise name
          | Decoded id =>
              match User_findById env id with
              | None => Deny 401 "用户不存在"
              | Some user =>
                  if String.eqb (au_status user) "banned" then Deny 403 "账号已被禁用"
                  else Proceed (au_id user)
              end
          end
    end.

(** The query string of the status route and the clock. *)
Record StatusParams := mkStatusParams {
  sp_withdrawal_id : option Z;
  sp_out_batch_no : option string;
  sp_now : Z
}.

Inductive Routed :=
| Stopped (by_middleware : AuthResult)
| Handled (response : Response).

(** [router.get('/withdrawal/status', authenticateToken,
    ElectricianController.queryWithdrawalStatus)] *)
Definition status_route (env : AuthEnv) (gw : Gateway) (req : AuthReq) (q : StatusParams)
    (w : World) : Routed * World :=
  match authenticateToken env req with
  | Proceed user_id =>
      let r := Electrician.queryWithdrawalStatus gw
                 (Electrician.mkStatusQuery (Some user_id) (sp_withdrawal_id q)
                    (sp_out_batch_no q) (sp_now q)) w in
      (Handled (fst r), snd r)
  | stopped => (Stopped stopped, w)
  end.

End Auth.

(* ================================================================== *)
(** * Vocabulary of the further properties *)

Module Cover.

(** The order counts toward the income of the electrician: it is one of
    their completed orders and some review gives it five stars. *)
Definition earns (d : DB) (electricianId order_id : Z) : bool :=
  List.existsb
    (fun o => (o_id o =? order_id)
              && opt_Z_eqb (o_electrician_id o) electricianId
              && String.eqb (o_status o) "completed")
    (orders d)
  && List.existsb (fun r => (r_order_id r =? order_id) && (r_rating r =? 5)) (reviews d).

(** What a customer paid for an order, as opposed to a transfer booked
    in the same table. *)
Definition paid_for_order (t : PaymentType) : bool :=
  match t with
  | Prepay | Repair => true
  | Transfer => false
  end.

(** Every successful prepayment and repair payment of an order that
    counts, once; transfers never count. *)
Definition income (d : DB) (electricianId : Z) : Q :=
  Table.Qsum
    (List.map p_amount
       (List.filter
          (fun p => earns d electricianId (p_order_id p) && pstatus_eqb (p_status p) PSuccess
                    && paid_for_order (p_type p))
          (payments d))).

(** Everything in the database but the table [Withdrawals]. *)
Definition outside_withdrawals (d : DB) :=
  (orders d, reviews d, payments d, users d, certifications d, status_logs d, messages d).

(** Everything in the database but the table of certifications. *)
Definition outside_certifications (d : DB) :=
  (orders d, reviews d, payments d, withdrawals d, users d, status_logs d, messages d).

(** The tables the payment handlers have no business with. *)
Definition outside_payments (d : DB) :=
  (reviews d, withdrawals d, users d, certifications d).

(** The requests served by the withdrawal side of the service. *)
Definition withdrawal_side (r : System.Request) : bool :=
  match r with
  | System.WechatNotify _ _ | System.QueryPayment _ _ => false
  | _ => true
  end.

(** The signature carried by the headers verifies over
    [timestamp\nnonce\nbody\n]. *)
Definition verifies {A} (c : Service.Crypto A) (headers : Service.NotifyHeaders)
    (body : Service.NotifyBody) : bool :=
  match Service.h_signature headers, Service.h_nonce headers, Service.h_timestamp headers with
  | Some signature, Some nonce, Some timestamp =>
      Service.rsa_verify c
        (timestamp ++ Service.newline ++ nonce ++ Service.newline
         ++ Service.nb_text body ++ Service.newline)
        signature
  | _, _, _ => false
  end.

(** Electrician 1 asking to withdraw without naming an amount, and what
    that call hands to the gateway on the [Sample.base] ledger. *)
Definition req_all : Electrician.WithdrawReq := Electrician.mkWithdrawReq 1 None 1000 "aaaa".

Definition transfer_all : Electrician.Transfer :=
  Electrician.mkTransfer 1 "W10001aaaa" "openid-1" "Zhang" (5000 # 100).

(** Electrician 1 asking for 30.005, which no route validation stops,
    and what that call closes over on the [Sample.base] ledger. *)
Definition req_odd : Electrician.WithdrawReq :=
  Electrician.mkWithdrawReq 1 (Some (6001 # 200)) 1000 "aaaa".

Definition transfer_odd : Electrician.Transfer :=
  Electrician.mkTransfer 1 "W10001aaaa" "openid-1" "Zhang" (6001 # 200).

(** The [Sample.base] ledger with a transfer of 20.00 booked on the
    completed, five-star order 1. *)
Definition transfer_booked : DB :=
  set_payments
    (fun rows =>
       (rows ++ [mkPayment 3 1 7 (2000 # 100) Wechat "TRF1" Transfer PSuccess
                   (Some "TX3") (Some 950) None])%list)
    Sample.base.

(** Cryptography that holds the platform key and rejects every
    signature. *)
Definition crypto_rejecting {A} : Service.Crypto A :=
  Service.mkCrypto true (fun _ _ => false) (fun _ => inr "unreachable").

(** A ledger on which order 3 waits for its prepayment [PAY3], and the
    query and the notification that report it paid. *)
Definition pending_prepay : Payment :=
  mkPayment 3 3 7 (3000 # 100) Wechat "PAY3" Prepay PPending None None None.

Definition prepay_ledger : DB :=
  mkDB [mkOrder 3 "ORD3" 7 None "pending_payment" None None] [] [pending_prepay] []
    [] [] [] [].

Definition prepay_query : PaymentCtl.QueryReq := PaymentCtl.mkQueryReq "PAY3" 7 3000.

Definition prepay_notice : PaymentCtl.PaymentNotice :=
  PaymentCtl.mkNotice "PAY3" (Some "TX2") "SUCCESS" None.

(** The table after a status query or a cancellation: as it was, or with
    the one row the handler found, which was not terminal, rewritten by
    primary key. *)
Definition rewrites_found (rows rows' : list Withdrawal) : Prop :=
  rows' = rows
  \/ exists f wd, In wd rows /\ Electrician.is_terminal (w_status wd) = false
                  /\ rows' = Table.update f (fun x => w_id x =? w_id wd) rows.

Definition is_transfer_webhook (r : System.Request) : bool :=
  match r with
  | System.WithdrawalCallback _ _ _ => true
  | _ => false
  end.

(** An event of the interleaved service other than the transfer webhook
    being served. *)
Definition webhook_free (e : System.Event) : bool :=
  match e with
  | System.Serve r => negb (is_transfer_webhook r)
  | _ => true
  end.

(** No [withdraw] call that waits for the gateway's answer owns the row
    [x]. *)
Definition not_awaited (x : Withdrawal) (s : System.Sys) : Prop :=
  forall tf, In tf (System.waiting s) -> Electrician.tf_withdrawal_id tf <> w_id x.

(** The HTTP client's error for a 429 answer of the gateway, and a live
    (not sandbox) service whose every request meets it. *)
Definition too_many_requests : Adapter.HttpError :=
  Adapter.mkHttpError (Some 429) (Some "Too Many Requests")
    "Request failed with status code 429".

Definition live_env : Wechat.Env :=
  Wechat.mkEnv false "wx-app" true (fun name => Some ("enc:" ++ name)) 1000
    (fun _ => inr too_many_requests).

(** The payments after a handler that only moves rows out of
    [pending]. *)
Definition settles_payments (rows rows' : list Payment) : Prop :=
  rows' = rows
  \/ exists f p, (forall x, p_id (f x) = p_id x /\ p_status (f x) <> PPending)
                 /\ rows' = Table.update f p rows.

(** Unique primary keys and at most one [pending] payment per order and
    type. *)
Definition payments_in_order (d : DB) : Prop :=
  NoDup (List.map p_id (payments d)) /\ Checkout.one_pending (payments d).

(** No character of [s] lies outside the basic plane: no byte opens a
    four-byte sequence, so every character is one code unit. *)
Fixpoint bmp (s : string) : bool :=
  match s with
  | EmptyString => true
  | String c r => (N_of_ascii c <? 240)%N && bmp r
  end.

(** What [createPayment] finds thrown after handing [order_data] to the
    gateway: the message [createJsapiOrder] threw, or the one
    [createPayment] throws itself over a result without [success]. *)
Definition thrown_message (js : Checkout.JsapiOrder -> Checkout.JsapiResult + string)
    (order_data : Checkout.JsapiOrder) : option string :=
  match js order_data with
  | inr message => Some message
  | inl result =>
      if Checkout.js_success result then None
      else Some (JS.or_str (Checkout.js_error result) "微信支付下单失败")
  end.

(** A gateway that is out of reach, as [createJsapiOrder] reports it. *)
Definition jsapi_down (o : Checkout.JsapiOrder) : Checkout.JsapiResult + string :=
  inr "微信支付下单失败: connect ETIMEDOUT".

(** A catalog in which order 3 is of service type 1, whose prepayment
    is 30.00, and a gateway that accepts every order. *)
Definition catalog : Checkout.Catalog :=
  Checkout.mkCatalog (fun _ => Checkout.mkOrderDetails (Some 1) None "repair")
    [Checkout.mkServiceType 1 (Some (3000 # 100)) (Some "wiring")].

Definition jsapi_ok (o : Checkout.JsapiOrder) : Checkout.JsapiResult + string :=
  inl (Checkout.mkJsapiResult true None (Some "prepay-1") "{}").

(** Order 3 waiting for its prepayment, nothing paid or asked yet, and
    its owner choosing the test method. *)
Definition unpaid_ledger : DB :=
  mkDB [mkOrder 3 "ORD3" 7 None "pending_payment" None None] [] [] [] [] [] [] [].

Definition test_checkout : Checkout.CreateReq :=
  Checkout.mkCreateReq 7 3 (Some "test") None None "PAY4" "soon".

(** The owner of order 3 asking twice for a WeChat prepayment, a moment
    apart. *)
Definition wechat_checkout : Checkout.CreateReq :=
  Checkout.mkCreateReq 7 3 None (Some "openid-7") None "PAY4" "soon".

Definition wechat_checkout' : Checkout.CreateReq :=
  Checkout.mkCreateReq 7 3 None (Some "openid-7") None "PAY5" "soon".

End Cover.

(* ================================================================== *)
(** * Properties *)

Unset Implicit Arguments.

Import Electrician Spec System.

(** ** Rounding and sums *)

Section Rounding.
Import JS Spec.
Local Open Scope Q_scope.

Lemma Qfloor_half (c : Z) (x : Q) : x == inject_Z c + (1 # 2) -> Qfloor x = c.
Proof.
  intros Hx.
  assert (Hlo : (c <= Qfloor x)%Z).
  { rewrite <- (Qfloor_Z c). apply Qfloor_resp_le. rewrite Hx.
    generalize (inject_Z c); intros z. lra. }
  assert (Hhi : (Qfloor x < c + 1)%Z).
  { rewrite Zlt_Qlt. apply Qle_lt_trans with x; [apply Qfloor_le|].
    rewrite Hx, inject_Z_plus.
    generalize (inject_Z c); intros z. change (inject_Z 1) with 1. lra. }
  lia.
Qed.

Lemma toFixed2_decimal2 (q : Q) : decimal2 q -> toFixed2 q == q.
Proof.
  intros [c Hc]. unfold toFixed2.
  destruct (Qle_bool 0 q).
  - rewrite (Qfloor_half c); [symmetry; exact Hc|]. rewrite Hc. field.
  - rewrite (Qfloor_half (- c)).
    + rewrite Hc, inject_Z_opp. field.
    + rewrite Hc, inject_Z_opp. field.
Qed.

Lemma decimal2_toFixed2 (q : Q) : decimal2 (toFixed2 q).
Proof.
  unfold toFixed2, decimal2. destruct (Qle_bool 0 q).
  - eexists. reflexivity.
  - exists (- Qfloor (- q * 100 + (1 # 2)))%Z. rewrite inject_Z_opp. field.
Qed.

Lemma decimal2_0 : decimal2 0.
Proof. exists 0%Z. reflexivity. Qed.

Lemma decimal2_plus (a b : Q) : decimal2 a -> decimal2 b -> decimal2 (a + b).
Proof.
  intros [x Hx] [y Hy]. exists (x + y)%Z. rewrite Hx, Hy, inject_Z_plus. field.
Qed.

Lemma decimal2_minus (a b : Q) : decimal2 a -> decimal2 b -> decimal2 (a - b).
Proof.
  intros [x Hx] [y Hy]. exists (x - y)%Z.
  unfold Z.sub. rewrite Hx, Hy, inject_Z_plus, inject_Z_opp. field.
Qed.

Lemma decimal2_Qeq (a b : Q) : a == b -> decimal2 a -> decimal2 b.
Proof. intros E [x Hx]. exists x. rewrite <- E. exact Hx. Qed.

Lemma decimal2_Qsum (l : list Q) : Forall decimal2 l -> decimal2 (Table.Qsum l).
Proof.
  induction 1 as [|x l Hx _ IH]; simpl.
  - exact decimal2_0.
  - apply decimal2_plus; assumption.
Qed.

Lemma or_zero_sql_sum (l : list Q) : or_zero (Table.sql_sum l) == Table.Qsum l.
Proof.
  destruct l as [|x l]; [reflexivity|].
  unfold Table.sql_sum, or_zero.
  destruct (Qeq_bool (Table.Qsum (x :: l)) 0) eqn:E; [|reflexivity].
  symmetry. apply Qeq_bool_eq. exact E.
Qed.
End Rounding.

Section BalanceFacts.
Import JS Spec Balance.
Local Open Scope Q_scope.

Lemma Qsum_status_filter (e : Z) (st : WithdrawalStatus) (rows : list Withdrawal) :
  Table.Qsum
    (map w_amount
       (filter (fun w => (w_electrician_id w =? e)%Z
                         && existsb (wstatus_eqb (w_status w)) [st]) rows))
  = sum_amount e st rows.
Proof.
  induction rows as [|w rows IH]; [reflexivity|].
  cbn [filter sum_amount].
  replace (existsb (wstatus_eqb (w_status w)) [st]) with (wstatus_eqb (w_status w) st)
    by (simpl; rewrite orb_false_r; reflexivity).
  destruct ((w_electrician_id w =? e)%Z && wstatus_eqb (w_status w) st);
    cbn [map Table.Qsum]; rewrite IH; reflexivity.
Qed.

Lemma withdrawalSum_one (d : DB) (e : Z) (st : WithdrawalStatus) :
  or_zero (withdrawalSum d e [st]) == sum_amount e st (withdrawals d).
Proof.
  unfold withdrawalSum. rewrite or_zero_sql_sum, Qsum_status_filter. reflexivity.
Qed.

Lemma wstatus_eqb_eq (a b : WithdrawalStatus) : wstatus_eqb a b = true <-> a = b.
Proof. destruct a, b; simpl; split; intros H; congruence. Qed.

Lemma Qsum_two_statuses (e : Z) (rows : list Withdrawal) :
  Table.Qsum
    (map w_amount
       (filter (fun w => (w_electrician_id w =? e)%Z
                         && existsb (wstatus_eqb (w_status w)) [WSuccess; WProcessing])
               rows))
  == sum_amount e WSuccess rows + sum_amount e WProcessing rows.
Proof.
  induction rows as [|w rows IH]; [reflexivity|].
  cbn [filter sum_amount].
  destruct (w_electrician_id w =? e)%Z; cbn [andb]; [|exact IH].
  destruct (w_status w); cbn [existsb wstatus_eqb orb map Table.Qsum];
    rewrite IH; ring.
Qed.

Lemma decimal2_sum_amount (e : Z) (st : WithdrawalStatus) (rows : list Withdrawal) :
  Forall (fun w => decimal2 (w_amount w)) rows -> decimal2 (sum_amount e st rows).
Proof.
  induction 1 as [|w rows Hw _ IH]; simpl; [exact decimal2_0|].
  destruct ((w_electrician_id w =? e)%Z && wstatus_eqb (w_status w) st);
    [apply decimal2_plus|]; assumption.
Qed.

Lemma decimal2_rawTotalIncome (d : DB) (e : Z) :
  Forall (fun p => decimal2 (p_amount p)) (payments d) ->
  decimal2 (rawTotalIncome d e).
Proof.
  intros Hp. unfold rawTotalIncome.
  destruct (map o_id (eligibleOrders d e)) as [|i ids]; [exact decimal2_0|].
  unfold incomeResult.
  apply decimal2_Qeq with (1 := Qeq_sym _ _ (or_zero_sql_sum _)).
  apply decimal2_Qsum.
  apply Forall_map. apply Forall_forall. intros p Hin.
  apply filter_In in Hin. destruct Hin as [Hin _].
  rewrite Forall_forall in Hp. exact (Hp p Hin).
Qed.

(** A row that is [processing] does not enter the sum over [success]. *)
Lemma sum_amount_success_app_processing (e : Z) (rows : list Withdrawal) (w : Withdrawal) :
  w_status w = WProcessing ->
  sum_amount e WSuccess (rows ++ [w]) = sum_amount e WSuccess rows.
Proof.
  intros Hw. induction rows as [|x rows IH]; simpl.
  - rewrite Hw. simpl. rewrite andb_false_r. reflexivity.
  - rewrite IH. reflexivity.
Qed.
End BalanceFacts.

(** ** Tactics for running handlers *)

Ltac break_match :=
  match goal with
  | |- context [match ?x with _ => _ end] =>
      lazymatch x with
      | context [match _ with _ => _ end] => fail
      | _ => destruct x eqn:?
      end
  end.

Ltac run_handler :=
  unfold Electrician.apply_updateData, Electrician.Withdrawal_update,
    Electrician.call_queryTransferBill, Electrician.call_cancelTransferBill,
    Electrician.updateData_of_query, LegacyCallback.updateData_of_state,
    PaymentCtl.Payment_update, PaymentCtl.Order_update, PaymentCtl.OrderStatusLog_create,
    PaymentCtl.Message_create, PaymentCtl.call_queryOrder, Electrician.id_lift in *;
  unfold respond, try_catch, throw_if, bind, ret, throw, gets, modify in *;
  cbn [fst snd].

(** ** What each handler does to the table of withdrawals *)

Section Frames.
Import Electrician Spec.

Lemma keeps_set_success (now : Z) : keeps (set_success now).
Proof. intros x; repeat split. Qed.

Lemma keeps_set_status_reason (st : WithdrawalStatus) (r : option string) :
  keeps (set_status_reason st r).
Proof. intros x; repeat split. Qed.

Lemma keeps_set_cancelled (r : string) (now : Z) : keeps (set_cancelled r now).
Proof. intros x; repeat split. Qed.

Lemma keeps_set_processing (a b : option string) : keeps (set_processing a b).
Proof. intros x; repeat split. Qed.

Lemma update_none {A} (f : A -> A) (rows : list A) :
  Table.update f (fun _ => false) rows = rows.
Proof. unfold Table.update. induction rows; simpl; congruence. Qed.

Lemma settled_refl (rows : list Withdrawal) : settled_from rows rows.
Proof.
  exists (set_success 0), (fun _ => false). repeat split.
  symmetry. apply update_none.
Qed.

Lemma settled_update (f : Withdrawal -> Withdrawal) (p : Withdrawal -> bool)
    (rows : list Withdrawal) :
  keeps f -> settles f -> settled_from rows (Table.update f p rows).
Proof. intros. exists f, p. auto. Qed.

Ltac settle :=
  cbn [db withdrawals on_db set_withdrawals log_call snd fst];
  first
    [ apply settled_refl
    | apply settled_update;
      [ first [ apply keeps_set_success | apply keeps_set_status_reason
              | apply keeps_set_cancelled ]
      | intros ?; reflexivity ] ].

Lemma queryWithdrawalStatus_settles gw req w :
  settled_from (withdrawals (db w)) (withdrawals (db (snd (queryWithdrawalStatus gw req w)))).
Proof.
  unfold queryWithdrawalStatus, queryWithdrawalStatus_body. run_handler.
  repeat (break_match; run_handler; try settle).
Qed.

Lemma getWithdrawalStatus_settles gw req w :
  settled_from (withdrawals (db w)) (withdrawals (db (snd (getWithdrawalStatus gw req w)))).
Proof.
  unfold getWithdrawalStatus, getWithdrawalStatus_body. run_handler.
  repeat (break_match; run_handler; try settle).
Qed.

Lemma withdrawalCallback_settles c gw req w :
  settled_from (withdrawals (db w)) (withdrawals (db (snd (withdrawalCallback c gw req w)))).
Proof.
  unfold withdrawalCallback, withdrawalCallback_body. run_handler.
  repeat (break_match; run_handler; try settle).
Qed.

Lemma cancelWithdrawal_settles gw req w :
  settled_from (withdrawals (db w)) (withdrawals (db (snd (cancelWithdrawal gw req w)))).
Proof.
  unfold cancelWithdrawal, cancelWithdrawal_body. run_handler.
  repeat (break_match; run_handler; try settle).
Qed.

Lemma legacy_withdrawalCallback_settles req w :
  settled_from (withdrawals (db w))
    (withdrawals (db (snd (LegacyCallback.withdrawalCallback req w)))).
Proof.
  unfold LegacyCallback.withdrawalCallback, LegacyCallback.withdrawalCallback_body.
  run_handler.
  repeat (break_match; run_handler; try settle).
Qed.

Lemma wechatNotify_withdrawals c req w :
  withdrawals (db (snd (PaymentCtl.wechatNotify c req w))) = withdrawals (db w).
Proof.
  unfold PaymentCtl.wechatNotify, PaymentCtl.wechatNotify_body,
    PaymentCtl.prepay_success, PaymentCtl.transitionRepairPaymentSuccess.
  run_handler.
  repeat (break_match; run_handler; try reflexivity).
Qed.

Lemma queryPayment_withdrawals gw req w :
  withdrawals (db (snd (PaymentCtl.queryPayment gw req w))) = withdrawals (db w).
Proof.
  unfold PaymentCtl.queryPayment, PaymentCtl.queryPayment_body, PaymentCtl.query_success,
    PaymentCtl.prepay_success.
  run_handler.
  repeat (break_match; run_handler; try reflexivity).
Qed.

End Frames.

(** ** The two halves of [withdraw] *)

Section WithdrawFacts.
Import Electrician Spec.

Lemma tx_db_fresh (w : World) : tx_db (mkWState w fresh_tx) = db w.
Proof.
  destruct w as [d calls]. destruct d. unfold tx_db, set_withdrawals. simpl.
  rewrite app_nil_r. reflexivity.
Qed.

Lemma findOne_processing_count (e : Z) (rows : list Withdrawal) :
  Table.findOne
    (fun w => (w_electrician_id w =? e) && wstatus_eqb (w_status w) WProcessing) rows
  = None
  <-> processing_count e rows = 0%nat.
Proof.
  unfold Table.findOne. induction rows as [|x rows IH]; simpl; [tauto|].
  destruct ((w_electrician_id x =? e) && wstatus_eqb (w_status x) WProcessing).
  - split; discriminate.
  - exact IH.
Qed.

(** What the transactional part of [withdraw] can do: reject with a 400
    and leave everything as it was, or commit one new [pending] row. *)
Lemma withdraw_reserve_inv (req : WithdrawReq) (w : World) :
  (exists err,
      withdraw_reserve req (mkWState w fresh_tx) = (Thrown err, mkWState w fresh_tx)
      /\ exn_statusCode err = Some 400)
  \/ (exists amount no openid real_name,
        let balance := Balance.calculateBalance (db w) (wr_user_id req) in
        let new := new_withdrawal req balance amount no openid real_name
                     (Table.next_id w_id (withdrawals (db w))) in
        withdraw_reserve req (mkWState w fresh_tx)
        = (Ok (mkTransfer (w_id new) no openid real_name amount), committed w new)
        /\ amount = requestedAmount (wr_amount req) (Balance.availableBalance balance)
        /\ processing_count (wr_user_id req) (withdrawals (db w)) = 0%nat).
Proof.
  unfold withdraw_reserve, bind, gets. rewrite tx_db_fresh.
  destruct (Table.findOne _ (withdrawals (db w))) eqn:Hp.
  { left. eexists. split; reflexivity. }
  apply findOne_processing_count in Hp.
  destruct (bound_openid _) as [openid|].
  2:{ left. eexists. split; reflexivity. }
  destruct (legal_name _) as [real_name|].
  2:{ left. eexists. split; reflexivity. }
  unfold throw_if, bind.
  destruct (JS.Qltb _ minWithdrawAmount).
  { left. eexists. split; reflexivity. }
  cbn [ret].
  destruct (JS.Qltb _ _).
  { left. eexists. split; reflexivity. }
  right. cbn [ret]. unfold tx_create, commit, modify, ret. rewrite tx_db_fresh.
  do 4 eexists. split; [reflexivity|].
  split; [reflexivity|exact Hp].
Qed.

Lemma next_id_above (rows : list Withdrawal) (x : Withdrawal) :
  In x rows -> w_id x < Table.next_id w_id rows.
Proof.
  unfold Table.next_id. induction rows as [|y rows IH]; cbn [fold_right In]; [tauto|].
  intros [->|Hin]; [lia|]. specialize (IH Hin). lia.
Qed.

Lemma update_fresh_id (f : Withdrawal -> Withdrawal) (rows : list Withdrawal) (new : Withdrawal) :
  w_id new = Table.next_id w_id rows ->
  Table.update f (fun x => w_id x =? w_id new) (rows ++ [new]) = (rows ++ [f new])%list.
Proof.
  intros Hid. unfold Table.update. rewrite map_app. simpl. rewrite Z.eqb_refl.
  f_equal. rewrite <- (map_id rows) at 2. apply map_ext_in.
  intros x Hin. apply next_id_above in Hin.
  destruct (w_id x =? w_id new) eqn:E; [|reflexivity].
  apply Z.eqb_eq in E. lia.
Qed.

Lemma withdraw_transfer_cases (gw : Gateway) (tf : Transfer) (s : WState) :
  tx_finished (ws_tx s) = Some TxCommit ->
  match createTransferBill gw (transferParams tf) with
  | Returned r =>
      respond (try_catch (withdraw_transfer gw tf) withdraw_catch) s
      = (Json 200
           (WithdrawSubmitted (tf_withdrawal_id tf) (tf_withdrawAmount tf) WProcessing
              (tf_outBatchNo tf) (tr_transfer_bill_no r) (tr_package_info r)
              (JS.or_str (tr_state r) "WAIT_USER_CONFIRM")),
         mkWState
           (after_transfer tf
              (set_processing (JS.or_opt (tr_transfer_bill_no r) (tr_out_bill_no r))
                 (tr_package_info r))
              (ws_world s))
           (ws_tx s))
  | Failed e =>
      if is_rate_limit (GatewayError e) then
        respond (try_catch (withdraw_transfer gw tf) withdraw_catch) s
        = (Json 429 (RateLimited "提现请求过于频繁，请5分钟后再试" "RATE_LIMIT_EXCEEDED"),
           mkWState
             (after_transfer tf
                (set_status_reason WFailed (Some "请求过于频繁，请稍后再试"%string))
                (ws_world s))
             (ws_tx s))
      else
        respond (try_catch (withdraw_transfer gw tf) withdraw_catch) s
        = (Next (AppError ("提现申请失败：" ++ message_text (e_message e)) 500),
           mkWState
             (after_transfer tf
                (set_status_reason WFailed
                   (Some (JS.or_str (e_message e) "微信转账接口调用失败")))
                (ws_world s))
             (ws_tx s))
  end.
Proof.
  intros Hfin. destruct s as [w t]. simpl in Hfin.
  unfold withdraw_transfer, call_createTransferBill, respond, try_catch, bind, on_world,
    modify, Withdrawal_update, withdraw_catch, gets, after_transfer.
  cbn [fst snd ws_world ws_tx].
  destruct (createTransferBill gw (transferParams tf)) as [r|e].
  - unfold ret. cbn [fst snd ws_world ws_tx]. reflexivity.
  - unfold throw. cbn [fst snd ws_world ws_tx].
    destruct (is_rate_limit (GatewayError e)); cbn [fst snd ws_world ws_tx];
      unfold throw, ret; cbn [fst snd ws_world ws_tx];
      destruct t; simpl in *; subst; reflexivity.
Qed.
End WithdrawFacts.

(** ** Requests served one at a time *)

Section Serial.
Import Electrician Spec System.

Lemma withdraw_rejected (gw : Gateway) (req : WithdrawReq) (w : World) (err : Exn) :
  withdraw_reserve req (mkWState w fresh_tx) = (Thrown err, mkWState w fresh_tx) ->
  exn_statusCode err = Some 400 ->
  withdraw gw req w = (Next err, mkWState w (mkTx [] (Some TxRollback))).
Proof.
  intros Hr Hc. unfold withdraw, withdraw_body, respond, try_catch, bind.
  rewrite Hr. unfold withdraw_catch, bind, gets, rollback, modify, ret.
  cbn [ws_tx fresh_tx tx_finished ws_world]. rewrite Hc. reflexivity.
Qed.

Lemma withdraw_committed (gw : Gateway) (req : WithdrawReq) (w : World)
    (tf : Transfer) (s : WState) :
  withdraw_reserve req (mkWState w fresh_tx) = (Ok tf, s) ->
  withdraw gw req w = respond (try_catch (withdraw_transfer gw tf) withdraw_catch) s.
Proof.
  intros Hr. unfold withdraw, withdraw_body, respond, try_catch, bind.
  rewrite Hr. reflexivity.
Qed.

(** Serving a [withdraw] call in one go is running its two halves back to
    back. *)
Lemma withdraw_cut (gw : Gateway) (req : WithdrawReq) (w : World) :
  handle (Withdraw gw req) w
  = match withdraw_begin req w with
    | (inl resp, w') => (resp, w')
    | (inr tf, w') => withdraw_resume gw tf w'
    end.
Proof.
  unfold handle, withdraw_begin, withdraw_resume.
  destruct (withdraw_reserve_inv req w) as [(err & Hr & Hc)|(amount & no & openid & real_name & Hr & _)].
  - rewrite (withdraw_rejected gw req w err Hr Hc), Hr.
    unfold withdraw_catch, respond, bind, gets, rollback, modify, ret.
    cbn [ws_tx fresh_tx tx_finished ws_world]. rewrite Hc. reflexivity.
  - cbv zeta in Hr. rewrite (withdraw_committed gw req w _ _ Hr), Hr.
    unfold committed. cbn [ws_world].
    destruct (respond _ _). reflexivity.
Qed.

Lemma processing_count_settled (e : Z) (rows rows' : list Withdrawal) :
  settled_from rows rows' -> (processing_count e rows' <= processing_count e rows)%nat.
Proof.
  intros (f & p & Hk & Hs & ->). unfold Table.update.
  induction rows as [|x rows IH]; simpl; [lia|].
  destruct (p x).
  - destruct (Hk x) as (_ & -> & _).
    specialize (Hs x). destruct (w_status (f x)); try discriminate;
      simpl; rewrite andb_false_r;
      destruct ((w_electrician_id x =? e) && wstatus_eqb (w_status x) WProcessing); lia.
  - destruct ((w_electrician_id x =? e) && wstatus_eqb (w_status x) WProcessing); lia.
Qed.

Lemma processing_count_app (e : Z) (rows more : list Withdrawal) :
  processing_count e (rows ++ more) = (processing_count e rows + processing_count e more)%nat.
Proof.
  induction rows as [|x rows IH]; simpl; [reflexivity|].
  destruct ((w_electrician_id x =? e) && wstatus_eqb (w_status x) WProcessing);
    rewrite IH; reflexivity.
Qed.

Lemma snapshots_settled (rows rows' : list Withdrawal) :
  settled_from rows rows' -> snapshots_kept rows rows'.
Proof.
  intros (f & p & Hk & _ & ->). exists []. rewrite app_nil_r.
  unfold Table.update. rewrite map_map. apply map_ext.
  intros x. destruct (p x); [apply Hk|reflexivity].
Qed.

Lemma snapshots_update (f : Withdrawal -> Withdrawal) (p : Withdrawal -> bool)
    (rows : list Withdrawal) :
  keeps f -> map snapshot (Table.update f p rows) = map snapshot rows.
Proof.
  intros Hk. unfold Table.update. rewrite map_map. apply map_ext.
  intros x. destruct (p x); [apply Hk|reflexivity].
Qed.

Lemma snapshots_kept_refl (rows : list Withdrawal) : snapshots_kept rows rows.
Proof. exists []. rewrite app_nil_r. reflexivity. Qed.

Lemma snapshots_kept_trans (a b c : list Withdrawal) :
  snapshots_kept a b -> snapshots_kept b c -> snapshots_kept a c.
Proof.
  intros [m1 H1] [m2 H2]. exists (m1 ++ m2)%list. rewrite H2, H1, app_assoc. reflexivity.
Qed.

(** The table after a whole [withdraw] call: untouched, or one more row
    for the caller, who had nothing in [processing]. *)
Lemma withdraw_effect (gw : Gateway) (req : WithdrawReq) (w : World) :
  let rows := withdrawals (db w) in
  let rows' := withdrawals (db (ws_world (snd (withdraw gw req w)))) in
  rows' = rows
  \/ (exists new, rows' = (rows ++ [new])%list
                  /\ w_electrician_id new = wr_user_id req
                  /\ processing_count (wr_user_id req) rows = 0%nat).
Proof.
  cbv zeta.
  destruct (withdraw_reserve_inv req w) as [(err & Hr & Hc)|(amount & no & openid & real_name & Hr & _ & Hz)].
  - left. rewrite (withdraw_rejected gw req w err Hr Hc). reflexivity.
  - right. cbv zeta in Hr. rewrite (withdraw_committed gw req w _ _ Hr).
    set (new := new_withdrawal req _ amount no openid real_name _) in *.
    set (tf := mkTransfer _ _ _ _ _) in *.
    pose proof (withdraw_transfer_cases gw tf (committed w new) eq_refl) as Hc.
    assert (Hup : forall f, keeps f ->
              withdrawals (db (after_transfer tf f (ws_world (committed w new))))
              = (withdrawals (db w) ++ [f new])%list).
    { intros f Hk. unfold after_transfer, committed. cbn [ws_world on_db db log_call set_withdrawals withdrawals].
      apply update_fresh_id. reflexivity. }
    destruct (createTransferBill gw (transferParams tf)) as [r|e].
    + rewrite Hc. cbn [snd ws_world]. eexists. split; [apply Hup, keeps_set_processing|].
      split; [reflexivity|exact Hz].
    + destruct (is_rate_limit (GatewayError e)); rewrite Hc; cbn [snd ws_world];
        (eexists; split; [apply Hup, keeps_set_status_reason|]);
        (split; [reflexivity|exact Hz]).
Qed.

Lemma handle_single_processing (r : Request) (w : World) :
  at_most_one_processing (db w) -> at_most_one_processing (db (snd (handle r w))).
Proof.
  intros Hinv e.
  assert (Hs : forall rows', settled_from (withdrawals (db w)) rows' ->
                 (processing_count e rows' <= 1)%nat).
  { intros rows' H. apply processing_count_settled with (e := e) in H.
    specialize (Hinv e). lia. }
  destruct r as [gw req|gw req|gw req|c gw req|gw req|c req|gw req]; cbn [handle].
  - destruct (withdraw gw req w) as [resp s] eqn:E. cbn [snd].
    pose proof (withdraw_effect gw req w) as H. cbv zeta in H. rewrite E in H. cbn [snd] in H.
    destruct H as [->|(new & -> & Hn & Hz)]; [apply Hinv|].
    rewrite processing_count_app. simpl.
    destruct (Z.eq_dec e (wr_user_id req)) as [->|Hne].
    + rewrite Hz. destruct (_ && _); lia.
    + rewrite Hn. replace (wr_user_id req =? e) with false by (symmetry; apply Z.eqb_neq; congruence).
      simpl. specialize (Hinv e). lia.
  - apply Hs, queryWithdrawalStatus_settles.
  - apply Hs, getWithdrawalStatus_settles.
  - apply Hs, withdrawalCallback_settles.
  - apply Hs, cancelWithdrawal_settles.
  - rewrite wechatNotify_withdrawals. apply Hinv.
  - rewrite queryPayment_withdrawals. apply Hinv.
Qed.

Lemma run_single_processing (rs : list Request) (w : World) :
  at_most_one_processing (db w) -> at_most_one_processing (db (run rs w)).
Proof.
  revert w. induction rs as [|r rs IH]; intros w H; simpl; [exact H|].
  apply IH, handle_single_processing, H.
Qed.

Lemma withdraw_while_processing (gw : Gateway) (req : WithdrawReq) (w : World) :
  (0 < processing_count (wr_user_id req) (withdrawals (db w)))%nat ->
  withdraw gw req w = (Next err_processing, mkWState w (mkTx [] (Some TxRollback))).
Proof.
  intros Hpos. apply withdraw_rejected; [|reflexivity].
  unfold withdraw_reserve, bind, gets. rewrite tx_db_fresh.
  destruct (Table.findOne _ (withdrawals (db w))) eqn:Hp; [reflexivity|].
  apply findOne_processing_count in Hp. lia.
Qed.
End Serial.

(** ** C1: the balance calculator *)

(** C1 (as amended). On a ledger whose amounts are [DECIMAL(10,2)] values,
    the current [calculateBalance] reports [withdrawnAmount] as the sum of
    the electrician's [success] withdrawals only, [lockedAmount] as the sum
    of the [processing] ones, and [availableBalance] as [totalIncome -
    withdrawnAmount - lockedAmount] rounded to two decimals (the rounding
    changes nothing there); adding a [processing] row leaves
    [withdrawnAmount] as it was.  The earlier revision reports the sum over
    [success] and [processing] together as [withdrawnAmount], and the same
    available balance. *)
Theorem calculateBalance_accounts (d : DB) (e : Z) :
  Spec.ledger_decimal2 d ->
  let b := Balance.calculateBalance d e in
  let l := LegacyBalance.calculateBalance d e in
  (Balance.withdrawnAmount b == Spec.sum_amount e WSuccess (withdrawals d))%Q
  /\ (Balance.lockedAmount b == Spec.sum_amount e WProcessing (withdrawals d))%Q
  /\ (Balance.availableBalance b
      == JS.toFixed2 (Balance.totalIncome b - Balance.withdrawnAmount b
                      - Balance.lockedAmount b))%Q
  /\ (Balance.availableBalance b
      == Balance.totalIncome b - Balance.withdrawnAmount b - Balance.lockedAmount b)%Q
  /\ (forall w, w_status w = WProcessing ->
        (Balance.withdrawnAmount
           (Balance.calculateBalance (set_withdrawals (fun rows => (rows ++ [w])%list) d) e)
         == Balance.withdrawnAmount b)%Q)
  /\ (LegacyBalance.withdrawnAmount l
      == Spec.sum_amount e WSuccess (withdrawals d)
         + Spec.sum_amount e WProcessing (withdrawals d))%Q
  /\ (LegacyBalance.availableBalance l == Balance.availableBalance b)%Q.
Proof.
  intros [Hp Hw] b l.
  pose proof (decimal2_rawTotalIncome d e Hp) as HT.
  pose proof (decimal2_sum_amount e WSuccess _ Hw) as HS.
  pose proof (decimal2_sum_amount e WProcessing _ Hw) as HL.
  pose proof (withdrawalSum_one d e WSuccess) as ES.
  pose proof (withdrawalSum_one d e WProcessing) as EL.
  assert (HS' : Spec.decimal2 (JS.or_zero (Balance.withdrawalSum d e [WSuccess])))
    by (apply decimal2_Qeq with (2 := HS); symmetry; exact ES).
  assert (HL' : Spec.decimal2 (JS.or_zero (Balance.withdrawalSum d e [WProcessing])))
    by (apply decimal2_Qeq with (2 := HL); symmetry; exact EL).
  assert (Hwd : (Balance.withdrawnAmount b == Spec.sum_amount e WSuccess (withdrawals d))%Q).
  { subst b. simpl. rewrite (toFixed2_decimal2 _ HS'). exact ES. }
  assert (Hlk : (Balance.lockedAmount b == Spec.sum_amount e WProcessing (withdrawals d))%Q).
  { subst b. simpl. rewrite (toFixed2_decimal2 _ HL'). exact EL. }
  assert (Hav : (Balance.availableBalance b
                 == Balance.totalIncome b - Balance.withdrawnAmount b
                    - Balance.lockedAmount b)%Q).
  { subst b. simpl.
    rewrite (toFixed2_decimal2 _ HT), (toFixed2_decimal2 _ HS'), (toFixed2_decimal2 _ HL').
    apply toFixed2_decimal2. repeat apply decimal2_minus; assumption. }
  repeat split.
  - exact Hwd.
  - exact Hlk.
  - rewrite toFixed2_decimal2; [exact Hav|].
    subst b. simpl. repeat apply decimal2_minus; apply decimal2_toFixed2.
  - exact Hav.
  - intros w Hst. rewrite Hwd. subst b. simpl.
    assert (HS2 : Spec.decimal2
                    (Spec.sum_amount e WSuccess (withdrawals d ++ [w])))
      by (rewrite (sum_amount_success_app_processing e (withdrawals d) w Hst); exact HS).
    pose proof (withdrawalSum_one (set_withdrawals (fun rows => (rows ++ [w])%list) d)
                  e WSuccess) as E2.
    simpl in E2.
    rewrite toFixed2_decimal2.
    + rewrite E2, (sum_amount_success_app_processing e (withdrawals d) w Hst). reflexivity.
    + apply decimal2_Qeq with (2 := HS2). symmetry. exact E2.
  - subst l. simpl.
    assert (E : (JS.or_zero (Balance.withdrawalSum d e [WSuccess; WProcessing])
                 == Spec.sum_amount e WSuccess (withdrawals d)
                    + Spec.sum_amount e WProcessing (withdrawals d))%Q).
    { unfold Balance.withdrawalSum. rewrite or_zero_sql_sum. apply Qsum_two_statuses. }
    rewrite toFixed2_decimal2; [exact E|].
    apply decimal2_Qeq with (1 := Qeq_sym _ _ E). apply decimal2_plus; assumption.
  - subst l b. simpl.
    assert (E : (JS.or_zero (Balance.withdrawalSum d e [WSuccess; WProcessing])
                 == Spec.sum_amount e WSuccess (withdrawals d)
                    + Spec.sum_amount e WProcessing (withdrawals d))%Q).
    { unfold Balance.withdrawalSum. rewrite or_zero_sql_sum. apply Qsum_two_statuses. }
    rewrite !toFixed2_decimal2.
    + rewrite E, ES, EL. ring.
    + repeat apply decimal2_minus; assumption.
    + apply decimal2_minus; [assumption|].
      apply decimal2_Qeq with (1 := Qeq_sym _ _ E). apply decimal2_plus; assumption.
Qed.

(** The current calculator on the sample ledger with one [processing]
    withdrawal: the locked amount is that withdrawal. *)
Lemma calculateBalance_accounts_witness :
  Spec.ledger_decimal2 Sample.with_processing
  /\ (Balance.lockedAmount (Balance.calculateBalance Sample.with_processing 1)
      == Spec.sum_amount 1 WProcessing (withdrawals Sample.with_processing))%Q.
Proof.
  split.
  - split; simpl; repeat constructor;
      [exists 5000 | exists 10000 | exists 1000]; reflexivity.
  - apply (calculateBalance_accounts Sample.with_processing 1).
    split; simpl; repeat constructor;
      [exists 5000 | exists 10000 | exists 1000]; reflexivity.
Defined.

(** C1 as stated fails on the earlier [calculateBalance]: with one
    [processing] withdrawal of 10.00 and no [success] one it reports
    [withdrawnAmount = 10.00], not the sum over [success] (0). *)
Lemma legacy_counts_processing_as_withdrawn :
  ~ (LegacyBalance.withdrawnAmount
       (LegacyBalance.calculateBalance Sample.with_processing 1)
     == Spec.sum_amount 1 WSuccess (withdrawals Sample.with_processing))%Q.
Proof. vm_compute. discriminate. Qed.

(** ** C2: one withdrawal in flight per electrician *)

(** C2 (as amended). A [withdraw] call that starts while its electrician
    has a [processing] withdrawal is rejected with the 400 of the guard:
    the world is left as it was (no row inserted, no gateway call) and the
    transaction is rolled back.  Hence, when requests are served one at a
    time, "at most one [processing] withdrawal per electrician" holds after
    every request if it held before. *)
Theorem withdraw_single_flight (gw : Gateway) (req : WithdrawReq) (w : World)
    (rs : list Request) :
  at_most_one_processing (db w) ->
  ((0 < processing_count (wr_user_id req) (withdrawals (db w)))%nat ->
   fst (withdraw gw req w) = Next err_processing
   /\ exn_statusCode err_processing = Some 400
   /\ ws_world (snd (withdraw gw req w)) = w
   /\ gateway_calls (ws_world (snd (withdraw gw req w))) = gateway_calls w
   /\ withdrawals (db (ws_world (snd (withdraw gw req w)))) = withdrawals (db w)
   /\ tx_finished (ws_tx (snd (withdraw gw req w))) = Some TxRollback)
  /\ at_most_one_processing (db (run rs w)).
Proof.
  intros Hinv. split.
  - intros Hpos. rewrite (withdraw_while_processing gw req w Hpos). repeat split.
  - apply run_single_processing, Hinv.
Qed.

(** The guard at work on the sample ledger, where electrician 1 has a
    withdrawal in [processing]. *)
Lemma withdraw_single_flight_witness :
  at_most_one_processing Sample.with_processing
  /\ (0 < processing_count 1 (withdrawals Sample.with_processing))%nat
  /\ fst (withdraw Sample.gw_ok Sample.req_30 (mkWorld Sample.with_processing []))
     = Next err_processing
  /\ at_most_one_processing
       (db (run [Withdraw Sample.gw_ok Sample.req_30]
              (mkWorld Sample.with_processing []))).
Proof.
  assert (H : at_most_one_processing Sample.with_processing).
  { intros e. cbn.
    match goal with |- context [if ?c then _ else _] => destruct c end; lia. }
  pose proof (withdraw_single_flight Sample.gw_ok Sample.req_30
                (mkWorld Sample.with_processing [])
                [Withdraw Sample.gw_ok Sample.req_30] H) as [Hrej Hrun].
  split; [exact H|]. split; [simpl; lia|].
  split; [apply Hrej; simpl; lia|exact Hrun].
Defined.

(** C2 as stated fails for overlapping calls: the guard looks for
    [processing] rows, but a call that has committed its [pending] row and
    waits for the gateway is invisible to it.  Two such calls of
    electrician 1 end with two [processing] withdrawals. *)
Lemma overlapping_withdrawals_both_processing :
  at_most_one_processing (db (world (Sample.start Sample.base)))
  /\ processing_count 1
       (withdrawals (db (world (run_events Sample.overlap (Sample.start Sample.base)))))
     = 2%nat
  /\ ~ at_most_one_processing
         (db (world (run_events Sample.overlap (Sample.start Sample.base)))).
Proof.
  split; [intros e; simpl; lia|].
  assert (H : processing_count 1
       (withdrawals (db (world (run_events Sample.overlap (Sample.start Sample.base)))))
     = 2%nat) by (vm_compute; reflexivity).
  split; [exact H|].
  intros Hinv. specialize (Hinv 1). rewrite H in Hinv. lia.
Qed.

(** ** C9: snapshots are written once *)

Section Snapshots.

Lemma begin_snapshots (req : WithdrawReq) (w : World) :
  snapshots_kept (withdrawals (db w)) (withdrawals (db (snd (withdraw_begin req w)))).
Proof.
  unfold withdraw_begin.
  destruct (withdraw_reserve_inv req w) as [(err & Hr & Hc)|(amount & no & openid & real_name & Hr & _)].
  - rewrite Hr. unfold withdraw_catch, respond, bind, gets, rollback, modify, ret.
    cbn [ws_tx fresh_tx tx_finished ws_world snd]. rewrite Hc. cbn [snd ws_world].
    apply snapshots_kept_refl.
  - cbv zeta in Hr. rewrite Hr. cbn [snd committed ws_world on_db db set_withdrawals withdrawals].
    eexists. rewrite map_app. reflexivity.
Qed.

Lemma resume_snapshots (gw : Gateway) (tf : Transfer) (w : World) :
  snapshots_kept (withdrawals (db w)) (withdrawals (db (snd (withdraw_resume gw tf w)))).
Proof.
  unfold withdraw_resume. cbn [snd].
  pose proof (withdraw_transfer_cases gw tf (mkWState w (mkTx [] (Some TxCommit))) eq_refl) as Hc.
  assert (Hup : forall f, keeps f ->
            snapshots_kept (withdrawals (db w)) (withdrawals (db (after_transfer tf f w)))).
  { intros f Hk. unfold after_transfer. cbn [on_db db log_call set_withdrawals withdrawals].
    exists []. rewrite app_nil_r. apply snapshots_update, Hk. }
  destruct (createTransferBill gw (transferParams tf)) as [r|e].
  - rewrite Hc. cbn [snd ws_world]. apply Hup, keeps_set_processing.
  - destruct (is_rate_limit (GatewayError e)); rewrite Hc; cbn [snd ws_world];
      apply Hup, keeps_set_status_reason.
Qed.

Lemma handle_snapshots (r : Request) (w : World) :
  snapshots_kept (withdrawals (db w)) (withdrawals (db (snd (handle r w)))).
Proof.
  destruct r as [gw req|gw req|gw req|c gw req|gw req|c req|gw req].
  - rewrite withdraw_cut.
    pose proof (begin_snapshots req w) as Hb.
    destruct (withdraw_begin req w) as [[resp|tf] w']; cbn [snd] in *; [exact Hb|].
    eapply snapshots_kept_trans; [exact Hb|apply resume_snapshots].
  - apply snapshots_settled, queryWithdrawalStatus_settles.
  - apply snapshots_settled, getWithdrawalStatus_settles.
  - apply snapshots_settled, withdrawalCallback_settles.
  - apply snapshots_settled, cancelWithdrawal_settles.
  - cbn [handle]. rewrite wechatNotify_withdrawals. apply snapshots_kept_refl.
  - cbn [handle]. rewrite queryPayment_withdrawals. apply snapshots_kept_refl.
Qed.

Lemma step_snapshots (e : Event) (s : Sys) :
  snapshots_kept (withdrawals (db (world s))) (withdrawals (db (world (step e s)))).
Proof.
  destruct e as [req|gw k|r]; cbn [step].
  - pose proof (begin_snapshots req (world s)) as Hb.
    destruct (withdraw_begin req (world s)) as [[resp|tf] w']; exact Hb.
  - destruct (nth_error (waiting s) k) as [tf|]; cbn [world].
    + apply resume_snapshots.
    + apply snapshots_kept_refl.
  - apply handle_snapshots.
Qed.
End Snapshots.

(** C9. Whatever requests are served, overlapping [withdraw] calls
    included, every withdrawal row stays at its place in the table with
    the primary key and the three snapshot fields it was created with; the
    webhook of the earlier revision keeps them too. *)
Theorem snapshot_fields_never_change (es : list Event) (rs : list Request) (s : Sys)
    (w : World) (legacy : LegacyCallback.CallbackReq) :
  snapshots_kept (withdrawals (db (world s))) (withdrawals (db (world (run_events es s))))
  /\ snapshots_kept (withdrawals (db w)) (withdrawals (db (run rs w)))
  /\ snapshots_kept (withdrawals (db w))
       (withdrawals (db (snd (LegacyCallback.withdrawalCallback legacy w)))).
Proof.
  split; [|split; [|apply snapshots_settled, legacy_withdrawalCallback_settles]].
  - revert s. induction es as [|e es IH]; intros s; cbn [run_events].
    + apply snapshots_kept_refl.
    + eapply snapshots_kept_trans; [apply step_snapshots|apply IH].
  - revert w. induction rs as [|r rs IH]; intros w; cbn [run].
    + apply snapshots_kept_refl.
    + eapply snapshots_kept_trans; [apply handle_snapshots|apply IH].
Qed.

(** ** C4: amount validation *)

Lemma Qltb_lt (x y : Q) : JS.Qltb x y = true <-> (x < y)%Q.
Proof.
  unfold JS.Qltb. rewrite negb_true_iff. split.
  - intros H. apply Qnot_le_lt. intros Hle. apply Qle_bool_iff in Hle. congruence.
  - intros H. destruct (Qle_bool y x) eqn:E; [|reflexivity].
    apply Qle_bool_iff in E. exfalso. exact (Qlt_not_le _ _ H E).
Qed.



(** ** C5: the gateway refuses the transfer *)

Lemma or_str_nonempty (a : option string) (b : string) : b <> ""%string -> JS.or_str a b <> ""%string.
Proof.
  intros Hb. unfold JS.or_str. destruct a as [s|]; [|exact Hb].
  destruct (String.eqb s "") eqn:E; [exact Hb|]. apply String.eqb_neq. exact E.
Qed.

Lemma withdrawalSum_app_not_listed (d : DB) (e : Z) (st : WithdrawalStatus) (x : Withdrawal)
    (rows' : list Withdrawal) :
  rows' = (withdrawals d ++ [x])%list ->
  wstatus_eqb (w_status x) st = false ->
  Balance.withdrawalSum (set_withdrawals (fun _ => rows') d) e [st]
  = Balance.withdrawalSum d e [st].
Proof.
  intros -> Hst. unfold Balance.withdrawalSum. cbn [withdrawals set_withdrawals].
  rewrite filter_app. cbn [filter existsb]. rewrite Hst. cbn [orb].
  rewrite andb_false_r, app_nil_r. reflexivity.
Qed.

Lemma lockedAmount_withdrawals (d d' : DB) (e : Z) :
  Balance.withdrawalSum d' e [WProcessing] = Balance.withdrawalSum d e [WProcessing] ->
  Balance.lockedAmount (Balance.calculateBalance d' e)
  = Balance.lockedAmount (Balance.calculateBalance d e).
Proof. intros H. unfold Balance.calculateBalance. cbn [Balance.lockedAmount]. rewrite H. reflexivity. Qed.

Lemma withdrawalSum_only_withdrawals (d d' : DB) (e : Z) (sts : list WithdrawalStatus) :
  withdrawals d' = withdrawals d ->
  Balance.withdrawalSum d' e sts = Balance.withdrawalSum d e sts.
Proof. intros H. unfold Balance.withdrawalSum. rewrite H. reflexivity. Qed.

(** What [withdraw] leaves when its transfer call throws [e]: the
    committed row, [failed], with the reason of the branch taken; the same
    [lockedAmount]; and the answer of that branch. *)
Lemma withdraw_after_failure (gw : Gateway) (req : WithdrawReq) (w : World)
    (tf : Transfer) (e : ApiError) :
  fst (withdraw_reserve req (mkWState w fresh_tx)) = Ok tf ->
  createTransferBill gw (transferParams tf) = Failed e ->
  let result := withdraw gw req w in
  let d' := db (ws_world (snd result)) in
  (exists row,
      withdrawals d' = (withdrawals (db w) ++ [row])%list
      /\ w_id row = tf_withdrawal_id tf
      /\ w_electrician_id row = wr_user_id req
      /\ w_status row = WFailed
      /\ w_fail_reason row
         = Some (if is_rate_limit (GatewayError e) then "请求过于频繁，请稍后再试"%string
                 else JS.or_str (e_message e) "微信转账接口调用失败"))
  /\ Balance.lockedAmount (Balance.calculateBalance d' (wr_user_id req))
     = Balance.lockedAmount (Balance.calculateBalance (db w) (wr_user_id req))
  /\ fst result
     = (if is_rate_limit (GatewayError e)
        then Json 429 (RateLimited "提现请求过于频繁，请5分钟后再试" "RATE_LIMIT_EXCEEDED")
        else Next (AppError ("提现申请失败：" ++ message_text (e_message e)) 500)).
Proof.
  intros Hres Hgw result d'.
  destruct (withdraw_reserve_inv req w)
    as [(err & Hr & _)|(amount & no & openid & real_name & Hr & _ & _)].
  { rewrite Hr in Hres. discriminate. }
  cbv zeta in Hr. rewrite Hr in Hres. cbn [fst] in Hres. injection Hres as <-.
  set (new := new_withdrawal req _ amount no openid real_name _) in *.
  set (tf := mkTransfer _ _ _ _ _) in *.
  pose proof (withdraw_transfer_cases gw tf (committed w new) eq_refl) as Hc.
  rewrite Hgw in Hc.
  assert (Hup : forall f,
            withdrawals (db (after_transfer tf f (ws_world (committed w new))))
            = (withdrawals (db w) ++ [f new])%list).
  { intros f. unfold after_transfer, committed.
    cbn [ws_world on_db db log_call set_withdrawals withdrawals].
    exact (update_fresh_id f (withdrawals (db w)) new eq_refl). }
  assert (Hres' : result = respond (try_catch (withdraw_transfer gw tf) withdraw_catch)
                             (committed w new))
    by (apply withdraw_committed; exact Hr).
  assert (Hrows : exists row,
             withdrawals d' = (withdrawals (db w) ++ [row])%list
             /\ w_id row = tf_withdrawal_id tf
             /\ w_electrician_id row = wr_user_id req
             /\ w_status row = WFailed
             /\ w_fail_reason row
                = Some (if is_rate_limit (GatewayError e)
                        then "请求过于频繁，请稍后再试"%string
                        else JS.or_str (e_message e) "微信转账接口调用失败")).
  { subst d'. rewrite Hres'.
    destruct (is_rate_limit (GatewayError e)); rewrite Hc; cbn [snd ws_world];
      eexists; (split; [apply Hup|]); repeat split. }
  destruct Hrows as (row & Hrows & Hid & Hel & Hst & Hreason).
  split; [|split].
  - exists row. repeat split; assumption.
  - apply lockedAmount_withdrawals.
    rewrite <- (withdrawalSum_app_not_listed (db w) (wr_user_id req) WProcessing
                  row _ Hrows); [|rewrite Hst; reflexivity].
    apply withdrawalSum_only_withdrawals. reflexivity.
  - rewrite Hres'.
    destruct (is_rate_limit (GatewayError e)); rewrite Hc; reflexivity.
Qed.

(** The [createTransferBill] of the adapter in the repository never
    throws an error that [withdraw] takes for a rate limit: it rethrows a
    plain [Error], so an HTTP 429 of the gateway reaches [withdraw] without
    its status. *)
Remark adapter_error_is_not_rate_limit (error : Adapter.HttpError) :
  is_rate_limit (GatewayError (Adapter.rethrown error)) = false.
Proof. reflexivity. Qed.

(** What the service's [createTransferBill] throws when the HTTP client
    throws [error] at every request. *)
Lemma createTransferBill_rethrows (env : Wechat.Env) (p : TransferParams)
    (name : string) (error : Adapter.HttpError) :
  Wechat.isSandbox env = false ->
  Wechat.encryptSensitiveField env (tp_user_name p) = inl name ->
  (forall rq, Wechat.request env rq = inr error) ->
  fst (Wechat.createTransferBill env p) = Failed (Adapter.rethrown error).
Proof.
  intros Hsb Henc Hrq. unfold Wechat.createTransferBill. rewrite Hsb, Henc.
  destruct (String.eqb (tp_user_name p) ""); rewrite Hrq; reflexivity.
Qed.

(** C5, where the code departs from it.  The first half of the claim
    holds: when the transactional part of [withdraw] has committed its
    [pending] row and the transfer request then fails in the HTTP client,
    the row ends [failed] with the reason "转账失败: ..." and the
    electrician's [lockedAmount] is what it was before the call.  The
    second half does not: whatever the HTTP status of the failure, 429
    included, the answer is the generic 500 handed to the error
    middleware, because [createTransferBill] rethrows a plain [Error]
    without status or code.  The branch of [withdraw] that answers 429
    with the code RATE_LIMIT_EXCEEDED is there, and is taken for an error
    that carries status 429 or code FREQUENCY_LIMIT_EXCEED; it then
    stores its own reason on the failed row. *)
Theorem withdraw_gateway_failure (env : Wechat.Env) (rest : Gateway) (req : WithdrawReq)
    (w : World) (tf : Transfer) (name : string) (error : Adapter.HttpError) :
  fst (withdraw_reserve req (mkWState w fresh_tx)) = Ok tf ->
  Wechat.isSandbox env = false ->
  Wechat.encryptSensitiveField env (tf_real_name tf) = inl name ->
  (forall rq, Wechat.request env rq = inr error) ->
  let result := withdraw (Wechat.gateway env rest) req w in
  let d' := db (ws_world (snd result)) in
  let text := ("转账失败: "
               ++ JS.or_str (Adapter.response_message error) (Adapter.message error))%string in
  (exists row,
      withdrawals d' = (withdrawals (db w) ++ [row])%list
      /\ w_id row = tf_withdrawal_id tf
      /\ w_electrician_id row = wr_user_id req
      /\ w_status row = WFailed
      /\ w_fail_reason row = Some text)
  /\ Balance.lockedAmount (Balance.calculateBalance d' (wr_user_id req))
     = Balance.lockedAmount (Balance.calculateBalance (db w) (wr_user_id req))
  /\ fst result = Next (AppError ("提现申请失败：" ++ text) 500)
  /\ (forall gw e,
        createTransferBill gw (transferParams tf) = Failed e ->
        is_rate_limit (GatewayError e) = true ->
        fst (withdraw gw req w)
        = Json 429 (RateLimited "提现请求过于频繁，请5分钟后再试" "RATE_LIMIT_EXCEEDED")
        /\ exists row,
             withdrawals (db (ws_world (snd (withdraw gw req w))))
             = (withdrawals (db w) ++ [row])%list
             /\ w_id row = tf_withdrawal_id tf
             /\ w_status row = WFailed
             /\ w_fail_reason row = Some "请求过于频繁，请稍后再试"%string).
Proof.
  intros Hres Hsb Henc Hrq result d' text.
  assert (Hgw : createTransferBill (Wechat.gateway env rest) (transferParams tf)
                = Failed (Adapter.rethrown error))
    by exact (createTransferBill_rethrows env (transferParams tf) name error Hsb Henc Hrq).
  destruct (withdraw_after_failure (Wechat.gateway env rest) req w tf _ Hres Hgw)
    as (Hrow & Hlocked & Hanswer).
  split; [exact Hrow|]. split; [exact Hlocked|]. split; [exact Hanswer|].
  intros gw e Hfail Hlimit.
  destruct (withdraw_after_failure gw req w tf e Hres Hfail)
    as ((row & Hrows & Hid & _ & Hst & Hreason) & _ & Hanswer').
  rewrite Hlimit in Hanswer', Hreason.
  split; [exact Hanswer'|]. exists row. repeat split; assumption.
Qed.

(** The transfer of 30.00 meets an HTTP 429 of the gateway and is
    answered with the generic 500. *)
Lemma withdraw_gateway_failure_witness :
  fst (withdraw_reserve Sample.req_30 (mkWState (mkWorld Sample.base []) fresh_tx))
  = Ok Sample.transfer_30
  /\ Wechat.isSandbox Cover.live_env = false
  /\ Wechat.encryptSensitiveField Cover.live_env (tf_real_name Sample.transfer_30)
     = inl "enc:Zhang"%string
  /\ (forall rq, Wechat.request Cover.live_env rq = inr Cover.too_many_requests)
  /\ Adapter.response_status Cover.too_many_requests = Some 429
  /\ fst (withdraw (Wechat.gateway Cover.live_env Sample.gw_ok) Sample.req_30
            (mkWorld Sample.base []))
     = Next (AppError "提现申请失败：转账失败: Too Many Requests" 500).
Proof.
  assert (H1 : fst (withdraw_reserve Sample.req_30
                      (mkWState (mkWorld Sample.base []) fresh_tx))
               = Ok Sample.transfer_30) by (vm_compute; reflexivity).
  assert (H4 : forall rq, Wechat.request Cover.live_env rq = inr Cover.too_many_requests)
    by (intros rq; reflexivity).
  split; [exact H1|]. split; [reflexivity|]. split; [reflexivity|].
  split; [exact H4|]. split; [reflexivity|].
  exact (proj1 (proj2 (proj2
           (withdraw_gateway_failure Cover.live_env Sample.gw_ok Sample.req_30
              (mkWorld Sample.base []) Sample.transfer_30 "enc:Zhang"
              Cover.too_many_requests H1 eq_refl eq_refl H4)))).
Defined.

(** ** C3 and C10: the payment webhook *)

Section Webhook.
Import PaymentCtl.

Lemma pstatus_eqb_eq (a b : PaymentStatus) : pstatus_eqb a b = true <-> a = b.
Proof. destruct a, b; simpl; split; intros H; congruence. Qed.

Lemma findOne_update {A} (f : A -> A) (p : A -> bool) (rows : list A) :
  (forall x, p x = true -> p (f x) = true) ->
  Table.findOne p (Table.update f p rows) = option_map f (Table.findOne p rows).
Proof.
  intros Hp. unfold Table.findOne, Table.update.
  induction rows as [|x rows IH]; simpl; [reflexivity|].
  destruct (p x) eqn:E.
  - rewrite (Hp x E). reflexivity.
  - rewrite E. exact IH.
Qed.

(** The world a verified notification for a payment that is not yet
    [success] leaves behind; [trade_state] plays no part in it. *)
Lemma wechatNotify_applies (c : Service.Crypto PaymentNotice) (req : NotifyReq) (w : World)
    (n : PaymentNotice) (p : Payment) :
  Service.handlePaymentNotify c (nr_headers req) (nr_body req) = Service.NotifyOk n ->
  Table.findOne (by_out_trade_no (out_trade_no n)) (payments (db w)) = Some p ->
  p_status p <> PSuccess ->
  let paid_at := match success_time n with Some t => t | None => nr_now req end in
  let w1 := on_db (set_payments
                     (Table.update (set_paid (transaction_id n) paid_at)
                        (by_out_trade_no (out_trade_no n)))) w in
  wechatNotify c req w
  = (Json 200 Service.generateSuccessResponse,
     match Table.findOne (fun o => o_id o =? p_order_id p) (orders (db w)) with
     | Some order =>
         snd ((if ptype_eqb (p_type p) Prepay
               then prepay_success (nr_now req) p order
               else transitionRepairPaymentSuccess (nr_now req) order (Some (o_user_id order)))
                w1)
     | None => w1
     end).
Proof.
  intros Hn Hf Hs paid_at w1.
  unfold wechatNotify, wechatNotify_body, respond, try_catch, bind, gets.
  rewrite Hn. cbn [fst snd]. rewrite Hf.
  destruct (pstatus_eqb (p_status p) PSuccess) eqn:E.
  { apply pstatus_eqb_eq in E. contradiction. }
  unfold Payment_update, modify. cbn [fst snd].
  fold paid_at. fold w1.
  change (orders (db w1)) with (orders (db w)).
  destruct (Table.findOne (fun o => o_id o =? p_order_id p) (orders (db w))) as [order|].
  - destruct (ptype_eqb (p_type p) Prepay).
    + unfold prepay_success. run_handler. reflexivity.
    + unfold transitionRepairPaymentSuccess. run_handler.
      destruct (o_electrician_id order) as [el|]; [destruct (el =? 0)|]; reflexivity.
  - reflexivity.
Qed.

Lemma In_update {A} (f : A -> A) (p : A -> bool) (rows : list A) (y : A) :
  In y (Table.update f p rows) ->
  exists x, In x rows /\ y = (if p x then f x else x).
Proof.
  unfold Table.update. intros H. apply in_map_iff in H.
  destruct H as (x & <- & Hin). exists x. split; [exact Hin|reflexivity].
Qed.

Lemma findOne_some {A} (p : A -> bool) (rows : list A) (x : A) :
  Table.findOne p rows = Some x -> In x rows /\ p x = true.
Proof. apply find_some. Qed.

(** The payments after such a notification: every row with the notified
    [out_trade_no] went through [set_paid]. *)
Lemma wechatNotify_marks_paid (c : Service.Crypto PaymentNotice) (req : NotifyReq)
    (w : World) (n : PaymentNotice) (p : Payment) :
  Service.handlePaymentNotify c (nr_headers req) (nr_body req) = Service.NotifyOk n ->
  Table.findOne (by_out_trade_no (out_trade_no n)) (payments (db w)) = Some p ->
  p_status p <> PSuccess ->
  payments (db (snd (wechatNotify c req w)))
  = Table.update
      (set_paid (transaction_id n)
         match success_time n with Some t => t | None => nr_now req end)
      (by_out_trade_no (out_trade_no n)) (payments (db w)).
Proof.
  intros Hn Hf Hs.
  pose proof (wechatNotify_applies c req w n p Hn Hf Hs) as Happ. cbv zeta in Happ.
  rewrite Happ. cbn [snd].
  destruct (Table.findOne _ (orders (db w))) as [order|]; [|reflexivity].
  destruct (ptype_eqb (p_type p) Prepay).
  - reflexivity.
  - unfold transitionRepairPaymentSuccess. run_handler.
    destruct (o_electrician_id order) as [el|]; [destruct (el =? 0)|]; reflexivity.
Qed.

(** C10. A notification that passed signature verification and
    decryption, for a payment that is found and not yet [success], is
    answered with the success response; every payment with that
    [out_trade_no] ends [success] with [paid_at] stamped; when the order
    exists it moves to the status that follows the payment type, with one
    status-log entry and at least one message appended.  None of this looks
    at [trade_state]: the same notification reporting any other trade state
    has the same outcome. *)
Theorem wechatNotify_ignores_trade_state (c : Service.Crypto PaymentNotice)
    (req : NotifyReq) (w : World) (n : PaymentNotice) (p : Payment) :
  Service.handlePaymentNotify c (nr_headers req) (nr_body req) = Service.NotifyOk n ->
  Table.findOne (by_out_trade_no (out_trade_no n)) (payments (db w)) = Some p ->
  p_status p <> PSuccess ->
  let paid_at := match success_time n with Some t => t | None => nr_now req end in
  let w' := snd (wechatNotify c req w) in
  fst (wechatNotify c req w) = Json 200 Service.generateSuccessResponse
  /\ payments (db w')
     = Table.update (set_paid (transaction_id n) paid_at)
         (by_out_trade_no (out_trade_no n)) (payments (db w))
  /\ (forall q, In q (payments (db w')) -> p_out_trade_no q = out_trade_no n ->
        p_status q = PSuccess /\ p_paid_at q = Some paid_at)
  /\ (forall order,
        Table.findOne (fun o => o_id o =? p_order_id p) (orders (db w)) = Some order ->
        (forall o', In o' (orders (db w')) -> o_id o' = o_id order ->
           o_status o' = order_status_after (p_type p))
        /\ (exists l, status_logs (db w') = (status_logs (db w) ++ [l])%list
                      /\ l_order_id l = o_id order
                      /\ l_to_status l = order_status_after (p_type p))
        /\ (exists m ms, messages (db w') = (messages (db w) ++ m :: ms)%list))
  /\ (forall c' ts,
        Service.handlePaymentNotify c' (nr_headers req) (nr_body req)
        = Service.NotifyOk (with_trade_state ts n) ->
        wechatNotify c' req w = wechatNotify c req w).
Proof.
  intros Hn Hf Hs paid_at w'.
  pose proof (wechatNotify_applies c req w n p Hn Hf Hs) as Happ. cbv zeta in Happ.
  fold paid_at in Happ.
  assert (Hpay : payments (db w')
                 = Table.update (set_paid (transaction_id n) paid_at)
                     (by_out_trade_no (out_trade_no n)) (payments (db w)))
    by exact (wechatNotify_marks_paid c req w n p Hn Hf Hs).
  split; [rewrite Happ; reflexivity|].
  split; [exact Hpay|].
  split.
  { intros q Hin Hno. rewrite Hpay in Hin. apply In_update in Hin.
    destruct Hin as (x & _ & ->).
    destruct (by_out_trade_no (out_trade_no n) x) eqn:E.
    - split; reflexivity.
    - unfold by_out_trade_no in E. apply String.eqb_neq in E. contradiction. }
  split.
  { intros order Ho. subst w'. rewrite Happ, Ho. cbn [snd].
    apply findOne_some in Ho. destruct Ho as [_ Hid]. apply Z.eqb_eq in Hid.
    destruct (p_type p) eqn:Ht; cbn [ptype_eqb order_status_after].
    1:{ unfold prepay_success. run_handler.
      cbn [db orders status_logs messages on_db set_orders add_status_log add_message set_payments].
      split; [|split].
      + intros o' Hin Hid'. apply In_update in Hin. destruct Hin as (x & _ & ->).
        destruct (o_id x =? p_order_id p) eqn:E; [reflexivity|].
        apply Z.eqb_neq in E. cbn in Hid'. congruence.
      + eexists. split; [reflexivity|]. split; [cbn; congruence|reflexivity].
      + do 2 eexists. reflexivity. }
    all: unfold transitionRepairPaymentSuccess; run_handler;
      destruct (o_electrician_id order) as [el|]; [destruct (el =? 0)|];
        cbn [fst snd db orders status_logs messages on_db set_orders add_status_log add_message set_payments];
        (split; [|split];
         [ intros o' Hin Hid'; apply In_update in Hin; destruct Hin as (x & _ & ->);
           destruct (o_id x =? o_id order) eqn:E; [reflexivity|];
           apply Z.eqb_neq in E; cbn in Hid'; congruence
         | eexists; split; [reflexivity|]; split; reflexivity
         | try rewrite <- app_assoc; do 2 eexists; reflexivity ]). }
  intros c' ts Hn'.
  assert (Hf' : Table.findOne (by_out_trade_no (out_trade_no (with_trade_state ts n)))
                  (payments (db w)) = Some p) by exact Hf.
  rewrite (wechatNotify_applies c' req w (with_trade_state ts n) p Hn' Hf' Hs).
  rewrite Happ. reflexivity.
Qed.


Lemma wechatNotify_unverified (c : Service.Crypto PaymentNotice) (req : NotifyReq)
    (w : World) (error : string) :
  Service.handlePaymentNotify c (nr_headers req) (nr_body req) = Service.NotifyFail error ->
  wechatNotify c req w = (Json 200 (Service.generateFailResponse error), w).
Proof.
  intros Hn.
  unfold wechatNotify, wechatNotify_body, respond, try_catch, bind, gets, ret.
  rewrite Hn. reflexivity.
Qed.





(** A verified notification for the pending [PAY2] that reports
    [CLOSED]. *)
Lemma wechatNotify_ignores_trade_state_witness :
  Service.handlePaymentNotify (Sample.crypto_ok (Sample.notice "CLOSED"))
    (nr_headers Sample.notify_req) (nr_body Sample.notify_req)
  = Service.NotifyOk (Sample.notice "CLOSED")
  /\ Table.findOne (by_out_trade_no (out_trade_no (Sample.notice "CLOSED")))
       (payments (db (mkWorld Sample.base [])))
     = Some Sample.pending_repair
  /\ p_status Sample.pending_repair <> PSuccess
  /\ fst (wechatNotify (Sample.crypto_ok (Sample.notice "CLOSED")) Sample.notify_req
            (mkWorld Sample.base []))
     = Json 200 Service.generateSuccessResponse.
Proof.
  assert (H : p_status Sample.pending_repair <> PSuccess) by discriminate.
  split; [reflexivity|]. split; [reflexivity|]. split; [exact H|].
  exact (proj1 (wechatNotify_ignores_trade_state
                  (Sample.crypto_ok (Sample.notice "CLOSED")) Sample.notify_req
                  (mkWorld Sample.base []) (Sample.notice "CLOSED")
                  Sample.pending_repair eq_refl eq_refl H)).
Defined.
End Webhook.

(** ** C7: the payment status query *)

Section StatusQuery.
Import PaymentCtl.

(** The query never hands an error to the middleware. *)
Lemma queryPayment_answers (gw : Gateway) (req : QueryReq) (w : World) :
  exists status body, fst (queryPayment gw req w) = Json status body.
Proof.
  unfold queryPayment, queryPayment_body, query_success, prepay_success. run_handler.
  repeat (break_match; run_handler); eauto.
Qed.

(** A payment that is not a pending WeChat payment is returned as it is,
    without a gateway call. *)
Lemma queryPayment_terminal (gw : Gateway) (req : QueryReq) (w : World) (p : Payment) :
  Table.findOne (by_out_trade_no (qr_payment_no req)) (payments (db w)) = Some p ->
  p_user_id p = qr_user_id req ->
  pstatus_eqb (p_status p) PPending && pmethod_eqb (p_payment_method p) Wechat = false ->
  queryPayment gw req w = (Json 200 (PaymentData (Some p)), w).
Proof.
  intros Hf Hu Hc. unfold queryPayment, queryPayment_body. run_handler.
  rewrite Hf, Hu, Z.eqb_refl, Hc. reflexivity.
Qed.

(** When the gateway query throws, the local row is returned and the
    database is left alone. *)
Lemma queryPayment_query_failure (gw : Gateway) (req : QueryReq) (w : World)
    (p : Payment) (e : ApiError) :
  Table.findOne (by_out_trade_no (qr_payment_no req)) (payments (db w)) = Some p ->
  p_user_id p = qr_user_id req ->
  pstatus_eqb (p_status p) PPending && pmethod_eqb (p_payment_method p) Wechat = true ->
  queryOrder gw (qr_payment_no req) = Failed e ->
  queryPayment gw req w
  = (Json 200 (PaymentData (Some p)), log_call (CallQueryOrder (qr_payment_no req)) w).
Proof.
  intros Hf Hu Hc Hq. unfold queryPayment, queryPayment_body. run_handler.
  rewrite Hf, Hu, Z.eqb_refl, Hc. cbn [negb]. rewrite Hq. reflexivity.
Qed.

(** A gateway order reported [CLOSED] marks the payment [expired]. *)
Lemma queryPayment_closed (gw : Gateway) (req : QueryReq) (w : World)
    (p : Payment) (r : OrderQuery) :
  Table.findOne (by_out_trade_no (qr_payment_no req)) (payments (db w)) = Some p ->
  p_user_id p = qr_user_id req ->
  pstatus_eqb (p_status p) PPending && pmethod_eqb (p_payment_method p) Wechat = true ->
  queryOrder gw (qr_payment_no req) = Returned r ->
  oq_success r = true -> oq_trade_state r = "CLOSED"%string ->
  queryPayment gw req w
  = (Json 200 (PaymentData (Some (set_expired "支付超时关闭" p))),
     on_db (set_payments (Table.update (set_expired "支付超时关闭")
                            (by_out_trade_no (qr_payment_no req))))
       (log_call (CallQueryOrder (qr_payment_no req)) w)).
Proof.
  intros Hf Hu Hc Hq Hs Ht. unfold queryPayment, queryPayment_body. run_handler.
  rewrite Hf, Hu, Z.eqb_refl, Hc. cbn [negb]. rewrite Hq, Hs, Ht.
  cbn [andb String.eqb Ascii.eqb Bool.eqb fst snd].
  cbn [db payments on_db set_payments log_call].
  rewrite findOne_update by (intros x Hx; exact Hx). rewrite Hf. reflexivity.
Qed.

(** On [SUCCESS] a repair payment is marked paid, but the table of
    orders is not written: the order stays where it was. *)
Lemma queryPayment_repair_success_orders (gw : Gateway) (req : QueryReq) (w : World)
    (p : Payment) (r : OrderQuery) :
  Table.findOne (by_out_trade_no (qr_payment_no req)) (payments (db w)) = Some p ->
  p_user_id p = qr_user_id req ->
  pstatus_eqb (p_status p) PPending && pmethod_eqb (p_payment_method p) Wechat = true ->
  p_type p = Repair ->
  queryOrder gw (qr_payment_no req) = Returned r ->
  oq_success r = true -> oq_trade_state r = "SUCCESS"%string ->
  orders (db (snd (queryPayment gw req w))) = orders (db w)
  /\ payments (db (snd (queryPayment gw req w)))
     = Table.update (set_paid (oq_transaction_id r) (qr_now req))
         (by_out_trade_no (qr_payment_no req)) (payments (db w)).
Proof.
  intros Hf Hu Hc Hty Hq Hs Ht. unfold queryPayment, queryPayment_body. run_handler.
  rewrite Hf, Hu, Z.eqb_refl, Hc. cbn [negb]. rewrite Hq, Hs, Ht.
  cbn [andb String.eqb Ascii.eqb Bool.eqb fst snd].
  unfold query_success. run_handler. rewrite Hty. cbn [ptype_eqb].
  cbn [db orders on_db set_payments log_call].
  destruct (Table.findOne _ (orders (db w))); split; reflexivity.
Qed.

(** C7, the failing case.  The pending repair payment [PAY2] is queried
    and the gateway reports [SUCCESS]: the payment becomes [success] and a
    log entry is written, but order 2 stays in [pending_repair_payment],
    whereas the webhook moves it to [in_progress]; a webhook that arrives
    afterwards finds the payment already [success] and leaves the order
    where it is. *)
Theorem queryPayment_repair_success_skips_transition :
  map o_status
    (orders (db (snd (queryPayment Sample.gw_ok Sample.query_req (mkWorld Sample.base [])))))
  = ["completed"; "pending_repair_payment"]%string
  /\ map p_status
       (payments (db (snd (queryPayment Sample.gw_ok Sample.query_req
                             (mkWorld Sample.base [])))))
     = [PSuccess; PSuccess]
  /\ map l_to_status
       (status_logs (db (snd (queryPayment Sample.gw_ok Sample.query_req
                                (mkWorld Sample.base [])))))
     = ["pending_repair_payment"]%string
  /\ map o_status
       (orders (db (snd (wechatNotify (Sample.crypto_ok (Sample.notice "SUCCESS"))
                           Sample.notify_req (mkWorld Sample.base [])))))
     = ["completed"; "in_progress"]%string
  /\ map o_status
       (orders (db (snd (wechatNotify (Sample.crypto_ok (Sample.notice "SUCCESS"))
                           Sample.notify_req
                           (snd (queryPayment Sample.gw_ok Sample.query_req
                                   (mkWorld Sample.base [])))))))
     = ["completed"; "pending_repair_payment"]%string.
Proof. vm_compute. repeat split. Qed.
End StatusQuery.

(** ** C6: gateway state to local status *)

Section StateMapping.

Lemma statuses_update (f : Withdrawal -> Withdrawal) (p : Withdrawal -> bool)
    (st : WithdrawalStatus) (rows : list Withdrawal) :
  (forall x, w_id (f x) = w_id x /\ w_status (f x) = st) ->
  statuses (Table.update f p rows) = statuses_after p (Some st) rows.
Proof.
  intros Hf. unfold statuses, statuses_after, Table.update. rewrite map_map.
  apply map_ext. intros x. destruct (p x); [|reflexivity].
  destruct (Hf x) as [-> ->]. reflexivity.
Qed.

Lemma apply_query_statuses (now : Z) (reason : string) (q : TransferQuery)
    (p : Withdrawal -> bool) (w : World) :
  statuses (withdrawals (db (snd (apply_updateData (updateData_of_query now reason q) p w))))
  = statuses_after p (local_status (tq_state q)) (withdrawals (db w)).
Proof.
  unfold apply_updateData, updateData_of_query, local_status, Withdrawal_update, id_lift,
    modify, ret.
  destruct (String.eqb (tq_state q) "SUCCESS");
    [|destruct (String.eqb (tq_state q) "FAIL");
      [|destruct (String.eqb (tq_state q) "CANCELLED")]];
    cbn [snd db withdrawals on_db set_withdrawals];
    try (apply statuses_update; intros x; split; reflexivity).
  reflexivity.
Qed.


(** The current webhook applies the state the gateway reports on query,
    like the status query does. *)
Lemma withdrawalCallback_statuses (c : Service.Crypto TransferNotice) (gw : Gateway)
    (req : CallbackReq) (w : World) (d : TransferNotice) (no : string) (q : TransferQuery) :
  Service.handlePaymentNotify c (cb_headers req) (cb_body req) = Service.NotifyOk d ->
  tn_out_bill_no d = Some no -> no <> ""%string ->
  queryTransferBill gw no = Returned q ->
  statuses (withdrawals (db (snd (withdrawalCallback c gw req w))))
  = statuses_after (fun x => String.eqb (w_out_batch_no x) no)
      (local_status (tq_state q)) (withdrawals (db w)).
Proof.
  intros Hn Hno Hne Hq.
  unfold withdrawalCallback, withdrawalCallback_body, call_queryTransferBill,
    respond, try_catch, bind.
  rewrite Hn, Hno. cbn [JS.truthy_str JS.or_str].
  apply String.eqb_neq in Hne. rewrite Hne. cbn [negb].
  unfold modify at 1. cbn [fst snd]. rewrite Hq. unfold ret at 1.
  pose proof (apply_query_statuses (cb_now req) "用户取消" q
                (fun x => String.eqb (w_out_batch_no x) no)
                (log_call (CallQueryTransferBill no) w)) as H.
  destruct (apply_updateData _ _ _) as [[u|err] w']; cbn [snd] in *; exact H.
Qed.



End StateMapping.

(** ** C8: cancelling a withdrawal *)

Section Cancel.

Lemma same_id_same_row (rows : list Withdrawal) (x y : Withdrawal) :
  NoDup (map w_id rows) -> In x rows -> In y rows -> w_id x = w_id y -> x = y.
Proof.
  induction rows as [|z rows IH]; simpl; [tauto|].
  intros Hnd Hx Hy Hid. inversion Hnd as [|? ? Hnotin Hnd']; subst.
  destruct Hx as [->|Hx], Hy as [->|Hy].
  - reflexivity.
  - exfalso. apply Hnotin. rewrite Hid. apply in_map, Hy.
  - exfalso. apply Hnotin. rewrite <- Hid. apply in_map, Hx.
  - apply IH; assumption.
Qed.



End Cancel.

(* ================================================================== *)
(** * Further properties of the code *)

(** ** Rounding to hundredths *)

Section MoreRounding.
Import JS.
Local Open Scope Q_scope.

Lemma floor_half_bounds (y : Q) :
  - (1 # 2) <= inject_Z (Qfloor (y + (1 # 2))) - y <= 1 # 2.
Proof.
  pose proof (Qfloor_le (y + (1 # 2))) as Hl.
  pose proof (Qlt_floor (y + (1 # 2))) as Hu.
  rewrite inject_Z_plus in Hu. change (inject_Z 1) with 1 in Hu.
  revert Hl Hu. generalize (inject_Z (Qfloor (y + (1 # 2)))). intros z Hl Hu.
  split; lra.
Qed.

Lemma toFixed2_close (x : Q) : Qabs (toFixed2 x - x) <= 1 # 200.
Proof.
  apply Qabs_Qle_condition. unfold toFixed2.
  destruct (Qle_bool 0 x).
  - pose proof (floor_half_bounds (x * 100)) as H.
    revert H. generalize (inject_Z (Qfloor (x * 100 + (1 # 2)))). intros z H.
    unfold Qdiv; change (/ 100) with (1 # 100); split; lra.
  - pose proof (floor_half_bounds (- x * 100)) as H.
    revert H. generalize (inject_Z (Qfloor (- x * 100 + (1 # 2)))). intros z H.
    unfold Qdiv; change (/ 100) with (1 # 100); split; lra.
Qed.

Lemma toFixed2_opp (x : Q) : toFixed2 (- x) == - toFixed2 x.
Proof.
  unfold toFixed2.
  destruct (Qle_bool 0 x) eqn:Hx; destruct (Qle_bool 0 (- x)) eqn:Hn.
  - apply Qle_bool_iff in Hx. apply Qle_bool_iff in Hn.
    assert (Hz : x == 0) by lra.
    assert (H1 : Qfloor (- x * 100 + (1 # 2)) = 0%Z).
    { rewrite (Qfloor_comp (- x * 100 + (1 # 2)) (1 # 2)) by (rewrite Hz; reflexivity).
      reflexivity. }
    assert (H2 : Qfloor (x * 100 + (1 # 2)) = 0%Z).
    { rewrite (Qfloor_comp (x * 100 + (1 # 2)) (1 # 2)) by (rewrite Hz; reflexivity).
      reflexivity. }
    rewrite H1, H2. reflexivity.
  - rewrite (Qfloor_comp (- - x * 100 + (1 # 2)) (x * 100 + (1 # 2))) by ring.
    reflexivity.
  - generalize (inject_Z (Qfloor (- x * 100 + (1 # 2)))). intros z. field.
  - exfalso.
    assert (~ 0 <= x) by (intros H; apply Qle_bool_iff in H; congruence).
    assert (~ 0 <= - x) by (intros H'; apply Qle_bool_iff in H'; congruence).
    lra.
Qed.
End MoreRounding.

(** X1. [Number(x.toFixed(2))] is a whole number of hundredths, at most
    half a hundredth away from [x]; it leaves a whole number of hundredths
    as it is, and rounds [-x] to the opposite of what it rounds [x] to. *)
Theorem toFixed2_nearest_hundredth (x : Q) :
  decimal2 (JS.toFixed2 x)
  /\ (Qabs (JS.toFixed2 x - x) <= 1 # 200)%Q
  /\ (JS.toFixed2 (JS.toFixed2 x) == JS.toFixed2 x)%Q
  /\ (JS.toFixed2 (- x) == - JS.toFixed2 x)%Q.
Proof.
  split; [apply decimal2_toFixed2|].
  split; [apply toFixed2_close|].
  split; [apply toFixed2_decimal2, decimal2_toFixed2|apply toFixed2_opp].
Qed.

(** ** Income *)

Section Income.
Import Balance Cover.
Local Open Scope Q_scope.

Lemma existsb_map {A B} (f : A -> B) (p : B -> bool) (l : list A) :
  existsb p (map f l) = existsb (fun x => p (f x)) l.
Proof. induction l as [|a l IH]; cbn; [reflexivity | now rewrite IH]. Qed.

Lemma existsb_flat_map {A B} (f : A -> list B) (p : B -> bool) (l : list A) :
  existsb p (flat_map f l) = existsb (fun x => existsb p (f x)) l.
Proof.
  induction l as [|a l IH]; cbn; [reflexivity|].
  rewrite existsb_app, IH. reflexivity.
Qed.

Lemma existsb_filter {A} (p q : A -> bool) (l : list A) :
  existsb p (filter q l) = existsb (fun x => q x && p x) l.
Proof.
  induction l as [|a l IH]; cbn; [reflexivity|].
  destruct (q a); cbn; rewrite IH; reflexivity.
Qed.

Lemma existsb_const {A} (b : bool) (l : list A) :
  existsb (fun _ => b) l = b && negb (match l with [] => true | _ => false end).
Proof.
  induction l as [|a l IH]; cbn; [now rewrite andb_false_r|].
  destruct b; cbn; [reflexivity|]. rewrite IH. reflexivity.
Qed.

Lemma eligible_earns (d : DB) (e k : Z) :
  existsb (Z.eqb k) (map o_id (eligibleOrders d e)) = earns d e k.
Proof.
  unfold eligibleOrders, earns.
  rewrite existsb_map, existsb_flat_map, existsb_filter.
  induction (orders d) as [|o os IH]; cbn [existsb]; [reflexivity|].
  rewrite IH. clear IH.
  rewrite existsb_map.
  destruct (Z.eqb_spec k (o_id o)) as [->|Hne].
  - rewrite Z.eqb_refl. cbn [andb].
    destruct (opt_Z_eqb (o_electrician_id o) e && (o_status o =? "completed")%string) eqn:Ho;
      cbn [andb orb].
    + (* the order qualifies *)
      assert (Hr : existsb (fun _ : Review => true)
                (filter (fun r => (r_order_id r =? o_id o)%Z && (r_rating r =? 5)%Z) (reviews d))
              = existsb (fun r => (r_order_id r =? o_id o)%Z && (r_rating r =? 5)%Z) (reviews d)).
      { rewrite existsb_filter. induction (reviews d) as [|r rs IHr]; cbn; [reflexivity|].
        now rewrite IHr, andb_true_r. }
      rewrite Hr.
      destruct (existsb (fun r => (r_order_id r =? o_id o)%Z && (r_rating r =? 5)%Z) (reviews d));
        cbn; [reflexivity|].
      now rewrite andb_false_r.
    + reflexivity.
  - assert (Hk : (o_id o =? k)%Z = false) by (apply Z.eqb_neq; congruence).
    rewrite Hk. cbn [andb orb].
    assert (Hr : existsb (fun _ : Review => false)
               (filter (fun r => (r_order_id r =? o_id o)%Z && (r_rating r =? 5)%Z) (reviews d))
             = false).
    { induction (filter _ (reviews d)); cbn; auto. }
    rewrite Hr. now rewrite andb_false_r.
Qed.

Lemma ptype_paid_for_order (t : PaymentType) :
  ptype_eqb t Prepay || ptype_eqb t Repair = paid_for_order t.
Proof. destruct t; reflexivity. Qed.

Lemma rawTotalIncome_income (d : DB) (e : Z) : rawTotalIncome d e == income d e.
Proof.
  unfold rawTotalIncome, income, incomeResult.
  assert (Hf : forall ids,
    (forall k, existsb (Z.eqb k) ids = earns d e k) ->
    filter (fun p => existsb (Z.eqb (p_order_id p)) ids && pstatus_eqb (p_status p) PSuccess
                     && (ptype_eqb (p_type p) Prepay || ptype_eqb (p_type p) Repair))
      (payments d)
    = filter (fun p => earns d e (p_order_id p) && pstatus_eqb (p_status p) PSuccess
                       && paid_for_order (p_type p))
        (payments d)).
  { intros ids H. apply filter_ext. intros p. rewrite H, ptype_paid_for_order. reflexivity. }
  pose proof (eligible_earns d e) as He.
  destruct (map o_id (eligibleOrders d e)) as [|i ids] eqn:Hids.
  - (* no eligible order: nothing earns *)
    assert (Hn : filter (fun p => earns d e (p_order_id p) && pstatus_eqb (p_status p) PSuccess
                                  && paid_for_order (p_type p))
                   (payments d) = []).
    { clear Hf. induction (payments d) as [|p ps IH]; cbn; [reflexivity|].
      rewrite <- He. cbn. exact IH. }
    rewrite Hn. reflexivity.
  - rewrite (Hf _ He). apply or_zero_sql_sum.
Qed.

End Income.

(** X2. On a ledger whose payment amounts are [DECIMAL(10,2)] values, the
    [totalIncome] that [calculateBalance] reports is the sum of the
    successful prepayments and repair payments of the electrician's
    completed orders that have a five-star review, each payment counted
    once however many such reviews its order has; a payment of type
    [transfer] is never counted. *)
Theorem totalIncome_counts_each_payment_once (d : DB) (e : Z) :
  Forall (fun p => decimal2 (p_amount p)) (payments d) ->
  (Balance.totalIncome (Balance.calculateBalance d e) == Cover.income d e)%Q.
Proof.
  intros Hp. cbn [Balance.calculateBalance Balance.totalIncome].
  rewrite (toFixed2_decimal2 _ (decimal2_rawTotalIncome d e Hp)).
  apply rawTotalIncome_income.
Qed.

Lemma totalIncome_counts_each_payment_once_witness :
  Forall (fun p => decimal2 (p_amount p)) (payments Cover.transfer_booked)
  /\ (Balance.totalIncome (Balance.calculateBalance Cover.transfer_booked 1)
      == Cover.income Cover.transfer_booked 1)%Q
  /\ (Cover.income Cover.transfer_booked 1 == 50 # 1)%Q.
Proof.
  assert (H : Forall (fun p => decimal2 (p_amount p)) (payments Cover.transfer_booked)).
  { repeat constructor; [exists 5000|exists 10000|exists 2000]; reflexivity. }
  split; [exact H|].
  split; [exact (totalIncome_counts_each_payment_once Cover.transfer_booked 1 H)|].
  reflexivity.
Defined.

(** ** Which tables a handler writes *)

Section Sides.
Import Cover.

Lemma withdraw_reserve_ok (req : WithdrawReq) (w : World) (tf : Transfer) :
  fst (withdraw_reserve req (mkWState w fresh_tx)) = Ok tf ->
  let e := wr_user_id req in
  let b := Balance.calculateBalance (db w) e in
  let amount := requestedAmount (wr_amount req) (Balance.availableBalance b) in
  let no := generateOutBatchNo (wr_now req) e (wr_random req) in
  exists openid real_name,
    bound_openid (User_findByPk (db w) e) = Some openid
    /\ legal_name (approved_certification (db w) e) = Some real_name
    /\ processing_count e (withdrawals (db w)) = 0%nat
    /\ (minWithdrawAmount <= amount <= Balance.availableBalance b)%Q
    /\ tf = mkTransfer (Table.next_id w_id (withdrawals (db w))) no openid real_name amount
    /\ withdraw_reserve req (mkWState w fresh_tx)
       = (Ok tf, committed w (new_withdrawal req b amount no openid real_name
                                (Table.next_id w_id (withdrawals (db w))))).
Proof.
  cbv zeta. unfold withdraw_reserve, bind, gets. rewrite tx_db_fresh.
  destruct (Table.findOne _ (withdrawals (db w))) eqn:Hp; [discriminate|].
  apply findOne_processing_count in Hp.
  destruct (bound_openid _) as [openid|]; [|discriminate].
  destruct (legal_name _) as [real_name|]; [|discriminate].
  unfold throw_if, bind.
  destruct (JS.Qltb _ minWithdrawAmount) eqn:Hmin; [discriminate|].
  cbn [ret].
  destruct (JS.Qltb (Balance.availableBalance _) _) eqn:Hmax; [discriminate|].
  cbn [ret]. unfold tx_create, commit, modify, ret. rewrite tx_db_fresh.
  cbn [fst]. intros Htf. injection Htf as <-.
  exists openid, real_name. repeat split; try assumption.
  - apply Qnot_lt_le. intros H. apply Qltb_lt in H. congruence.
  - apply Qnot_lt_le. intros H. apply Qltb_lt in H. congruence.
Qed.

Lemma after_transfer_db (tf : Transfer) (f : Withdrawal -> Withdrawal) (w : World)
    (new : Withdrawal) :
  tf_withdrawal_id tf = w_id new ->
  w_id new = Table.next_id w_id (withdrawals (db w)) ->
  after_transfer tf f (ws_world (committed w new))
  = mkWorld (set_withdrawals (fun rows => (rows ++ [f new])%list) (db w))
      (gateway_calls w ++ [CallCreateTransferBill (transferParams tf)]).
Proof.
  intros Hid Hn. unfold after_transfer, committed, on_db, log_call, set_withdrawals.
  cbn [ws_world db gateway_calls orders reviews payments withdrawals users certifications
       status_logs messages].
  rewrite Hid, (update_fresh_id f (withdrawals (db w)) new Hn). reflexivity.
Qed.

Lemma withdraw_outside (gw : Gateway) (req : WithdrawReq) (w : World) :
  outside_withdrawals (db (ws_world (snd (withdraw gw req w)))) = outside_withdrawals (db w).
Proof.
  destruct (withdraw_reserve_inv req w)
    as [(err & Hr & Hc)|(amount & no & openid & real_name & Hr & _ & Hz)].
  - rewrite (withdraw_rejected gw req w err Hr Hc). reflexivity.
  - cbv zeta in Hr. rewrite (withdraw_committed gw req w _ _ Hr).
    set (new := new_withdrawal req _ amount no openid real_name _) in *.
    set (tf := mkTransfer _ _ _ _ _) in *.
    pose proof (withdraw_transfer_cases gw tf (committed w new) eq_refl) as Hc.
    destruct (createTransferBill gw (transferParams tf)) as [r|e];
      [|destruct (is_rate_limit (GatewayError e))];
      rewrite Hc; cbn [snd ws_world];
      rewrite (after_transfer_db tf _ w new eq_refl eq_refl); reflexivity.
Qed.

Lemma handle_sides (r : Request) (w : World) :
  if withdrawal_side r
  then outside_withdrawals (db (snd (handle r w))) = outside_withdrawals (db w)
  else outside_payments (db (snd (handle r w))) = outside_payments (db w).
Proof.
  destruct r as [gw req|gw req|gw req|c gw req|gw req|c req|gw req];
    cbn [handle withdrawal_side].
  - pose proof (withdraw_outside gw req w) as H.
    destruct (withdraw gw req w) as [resp s]. exact H.
  - unfold queryWithdrawalStatus, queryWithdrawalStatus_body. run_handler.
    repeat (break_match; run_handler; try reflexivity).
  - unfold getWithdrawalStatus, getWithdrawalStatus_body. run_handler.
    repeat (break_match; run_handler; try reflexivity).
  - unfold withdrawalCallback, withdrawalCallback_body. run_handler.
    repeat (break_match; run_handler; try reflexivity).
  - unfold cancelWithdrawal, cancelWithdrawal_body. run_handler.
    repeat (break_match; run_handler; try reflexivity).
  - unfold PaymentCtl.wechatNotify, PaymentCtl.wechatNotify_body,
      PaymentCtl.prepay_success, PaymentCtl.transitionRepairPaymentSuccess.
    run_handler.
    repeat (break_match; run_handler; try reflexivity).
  - unfold PaymentCtl.queryPayment, PaymentCtl.queryPayment_body, PaymentCtl.query_success,
      PaymentCtl.prepay_success.
    run_handler.
    repeat (break_match; run_handler; try reflexivity).
Qed.

End Sides.

Lemma run_identity_tables (rs : list Request) (w : World) :
  (users (db (run rs w)), certifications (db (run rs w)), reviews (db (run rs w)))
  = (users (db w), certifications (db w), reviews (db w)).
Proof.
  revert w. induction rs as [|r rs IH]; intros w; cbn [run]; [reflexivity|].
  rewrite IH. pose proof (handle_sides r w) as H.
  destruct (Cover.withdrawal_side r);
    unfold Cover.outside_withdrawals, Cover.outside_payments in H; congruence.
Qed.

(** X3. Each handler writes on its own side of the database: a withdrawal
    request ([withdraw], the two status queries, the transfer webhook,
    [cancelWithdrawal]) leaves every table but [Withdrawals] as it was, a
    payment request ([wechatNotify], [queryPayment]) leaves [Withdrawals]
    alone; and whatever requests are served, users, certifications and
    reviews stay as they were. *)
Theorem handlers_keep_to_their_tables (r : Request) (rs : list Request) (w : World) :
  (if Cover.withdrawal_side r
   then Cover.outside_withdrawals (db (snd (handle r w))) = Cover.outside_withdrawals (db w)
   else Cover.outside_payments (db (snd (handle r w))) = Cover.outside_payments (db w))
  /\ (users (db (run rs w)), certifications (db (run rs w)), reviews (db (run rs w)))
     = (users (db w), certifications (db w), reviews (db w)).
Proof. split; [apply handle_sides|apply run_identity_tables]. Qed.

(** ** The balance around a withdrawal *)

Section WithdrawBalance.
Import Balance.
Local Open Scope Q_scope.

Lemma filter_andb {A} (p q : A -> bool) (l : list A) :
  filter (fun x => p x && q x) l = filter q (filter p l).
Proof.
  induction l as [|x l IH]; cbn; [reflexivity|].
  destruct (p x); cbn; [destruct (q x)|]; rewrite IH; reflexivity.
Qed.

(** The balance of an account reads the income tables and the account's
    own withdrawals, nothing else. *)
Lemma calculateBalance_ext (d d' : DB) (e : Z) :
  Cover.outside_withdrawals d' = Cover.outside_withdrawals d ->
  filter (fun x => (w_electrician_id x =? e)%Z) (withdrawals d')
  = filter (fun x => (w_electrician_id x =? e)%Z) (withdrawals d) ->
  calculateBalance d' e = calculateBalance d e.
Proof.
  intros Ho Hw. unfold Cover.outside_withdrawals in Ho.
  injection Ho as Hord Hrev Hpay _ _ _ _.
  assert (Hraw : rawTotalIncome d' e = rawTotalIncome d e).
  { unfold rawTotalIncome, incomeResult, eligibleOrders. rewrite Hord, Hrev, Hpay. reflexivity. }
  assert (Hsum : forall sts, withdrawalSum d' e sts = withdrawalSum d e sts).
  { intros sts. unfold withdrawalSum.
    rewrite (filter_andb (fun w => (w_electrician_id w =? e)%Z)
               (fun w => existsb (wstatus_eqb (w_status w)) sts) (withdrawals d')).
    rewrite (filter_andb (fun w => (w_electrician_id w =? e)%Z)
               (fun w => existsb (wstatus_eqb (w_status w)) sts) (withdrawals d)).
    rewrite Hw. reflexivity. }
  unfold calculateBalance. rewrite Hraw, !Hsum. reflexivity.
Qed.

Lemma sum_amount_app (e : Z) (st : WithdrawalStatus) (rows more : list Withdrawal) :
  sum_amount e st (rows ++ more) == sum_amount e st rows + sum_amount e st more.
Proof.
  induction rows as [|x rows IH]; cbn [sum_amount app]; [ring|].
  destruct ((w_electrician_id x =? e)%Z && wstatus_eqb (w_status x) st); rewrite IH; ring.
Qed.

Lemma sum_amount_no_processing (e : Z) (rows : list Withdrawal) :
  processing_count e rows = 0%nat -> sum_amount e WProcessing rows = 0.
Proof.
  induction rows as [|x rows IH]; cbn [sum_amount processing_count]; [reflexivity|].
  destruct ((w_electrician_id x =? e)%Z && wstatus_eqb (w_status x) WProcessing);
    [discriminate|exact IH].
Qed.

(** The four fields of the balance on a ledger of [DECIMAL(10,2)]
    amounts. *)
Lemma calculateBalance_fields (d : DB) (e : Z) :
  ledger_decimal2 d ->
  let b := calculateBalance d e in
  totalIncome b == rawTotalIncome d e
  /\ withdrawnAmount b == sum_amount e WSuccess (withdrawals d)
  /\ lockedAmount b == sum_amount e WProcessing (withdrawals d)
  /\ availableBalance b
     == rawTotalIncome d e - sum_amount e WSuccess (withdrawals d)
        - sum_amount e WProcessing (withdrawals d).
Proof.
  intros [Hp Hw] b.
  pose proof (decimal2_rawTotalIncome d e Hp) as HT.
  pose proof (decimal2_sum_amount e WSuccess _ Hw) as HS.
  pose proof (decimal2_sum_amount e WProcessing _ Hw) as HL.
  pose proof (withdrawalSum_one d e WSuccess) as ES.
  pose proof (withdrawalSum_one d e WProcessing) as EL.
  assert (HS' : decimal2 (JS.or_zero (withdrawalSum d e [WSuccess])))
    by (apply decimal2_Qeq with (2 := HS); symmetry; exact ES).
  assert (HL' : decimal2 (JS.or_zero (withdrawalSum d e [WProcessing])))
    by (apply decimal2_Qeq with (2 := HL); symmetry; exact EL).
  subst b. cbn [calculateBalance totalIncome withdrawnAmount lockedAmount availableBalance].
  split; [apply toFixed2_decimal2, HT|].
  split; [rewrite (toFixed2_decimal2 _ HS'); exact ES|].
  split; [rewrite (toFixed2_decimal2 _ HL'); exact EL|].
  rewrite toFixed2_decimal2 by (repeat apply decimal2_minus; assumption).
  rewrite ES, EL. reflexivity.
Qed.

Lemma filter_others_app (e e' : Z) (rows : list Withdrawal) (new : Withdrawal) :
  w_electrician_id new = e -> e' <> e ->
  filter (fun x => (w_electrician_id x =? e')%Z) (rows ++ [new])
  = filter (fun x => (w_electrician_id x =? e')%Z) rows.
Proof.
  intros Hn Hne. rewrite filter_app. cbn [filter].
  replace (w_electrician_id new =? e')%Z with false
    by (symmetry; apply Z.eqb_neq; congruence).
  apply app_nil_r.
Qed.

End WithdrawBalance.

(** X4. A [withdraw] call of one electrician, whatever its outcome,
    leaves the balance of every other electrician exactly as it was. *)
Theorem withdraw_leaves_other_balances (gw : Gateway) (req : WithdrawReq) (w : World)
    (other : Z) :
  other <> wr_user_id req ->
  Balance.calculateBalance (db (ws_world (snd (withdraw gw req w)))) other
  = Balance.calculateBalance (db w) other.
Proof.
  intros Hne. apply calculateBalance_ext; [apply withdraw_outside|].
  pose proof (withdraw_effect gw req w) as H. cbv zeta in H.
  destruct H as [->|(new & -> & Hn & _)]; [reflexivity|].
  apply (filter_others_app (wr_user_id req)); assumption.
Qed.

Lemma withdraw_leaves_other_balances_witness :
  2 <> wr_user_id Sample.req_30
  /\ Balance.calculateBalance
       (db (ws_world (snd (withdraw Sample.gw_ok Sample.req_30 (mkWorld Sample.base [])))))
       2
     = Balance.calculateBalance (db (mkWorld Sample.base [])) 2.
Proof.
  assert (H : 2 <> wr_user_id Sample.req_30) by (cbn; lia).
  split; [exact H|].
  exact (withdraw_leaves_other_balances Sample.gw_ok Sample.req_30
           (mkWorld Sample.base []) 2 H).
Defined.

Section WithdrawAccepted.
Import Balance.

(** What an accepted [withdraw] call leaves behind. *)
Lemma withdraw_accepted_world (gw : Gateway) (req : WithdrawReq) (w : World)
    (tf : Transfer) (r : TransferResult) :
  fst (withdraw_reserve req (mkWState w fresh_tx)) = Ok tf ->
  createTransferBill gw (transferParams tf) = Returned r ->
  let b := calculateBalance (db w) (wr_user_id req) in
  let new := set_processing (JS.or_opt (tr_transfer_bill_no r) (tr_out_bill_no r))
               (tr_package_info r)
               (new_withdrawal req b (tf_withdrawAmount tf) (tf_outBatchNo tf)
                  (tf_openid tf) (tf_real_name tf) (tf_withdrawal_id tf)) in
  withdraw gw req w
  = (Json 200
       (WithdrawSubmitted (tf_withdrawal_id tf) (tf_withdrawAmount tf) WProcessing
          (tf_outBatchNo tf) (tr_transfer_bill_no r) (tr_package_info r)
          (JS.or_str (tr_state r) "WAIT_USER_CONFIRM")),
     mkWState
       (mkWorld (set_withdrawals (fun rows => (rows ++ [new])%list) (db w))
          (gateway_calls w ++ [CallCreateTransferBill (transferParams tf)]))
       (mkTx [] (Some TxCommit))).
Proof.
  intros Hok Hgw.
  destruct (withdraw_reserve_ok req w tf Hok)
    as (openid & real_name & _ & _ & _ & _ & Htf & Hr).
  rewrite (withdraw_committed gw req w _ _ Hr).
  pose proof (withdraw_transfer_cases gw tf (committed w
     (new_withdrawal req (calculateBalance (db w) (wr_user_id req))
        (requestedAmount (wr_amount req)
           (availableBalance (calculateBalance (db w) (wr_user_id req))))
        (generateOutBatchNo (wr_now req) (wr_user_id req) (wr_random req))
        openid real_name (Table.next_id w_id (withdrawals (db w))))) eq_refl) as Hc.
  rewrite Hgw in Hc. rewrite Hc.
  rewrite after_transfer_db by (subst tf; reflexivity).
  subst tf. reflexivity.
Qed.

End WithdrawAccepted.

(** X5. When [withdraw] passes its checks and the gateway accepts the
    transfer, the amount lies between the minimum (0.10) and the
    available balance; the answer is a 200 carrying the new row's id, the
    requested amount and the batch number; exactly one gateway call was
    made; and the table got one more row, owned by the caller, in
    [processing], with the three snapshot fields set to the balance
    computed before the row existed.  The row's amount is the requested
    amount as the [DECIMAL(10,2)] column keeps it: a whole number of
    hundredths at most half a hundredth away from the request, and the
    request itself when that has no more than two decimals. *)
Theorem withdraw_accepted (gw : Gateway) (req : WithdrawReq) (w : World)
    (tf : Transfer) (r : TransferResult) :
  fst (withdraw_reserve req (mkWState w fresh_tx)) = Ok tf ->
  createTransferBill gw (transferParams tf) = Returned r ->
  let b := Balance.calculateBalance (db w) (wr_user_id req) in
  let result := withdraw gw req w in
  (minWithdrawAmount <= tf_withdrawAmount tf <= Balance.availableBalance b)%Q
  /\ tf_withdrawAmount tf = requestedAmount (wr_amount req) (Balance.availableBalance b)
  /\ fst result
     = Json 200
         (WithdrawSubmitted (tf_withdrawal_id tf) (tf_withdrawAmount tf) WProcessing
            (tf_outBatchNo tf) (tr_transfer_bill_no r) (tr_package_info r)
            (JS.or_str (tr_state r) "WAIT_USER_CONFIRM"))
  /\ gateway_calls (ws_world (snd result))
     = (gateway_calls w ++ [CallCreateTransferBill (transferParams tf)])%list
  /\ tx_finished (ws_tx (snd result)) = Some TxCommit
  /\ exists new,
       withdrawals (db (ws_world (snd result))) = (withdrawals (db w) ++ [new])%list
       /\ w_id new = tf_withdrawal_id tf
       /\ w_electrician_id new = wr_user_id req
       /\ w_amount new = Table.decimal_10_2 (tf_withdrawAmount tf)
       /\ decimal2 (w_amount new)
       /\ (Qabs (w_amount new - tf_withdrawAmount tf) <= 1 # 200)%Q
       /\ (decimal2 (tf_withdrawAmount tf) -> (w_amount new == tf_withdrawAmount tf)%Q)
       /\ w_status new = WProcessing
       /\ w_out_batch_no new
          = generateOutBatchNo (wr_now req) (wr_user_id req) (wr_random req)
       /\ (w_total_income_snapshot new, w_withdrawn_snapshot new,
           w_available_balance_snapshot new)
          = (Balance.totalIncome b, Balance.withdrawnAmount b, Balance.availableBalance b).
Proof.
  intros Hok Hgw b result. subst result.
  rewrite (withdraw_accepted_world gw req w tf r Hok Hgw).
  destruct (withdraw_reserve_ok req w tf Hok)
    as (openid & real_name & _ & _ & _ & Hb & Htf & _).
  cbn [fst snd ws_world ws_tx tx_finished gateway_calls db].
  split; [subst tf; exact Hb|].
  split; [subst tf; reflexivity|].
  split; [reflexivity|]. split; [reflexivity|]. split; [reflexivity|].
  eexists. split; [reflexivity|].
  cbn [set_processing new_withdrawal w_id w_electrician_id w_amount w_status
       w_out_batch_no w_total_income_snapshot w_withdrawn_snapshot
       w_available_balance_snapshot].
  unfold Table.decimal_10_2.
  split; [reflexivity|]. split; [reflexivity|]. split; [reflexivity|].
  split; [apply decimal2_toFixed2|].
  split; [apply toFixed2_close|].
  split; [apply toFixed2_decimal2|].
  subst tf. repeat split.
Qed.

Lemma withdraw_accepted_witness :
  fst (withdraw_reserve Cover.req_odd (mkWState (mkWorld Sample.base []) fresh_tx))
  = Ok Cover.transfer_odd
  /\ createTransferBill Sample.gw_ok (transferParams Cover.transfer_odd)
     = Returned Sample.transfer_ok
  /\ exists new,
       withdrawals (db (ws_world (snd (withdraw Sample.gw_ok Cover.req_odd
                                         (mkWorld Sample.base [])))))
       = [new]
       /\ w_amount new = 3001 # 100.
Proof.
  assert (H1 : fst (withdraw_reserve Cover.req_odd
                      (mkWState (mkWorld Sample.base []) fresh_tx))
               = Ok Cover.transfer_odd) by reflexivity.
  assert (H2 : createTransferBill Sample.gw_ok (transferParams Cover.transfer_odd)
               = Returned Sample.transfer_ok) by reflexivity.
  split; [exact H1|]. split; [exact H2|].
  destruct (proj2 (proj2 (proj2 (proj2 (proj2
              (withdraw_accepted Sample.gw_ok Cover.req_odd (mkWorld Sample.base [])
                 Cover.transfer_odd Sample.transfer_ok H1 H2))))))
    as (new & Hrows & _ & _ & Hamount & _).
  exists new. split; [exact Hrows|]. rewrite Hamount. reflexivity.
Defined.

Section BalanceAfter.
Import Balance.
Local Open Scope Q_scope.

(** The balance once an accepted withdrawal of [amount] is in
    [processing]. *)
Lemma balance_after_accepted (gw : Gateway) (req : WithdrawReq) (w : World)
    (tf : Transfer) (r : TransferResult) :
  ledger_decimal2 (db w) ->
  decimal2 (tf_withdrawAmount tf) ->
  fst (withdraw_reserve req (mkWState w fresh_tx)) = Ok tf ->
  createTransferBill gw (transferParams tf) = Returned r ->
  let b := calculateBalance (db w) (wr_user_id req) in
  let b' := calculateBalance (db (ws_world (snd (withdraw gw req w)))) (wr_user_id req) in
  totalIncome b' == totalIncome b
  /\ withdrawnAmount b' == withdrawnAmount b
  /\ lockedAmount b' == tf_withdrawAmount tf
  /\ availableBalance b' == availableBalance b - tf_withdrawAmount tf.
Proof.
  intros Hl Ha Hok Hgw b b'. subst b b'.
  rewrite (withdraw_accepted_world gw req w tf r Hok Hgw). cbn [snd ws_world db].
  destruct (withdraw_reserve_ok req w tf Hok)
    as (openid & real_name & _ & _ & Hz & _ & _ & _).
  set (e := wr_user_id req) in *.
  set (new := set_processing _ _ _).
  set (d' := set_withdrawals _ (db w)).
  assert (Hl' : ledger_decimal2 d').
  { destruct Hl as [Hp Hw]. split; [exact Hp|].
    subst d'. cbn [set_withdrawals withdrawals]. apply Forall_app. split; [exact Hw|].
    constructor; [apply decimal2_toFixed2|constructor]. }
  destruct (calculateBalance_fields (db w) e Hl) as (T & S & L & A).
  destruct (calculateBalance_fields d' e Hl') as (T' & S' & L' & A').
  assert (Hraw : rawTotalIncome d' e = rawTotalIncome (db w) e) by reflexivity.
  assert (HS : sum_amount e WSuccess (withdrawals d')
               = sum_amount e WSuccess (withdrawals (db w))).
  { subst d'. cbn [set_withdrawals withdrawals].
    apply sum_amount_success_app_processing. reflexivity. }
  assert (HL : sum_amount e WProcessing (withdrawals d') == tf_withdrawAmount tf).
  { subst d'. cbn [set_withdrawals withdrawals].
    rewrite sum_amount_app, (sum_amount_no_processing e _ Hz).
    subst new. cbn [sum_amount set_processing new_withdrawal w_electrician_id w_status
                    w_amount wstatus_eqb].
    subst e. rewrite Z.eqb_refl. cbn [andb].
    unfold Table.decimal_10_2. rewrite (toFixed2_decimal2 _ Ha). ring. }
  rewrite (sum_amount_no_processing e _ Hz) in A.
  rewrite T', S', L', A', T, S, A, Hraw, HS, HL.
  repeat split; try reflexivity. ring.
Qed.

End BalanceAfter.

(** X6. On a ledger of [DECIMAL(10,2)] amounts, once [withdraw] has
    accepted a two-decimal amount and the gateway has taken the transfer,
    the caller's balance shows the same total income and withdrawn amount
    as before, the amount as [lockedAmount], and an available balance
    lower by exactly that amount. *)
Theorem withdraw_locks_the_amount (gw : Gateway) (req : WithdrawReq) (w : World)
    (tf : Transfer) (r : TransferResult) :
  ledger_decimal2 (db w) ->
  decimal2 (tf_withdrawAmount tf) ->
  fst (withdraw_reserve req (mkWState w fresh_tx)) = Ok tf ->
  createTransferBill gw (transferParams tf) = Returned r ->
  let b := Balance.calculateBalance (db w) (wr_user_id req) in
  let b' := Balance.calculateBalance (db (ws_world (snd (withdraw gw req w))))
              (wr_user_id req) in
  (Balance.totalIncome b' == Balance.totalIncome b)%Q
  /\ (Balance.withdrawnAmount b' == Balance.withdrawnAmount b)%Q
  /\ (Balance.lockedAmount b' == tf_withdrawAmount tf)%Q
  /\ (Balance.availableBalance b' == Balance.availableBalance b - tf_withdrawAmount tf)%Q.
Proof. exact (balance_after_accepted gw req w tf r). Qed.

Lemma withdraw_locks_the_amount_witness :
  ledger_decimal2 (db (mkWorld Sample.base []))
  /\ decimal2 (tf_withdrawAmount Sample.transfer_30)
  /\ (Balance.lockedAmount
        (Balance.calculateBalance
           (db (ws_world (snd (withdraw Sample.gw_ok Sample.req_30
                                 (mkWorld Sample.base []))))) 1)
      == 30 # 1)%Q.
Proof.
  assert (H0 : ledger_decimal2 (db (mkWorld Sample.base []))).
  { split; repeat constructor; [exists 5000|exists 10000]; reflexivity. }
  assert (Ha : decimal2 (tf_withdrawAmount Sample.transfer_30))
    by (exists 3000; reflexivity).
  split; [exact H0|]. split; [exact Ha|].
  exact (proj1 (proj2 (proj2
           (withdraw_locks_the_amount Sample.gw_ok Sample.req_30 (mkWorld Sample.base [])
              Sample.transfer_30 Sample.transfer_ok H0 Ha eq_refl eq_refl)))).
Defined.

(** X7. A request that names no amount (or the number 0) asks for the
    whole available balance: when such a call is accepted, the amount
    handed to the gateway is the available balance and, on a ledger of
    [DECIMAL(10,2)] amounts, the available balance afterwards is 0. *)
Theorem withdraw_without_amount_takes_all (gw : Gateway) (req : WithdrawReq) (w : World)
    (tf : Transfer) (r : TransferResult) :
  ledger_decimal2 (db w) ->
  JS.truthy_num (wr_amount req) = false ->
  fst (withdraw_reserve req (mkWState w fresh_tx)) = Ok tf ->
  createTransferBill gw (transferParams tf) = Returned r ->
  let b := Balance.calculateBalance (db w) (wr_user_id req) in
  let b' := Balance.calculateBalance (db (ws_world (snd (withdraw gw req w))))
              (wr_user_id req) in
  tp_transfer_amount (transferParams tf) = Balance.availableBalance b
  /\ (Balance.lockedAmount b' == Balance.availableBalance b)%Q
  /\ (Balance.availableBalance b' == 0)%Q.
Proof.
  intros Hl Hfalsy Hok Hgw b b'.
  destruct (withdraw_reserve_ok req w tf Hok)
    as (openid & real_name & _ & _ & _ & _ & Htf & _).
  assert (Ham : tf_withdrawAmount tf = Balance.availableBalance b).
  { subst tf. cbn [tf_withdrawAmount]. unfold requestedAmount.
    destruct (wr_amount req) as [a|]; [|reflexivity].
    rewrite Hfalsy. reflexivity. }
  assert (Ha : decimal2 (tf_withdrawAmount tf)).
  { rewrite Ham. subst b. cbn [Balance.calculateBalance Balance.availableBalance].
    apply decimal2_toFixed2. }
  destruct (balance_after_accepted gw req w tf r Hl Ha Hok Hgw) as (_ & _ & L & A).
  fold b b' in L, A. rewrite Ham in L, A.
  split; [exact Ham|]. split; [exact L|].
  rewrite A. ring.
Qed.

Lemma withdraw_without_amount_takes_all_witness :
  ledger_decimal2 (db (mkWorld Sample.base []))
  /\ JS.truthy_num (wr_amount Cover.req_all) = false
  /\ (Balance.availableBalance
        (Balance.calculateBalance
           (db (ws_world (snd (withdraw Sample.gw_ok Cover.req_all
                                 (mkWorld Sample.base []))))) 1)
      == 0)%Q.
Proof.
  assert (H0 : ledger_decimal2 (db (mkWorld Sample.base []))).
  { split; repeat constructor; [exists 5000|exists 10000]; reflexivity. }
  split; [exact H0|]. split; [reflexivity|].
  exact (proj2 (proj2
           (withdraw_without_amount_takes_all Sample.gw_ok Cover.req_all
              (mkWorld Sample.base []) Cover.transfer_all
              Sample.transfer_ok H0 eq_refl eq_refl eq_refl))).
Defined.

(** ** The checks of [withdraw] *)

Section Gates.

Lemma withdraw_reserve_accepts (req : WithdrawReq) (w : World) :
  let b := Balance.calculateBalance (db w) (wr_user_id req) in
  let amount := requestedAmount (wr_amount req) (Balance.availableBalance b) in
  payout_allowed (db w) (wr_user_id req) ->
  (minWithdrawAmount <= amount <= Balance.availableBalance b)%Q ->
  exists tf, fst (withdraw_reserve req (mkWState w fresh_tx)) = Ok tf.
Proof.
  cbv zeta. intros (Hz & Ho & Hn) [Hmin Hmax].
  unfold withdraw_reserve, bind, gets. rewrite tx_db_fresh.
  apply findOne_processing_count in Hz. rewrite Hz.
  destruct (bound_openid _) as [openid|]; [|congruence].
  destruct (legal_name _) as [real_name|]; [|congruence].
  unfold throw_if, bind.
  destruct (JS.Qltb _ minWithdrawAmount) eqn:E1.
  { apply Qltb_lt in E1. exfalso. apply (Qlt_not_le _ _ E1), Hmin. }
  cbn [ret].
  destruct (JS.Qltb (Balance.availableBalance _) _) eqn:E2.
  { apply Qltb_lt in E2. exfalso. apply (Qlt_not_le _ _ E2), Hmax. }
  cbn [ret]. unfold tx_create, commit, modify, ret. cbn [fst]. eexists. reflexivity.
Qed.

Lemma withdraw_reserve_gate (req : WithdrawReq) (w : World) (err : Exn) :
  fst (withdraw_reserve req (mkWState w fresh_tx)) = Thrown err ->
  exn_statusCode err = Some 400 ->
  forall gw, withdraw gw req w = (Next err, mkWState w (mkTx [] (Some TxRollback))).
Proof.
  intros Hf Hc gw. apply withdraw_rejected; [|exact Hc].
  destruct (withdraw_reserve_inv req w)
    as [(err' & Hr & _)|(amount & no & openid & real_name & Hr & _)].
  - rewrite Hr in Hf. cbn in Hf. injection Hf as ->. exact Hr.
  - cbv zeta in Hr. rewrite Hr in Hf. discriminate.
Qed.

End Gates.

(** X8. With nothing in [processing], [withdraw] next asks for a payout
    identity: a caller whose user row is missing or has no openid is
    turned away with "用户未绑定微信，无法提现", and one with an openid but no
    approved certification carrying a legal name with "请先完成实名认证"; both
    are 400s handed to the error middleware, the transaction is rolled
    back, and neither the database nor the gateway is touched. *)
Theorem withdraw_needs_payout_identity (gw : Gateway) (req : WithdrawReq) (w : World) :
  processing_count (wr_user_id req) (withdrawals (db w)) = 0%nat ->
  (bound_openid (User_findByPk (db w) (wr_user_id req)) = None ->
   withdraw gw req w = (Next err_no_openid, mkWState w (mkTx [] (Some TxRollback))))
  /\ (bound_openid (User_findByPk (db w) (wr_user_id req)) <> None ->
      legal_name (approved_certification (db w) (wr_user_id req)) = None ->
      withdraw gw req w = (Next err_no_real_name, mkWState w (mkTx [] (Some TxRollback)))).
Proof.
  intros Hz. apply findOne_processing_count in Hz.
  split.
  - intros Ho. apply withdraw_reserve_gate; [|reflexivity].
    unfold withdraw_reserve, bind, gets. rewrite tx_db_fresh, Hz, Ho. reflexivity.
  - intros Ho Hn. apply withdraw_reserve_gate; [|reflexivity].
    unfold withdraw_reserve, bind, gets. rewrite tx_db_fresh, Hz.
    destruct (bound_openid _); [|congruence]. rewrite Hn. reflexivity.
Qed.

Lemma withdraw_needs_payout_identity_witness :
  processing_count (wr_user_id (mkWithdrawReq 2 None 1000 "aaaa"))
    (withdrawals (db (mkWorld Sample.base []))) = 0%nat
  /\ bound_openid (User_findByPk (db (mkWorld Sample.base [])) 2) = None
  /\ withdraw Sample.gw_ok (mkWithdrawReq 2 None 1000 "aaaa") (mkWorld Sample.base [])
     = (Next err_no_openid, mkWState (mkWorld Sample.base []) (mkTx [] (Some TxRollback))).
Proof.
  split; [reflexivity|]. split; [reflexivity|].
  exact (proj1 (withdraw_needs_payout_identity Sample.gw_ok
                  (mkWithdrawReq 2 None 1000 "aaaa") (mkWorld Sample.base []) eq_refl)
           eq_refl).
Defined.

(** X9. [withdraw] reaches the payment gateway exactly when every check
    passes: the caller has nothing in [processing], has an openid and an
    approved certification with a legal name, and the amount lies between
    the minimum and the available balance.  In every other case the call
    log of the gateway is what it was. *)
Theorem withdraw_calls_gateway_iff (gw : Gateway) (req : WithdrawReq) (w : World) :
  let b := Balance.calculateBalance (db w) (wr_user_id req) in
  let amount := requestedAmount (wr_amount req) (Balance.availableBalance b) in
  gateway_calls (ws_world (snd (withdraw gw req w))) <> gateway_calls w
  <-> payout_allowed (db w) (wr_user_id req)
      /\ (minWithdrawAmount <= amount <= Balance.availableBalance b)%Q.
Proof.
  cbv zeta. split.
  - intros Hcalls.
    destruct (withdraw_reserve_inv req w)
      as [(err & Hr & Hc)|(amount & no & openid & real_name & Hr & _)].
    + rewrite (withdraw_rejected gw req w err Hr Hc) in Hcalls. now contradiction Hcalls.
    + cbv zeta in Hr.
      destruct (withdraw_reserve_ok req w _ (f_equal fst Hr))
        as (o & n & Ho & Hn & Hz & Hb & _).
      split; [|exact Hb]. repeat split; congruence.
  - intros [Hp Hb].
    destruct (withdraw_reserve_accepts req w Hp Hb) as [tf Hok].
    destruct (withdraw_reserve_ok req w tf Hok) as (o & n & _ & _ & _ & _ & Htf & Hr).
    rewrite (withdraw_committed gw req w _ _ Hr).
    match type of Hr with _ = (_, ?s) =>
      pose proof (withdraw_transfer_cases gw tf s eq_refl) as Hc end.
    assert (Hlen : forall f new,
      tf_withdrawal_id tf = w_id new ->
      w_id new = Table.next_id w_id (withdrawals (db w)) ->
      gateway_calls (after_transfer tf f (ws_world (committed w new))) <> gateway_calls w).
    { intros f new H1 H2. rewrite (after_transfer_db tf f w new H1 H2). cbn [gateway_calls].
      intros E. apply (f_equal (@List.length GwCall)) in E.
      rewrite length_app in E. cbn in E. lia. }
    destruct (createTransferBill gw (transferParams tf));
      [|destruct (is_rate_limit _)]; rewrite Hc; cbn [snd ws_world]; apply Hlen;
      try rewrite Htf; reflexivity.
Qed.

(** ** Notifications *)

Section Signatures.
Import Service.

(** What [handlePaymentNotify] has checked when it hands out a payload. *)
Lemma handlePaymentNotify_ok {A} (c : Crypto A) (headers : NotifyHeaders) (body : NotifyBody)
    (a : A) :
  handlePaymentNotify c headers body = NotifyOk a ->
  wechatPublicKey_loaded c = true
  /\ Cover.verifies c headers body = true
  /\ exists resource, nb_resource body = Some resource
                      /\ decryptAES256GCM c resource = inl a.
Proof.
  unfold handlePaymentNotify, Cover.verifies.
  destruct (wechatPublicKey_loaded c); cbn [negb]; [|discriminate].
  destruct (h_signature headers) as [sg|]; [|discriminate].
  destruct (h_serial headers) as [sr|]; [|discriminate].
  destruct (h_nonce headers) as [nc|]; [|discriminate].
  destruct (h_timestamp headers) as [ts|]; [|discriminate].
  destruct (negb (_ && _ && _ && _)); [discriminate|].
  destruct (rsa_verify c _ sg); cbn [negb]; [|discriminate].
  destruct (nb_resource body) as [rs|]; [|discriminate].
  destruct (decryptAES256GCM c rs) as [x|m] eqn:E; [|discriminate].
  intros H. injection H as ->. repeat split. exists rs. split; [reflexivity|exact E].
Qed.

Lemma handlePaymentNotify_unverified {A} (c : Crypto A) (headers : NotifyHeaders)
    (body : NotifyBody) :
  Cover.verifies c headers body = false ->
  exists error, handlePaymentNotify c headers body = NotifyFail error.
Proof.
  intros Hv. destruct (handlePaymentNotify c headers body) as [a|error] eqn:E.
  - apply handlePaymentNotify_ok in E. destruct E as (_ & E & _). congruence.
  - exists error. reflexivity.
Qed.

End Signatures.

(** X10. A notification whose signature does not verify over
    [timestamp\nnonce\nbody\n] changes nothing: the payment webhook
    answers 200 with code FAIL, the transfer webhook answers 500 with
    "签名验证失败", and in both cases the database and the gateway call log are
    what they were. *)
Theorem unverified_notification_changes_nothing
    (cp : Service.Crypto PaymentCtl.PaymentNotice) (nreq : PaymentCtl.NotifyReq)
    (ct : Service.Crypto TransferNotice) (gw : Gateway) (creq : CallbackReq) (w : World) :
  (Cover.verifies cp (PaymentCtl.nr_headers nreq) (PaymentCtl.nr_body nreq) = false ->
   exists error,
     PaymentCtl.wechatNotify cp nreq w = (Json 200 (NotifyAck "FAIL" error), w))
  /\ (Cover.verifies ct (cb_headers creq) (cb_body creq) = false ->
      withdrawalCallback ct gw creq w = (Json 500 (NotifyAck "FAIL" "签名验证失败"), w)).
Proof.
  split; intros Hv; apply handlePaymentNotify_unverified in Hv; destruct Hv as [error Hn].
  - exists error. exact (wechatNotify_unverified cp nreq w error Hn).
  - unfold withdrawalCallback, withdrawalCallback_body. run_handler. rewrite Hn. reflexivity.
Qed.

Lemma unverified_notification_changes_nothing_witness :
  Cover.verifies (@Cover.crypto_rejecting PaymentCtl.PaymentNotice)
    (PaymentCtl.nr_headers Sample.notify_req) (PaymentCtl.nr_body Sample.notify_req) = false
  /\ exists error,
       PaymentCtl.wechatNotify Cover.crypto_rejecting Sample.notify_req
         (mkWorld Sample.base [])
       = (Json 200 (NotifyAck "FAIL" error), mkWorld Sample.base []).
Proof.
  split; [reflexivity|].
  exact (proj1 (unverified_notification_changes_nothing
                  Cover.crypto_rejecting Sample.notify_req
                  (Sample.crypto_ok (mkTransferNotice None None None)) Sample.gw_ok
                  (mkCallbackReq Sample.headers Sample.body 0) (mkWorld Sample.base []))
           eq_refl).
Defined.

(** X11. The transfer webhook takes nothing but the bill number from the
    notification: two verified notifications that name the same bill have
    the same effect, whatever state they report.  When the notification
    names no bill, or the gateway cannot be asked, the webhook still
    acknowledges with SUCCESS and the database stays as it was. *)
Theorem withdrawalCallback_trusts_only_the_gateway
    (c c' : Service.Crypto TransferNotice) (gw : Gateway) (req : CallbackReq) (w : World)
    (d d' : TransferNotice) :
  Service.handlePaymentNotify c (cb_headers req) (cb_body req) = Service.NotifyOk d ->
  Service.handlePaymentNotify c' (cb_headers req) (cb_body req) = Service.NotifyOk d' ->
  tn_out_bill_no d' = tn_out_bill_no d ->
  withdrawalCallback c' gw req w = withdrawalCallback c gw req w
  /\ fst (withdrawalCallback c gw req w) = Json 200 (NotifyAck "SUCCESS" "成功")
  /\ (JS.truthy_str (tn_out_bill_no d) = false ->
      snd (withdrawalCallback c gw req w) = w)
  /\ (forall no e, tn_out_bill_no d = Some no -> no <> "" ->
        queryTransferBill gw no = Failed e ->
        snd (withdrawalCallback c gw req w) = log_call (CallQueryTransferBill no) w).
Proof.
  intros Hn Hn' Hno.
  unfold withdrawalCallback, withdrawalCallback_body. run_handler.
  rewrite Hn, Hn', Hno.
  split; [reflexivity|].
  destruct (tn_out_bill_no d) as [no|] eqn:Eno; cbn [JS.truthy_str JS.or_str].
  2:{ repeat split. intros no e H. discriminate. }
  destruct (String.eqb_spec no "") as [->|Hne]; cbn [negb].
  { repeat split. intros no e H Hne. injection H as <-. congruence. }
  destruct (queryTransferBill gw no) as [q|e] eqn:Eq.
  - repeat (break_match; run_handler); repeat split; try discriminate;
      intros no' e' H; injection H as <-; intros _ H'; congruence.
  - repeat split; try discriminate.
    intros no' e' H _ _. injection H as <-. reflexivity.
Qed.

Lemma withdrawalCallback_trusts_only_the_gateway_witness :
  fst (withdrawalCallback
         (Sample.crypto_ok (mkTransferNotice (Some "W1") (Some "SUCCESS") None))
         (Sample.gw_state "FAIL") (mkCallbackReq Sample.headers Sample.body 4000)
         (mkWorld Sample.with_processing []))
  = Json 200 (NotifyAck "SUCCESS" "成功")
  /\ withdrawalCallback
       (Sample.crypto_ok (mkTransferNotice (Some "W1") (Some "FAIL") None))
       (Sample.gw_state "FAIL") (mkCallbackReq Sample.headers Sample.body 4000)
       (mkWorld Sample.with_processing [])
     = withdrawalCallback
         (Sample.crypto_ok (mkTransferNotice (Some "W1") (Some "SUCCESS") None))
         (Sample.gw_state "FAIL") (mkCallbackReq Sample.headers Sample.body 4000)
         (mkWorld Sample.with_processing []).
Proof.
  pose proof (withdrawalCallback_trusts_only_the_gateway
                (Sample.crypto_ok (mkTransferNotice (Some "W1") (Some "SUCCESS") None))
                (Sample.crypto_ok (mkTransferNotice (Some "W1") (Some "FAIL") None))
                (Sample.gw_state "FAIL") (mkCallbackReq Sample.headers Sample.body 4000)
                (mkWorld Sample.with_processing [])
                (mkTransferNotice (Some "W1") (Some "SUCCESS") None)
                (mkTransferNotice (Some "W1") (Some "FAIL") None)
                eq_refl eq_refl eq_refl) as H.
  split; [exact (proj1 (proj2 H))|exact (proj1 H)].
Defined.

(** ** The payment status query *)

Section PaymentQuery.
Import PaymentCtl.

(** X12. [queryPayment] answers from the local table, without asking the
    gateway and without writing anything, when the payment number is
    unknown (404), when the payment belongs to someone else (403), and
    when the payment is not a pending WeChat payment (200 with the row as
    it is). *)
Theorem queryPayment_answers_locally (gw : Gateway) (req : QueryReq) (w : World) :
  let found := Table.findOne (by_out_trade_no (qr_payment_no req)) (payments (db w)) in
  (found = None ->
   queryPayment gw req w = (Json 404 (ErrorBody "支付记录不存在"), w))
  /\ (forall p, found = Some p -> p_user_id p <> qr_user_id req ->
        queryPayment gw req w = (Json 403 (ErrorBody "无权限查看此支付"), w))
  /\ (forall p, found = Some p -> p_user_id p = qr_user_id req ->
        p_status p <> PPending \/ p_payment_method p <> Wechat ->
        queryPayment gw req w = (Json 200 (PaymentData (Some p)), w)).
Proof.
  cbv zeta. split; [|split].
  - intros Hf. unfold queryPayment, queryPayment_body. run_handler. rewrite Hf. reflexivity.
  - intros p Hf Hu. unfold queryPayment, queryPayment_body. run_handler. rewrite Hf.
    apply Z.eqb_neq in Hu. rewrite Hu. reflexivity.
  - intros p Hf Hu Hc. apply (queryPayment_terminal gw req w p Hf Hu).
    destruct Hc as [Hc|Hc].
    + destruct (p_status p); try reflexivity. congruence.
    + destruct (p_payment_method p); [congruence|apply andb_false_r].
Qed.

Lemma queryPayment_answers_locally_witness :
  queryPayment Sample.gw_ok (mkQueryReq "PAY1" 7 3000) (mkWorld Sample.base [])
  = (Json 200 (PaymentData (Some Sample.paid1)), mkWorld Sample.base []).
Proof.
  apply (proj2 (proj2 (queryPayment_answers_locally Sample.gw_ok (mkQueryReq "PAY1" 7 3000)
                         (mkWorld Sample.base []))) Sample.paid1 eq_refl eq_refl).
  left. discriminate.
Defined.



(** X14. For a prepayment the status query and the webhook agree: when
    [queryPayment] learns from the gateway that a pending prepayment
    succeeded, it leaves the database exactly as [wechatNotify] would on
    a verified notification for the same payment with the same
    transaction id and time (payment [success], order [pending] with
    [prepaid_at], one status log, one message). *)
Theorem queryPayment_prepay_matches_webhook (gw : Gateway) (req : QueryReq) (w : World)
    (p : Payment) (r : OrderQuery) (c : Service.Crypto PaymentNotice) (nreq : NotifyReq)
    (n : PaymentNotice) :
  Table.findOne (by_out_trade_no (qr_payment_no req)) (payments (db w)) = Some p ->
  p_user_id p = qr_user_id req ->
  p_status p = PPending -> p_payment_method p = Wechat -> p_type p = Prepay ->
  queryOrder gw (qr_payment_no req) = Returned r ->
  oq_success r = true -> oq_trade_state r = "SUCCESS" ->
  Service.handlePaymentNotify c (nr_headers nreq) (nr_body nreq) = Service.NotifyOk n ->
  out_trade_no n = qr_payment_no req ->
  transaction_id n = oq_transaction_id r ->
  success_time n = None -> nr_now nreq = qr_now req ->
  db (snd (queryPayment gw req w)) = db (snd (wechatNotify c nreq w)).
Proof.
  intros Hf Hu Hst Hm Hty Hq Hs Hts Hn Hno Htx Htime Hnow.
  assert (Hns : p_status p <> PSuccess) by congruence.
  rewrite <- Hno in Hf.
  rewrite (wechatNotify_applies c nreq w n p Hn Hf Hns). cbv zeta. rewrite Hno in *.
  unfold queryPayment, queryPayment_body. run_handler.
  rewrite Hf, Hu, Z.eqb_refl, Hst, Hm. cbn [negb pstatus_eqb pmethod_eqb andb].
  rewrite Hq, Hs, Hts. cbn [andb String.eqb Ascii.eqb Bool.eqb fst snd].
  unfold query_success, prepay_success. run_handler.
  rewrite Hty, Htx, Htime, Hnow. cbn [ptype_eqb].
  cbn [db orders payments on_db set_payments log_call].
  destruct (Table.findOne _ (orders (db w))) as [o|]; reflexivity.
Qed.

Lemma queryPayment_prepay_matches_webhook_witness :
  Table.findOne (by_out_trade_no (qr_payment_no Cover.prepay_query))
    (payments (db (mkWorld Cover.prepay_ledger []))) = Some Cover.pending_prepay
  /\ db (snd (queryPayment Sample.gw_ok Cover.prepay_query (mkWorld Cover.prepay_ledger [])))
     = db (snd (wechatNotify (Sample.crypto_ok Cover.prepay_notice) Sample.notify_req
                  (mkWorld Cover.prepay_ledger []))).
Proof.
  split; [reflexivity|].
  exact (queryPayment_prepay_matches_webhook Sample.gw_ok Cover.prepay_query
           (mkWorld Cover.prepay_ledger []) Cover.pending_prepay
           (mkOrderQuery true "SUCCESS" (Some "TX2"))
           (Sample.crypto_ok Cover.prepay_notice) Sample.notify_req Cover.prepay_notice
           eq_refl eq_refl eq_refl eq_refl eq_refl eq_refl eq_refl eq_refl eq_refl
           eq_refl eq_refl eq_refl eq_refl).
Defined.

End PaymentQuery.

(** ** Status queries and cancellation *)

Section WithdrawalQueries.
Import Cover.

Ltac found_row :=
  cbn [db withdrawals on_db set_withdrawals log_call snd fst];
  first
    [ left; reflexivity
    | right; eexists; eexists;
      split; [eapply (fun p rows x H => proj1 (@findOne_some Withdrawal p rows x H)); eassumption|];
      split; [eassumption|reflexivity] ].

Lemma queryWithdrawalStatus_rewrites gw req w :
  rewrites_found (withdrawals (db w)) (withdrawals (db (snd (queryWithdrawalStatus gw req w)))).
Proof.
  unfold queryWithdrawalStatus, queryWithdrawalStatus_body. run_handler.
  repeat (break_match; run_handler; try found_row).
Qed.

Lemma getWithdrawalStatus_rewrites gw req w :
  rewrites_found (withdrawals (db w)) (withdrawals (db (snd (getWithdrawalStatus gw req w)))).
Proof.
  unfold getWithdrawalStatus, getWithdrawalStatus_body. run_handler.
  repeat (break_match; run_handler; try found_row).
Qed.

Lemma cancelWithdrawal_rewrites gw req w :
  rewrites_found (withdrawals (db w)) (withdrawals (db (snd (cancelWithdrawal gw req w)))).
Proof.
  unfold cancelWithdrawal, cancelWithdrawal_body. run_handler.
  repeat (break_match; run_handler; try found_row).
Qed.

Lemma rewrites_found_keeps_terminal (rows rows' : list Withdrawal) (x : Withdrawal) :
  NoDup (map w_id rows) -> rewrites_found rows rows' ->
  In x rows -> is_terminal (w_status x) = true -> In x rows'.
Proof.
  intros Hnd [->|(f & wd & Hwd & Hnt & ->)] Hx Ht; [exact Hx|].
  unfold Table.update. apply in_map_iff. exists x. split; [|exact Hx].
  destruct (w_id x =? w_id wd) eqn:E; [|reflexivity].
  apply Z.eqb_eq in E. rewrite (same_id_same_row rows x wd Hnd Hx Hwd E) in Ht. congruence.
Qed.

End WithdrawalQueries.

(** ** Terminal rows under interleaving *)

Section Interleaved.
Import Cover.

Lemma ids_update (f : Withdrawal -> Withdrawal) (p : Withdrawal -> bool)
    (rows : list Withdrawal) :
  keeps f -> map w_id (Table.update f p rows) = map w_id rows.
Proof.
  intros Hk. unfold Table.update. rewrite map_map. apply map_ext.
  intros x. destruct (p x); [|reflexivity].
  destruct (Hk x) as [Hs _]. unfold snapshot in Hs. congruence.
Qed.

Lemma ids_settled (rows rows' : list Withdrawal) :
  settled_from rows rows' -> map w_id rows' = map w_id rows.
Proof. intros (f & p & Hk & _ & ->). apply ids_update, Hk. Qed.

Lemma NoDup_fresh_id (rows : list Withdrawal) (new : Withdrawal) :
  w_id new = Table.next_id w_id rows ->
  NoDup (map w_id rows) -> NoDup (map w_id (rows ++ [new])).
Proof.
  intros Hid Hnd. rewrite map_app. apply NoDup_app; [exact Hnd| |].
  - cbn. constructor; [intros []|constructor].
  - intros a Ha [<-|[]]. apply in_map_iff in Ha. destruct Ha as (y & Hy & Hin).
    apply next_id_above in Hin. lia.
Qed.

Lemma In_update_miss {A} (f : A -> A) (p : A -> bool) (rows : list A) (x : A) :
  In x rows -> p x = false -> In x (Table.update f p rows).
Proof.
  intros Hin Hp. unfold Table.update. apply in_map_iff. exists x.
  rewrite Hp. split; [reflexivity|exact Hin].
Qed.

(** The first half of a [withdraw] call leaves the table alone or
    appends the row the second half will write to. *)
Lemma begin_rows (req : WithdrawReq) (w : World) :
  match withdraw_begin req w with
  | (inl _, w') => withdrawals (db w') = withdrawals (db w)
  | (inr tf, w') =>
      exists new, withdrawals (db w') = (withdrawals (db w) ++ [new])%list
                  /\ w_id new = Table.next_id w_id (withdrawals (db w))
                  /\ tf_withdrawal_id tf = w_id new
  end.
Proof.
  unfold withdraw_begin.
  destruct (withdraw_reserve_inv req w)
    as [(err & Hr & Hc)|(amount & no & openid & real_name & Hr & _)].
  - rewrite Hr. unfold withdraw_catch, respond, bind, gets, rollback, modify, ret.
    cbn [ws_tx fresh_tx tx_finished ws_world snd]. rewrite Hc. reflexivity.
  - cbv zeta in Hr. rewrite Hr. cbn [snd committed ws_world on_db db set_withdrawals withdrawals].
    eexists. split; [reflexivity|]. split; reflexivity.
Qed.

(** The second half rewrites the rows that have the id it closed over,
    whatever their status. *)
Lemma resume_rows (gw : Gateway) (tf : Transfer) (w : World) :
  exists f, keeps f
            /\ withdrawals (db (snd (withdraw_resume gw tf w)))
               = Table.update f (fun x => w_id x =? tf_withdrawal_id tf) (withdrawals (db w))
            /\ forall r, createTransferBill gw (transferParams tf) = Returned r ->
                 f = set_processing (JS.or_opt (tr_transfer_bill_no r) (tr_out_bill_no r))
                       (tr_package_info r).
Proof.
  unfold withdraw_resume. cbn [snd].
  pose proof (withdraw_transfer_cases gw tf (mkWState w (mkTx [] (Some TxCommit))) eq_refl) as Hc.
  destruct (createTransferBill gw (transferParams tf)) as [r|e].
  - rewrite Hc. cbn [snd ws_world]. eexists. split; [apply keeps_set_processing|].
    split; [reflexivity|]. intros r' Hr. injection Hr as <-. reflexivity.
  - destruct (is_rate_limit (GatewayError e)); rewrite Hc; cbn [snd ws_world];
      (eexists; split; [apply keeps_set_status_reason|]);
      (split; [reflexivity|discriminate]).
Qed.

Lemma resume_keeps_row (gw : Gateway) (tf : Transfer) (w : World) (x : Withdrawal) :
  tf_withdrawal_id tf <> w_id x ->
  NoDup (map w_id (withdrawals (db w))) -> In x (withdrawals (db w)) ->
  NoDup (map w_id (withdrawals (db (snd (withdraw_resume gw tf w)))))
  /\ In x (withdrawals (db (snd (withdraw_resume gw tf w)))).
Proof.
  intros Hne Hnd Hx. destruct (resume_rows gw tf w) as (f & Hk & -> & _).
  split; [rewrite (ids_update f _ _ Hk); exact Hnd|].
  apply In_update_miss; [exact Hx|]. apply Z.eqb_neq. congruence.
Qed.

Lemma handle_keeps_terminal (r : Request) (w : World) (x : Withdrawal) :
  is_transfer_webhook r = false ->
  NoDup (map w_id (withdrawals (db w))) ->
  In x (withdrawals (db w)) -> is_terminal (w_status x) = true ->
  NoDup (map w_id (withdrawals (db (snd (handle r w)))))
  /\ In x (withdrawals (db (snd (handle r w)))).
Proof.
  intros Hr Hnd Hx Ht.
  destruct r as [gw req|gw req|gw req|c gw req|gw req|c req|gw req]; try discriminate.
  - rewrite withdraw_cut. pose proof (begin_rows req w) as Hb.
    destruct (withdraw_begin req w) as [[resp|tf] w']; cbn [snd].
    + rewrite Hb. split; assumption.
    + destruct Hb as (new & Hrows & Hid & Htf).
      apply resume_keeps_row.
      * apply next_id_above in Hx. lia.
      * rewrite Hrows. apply NoDup_fresh_id; assumption.
      * rewrite Hrows. apply in_or_app. left. exact Hx.
  - cbn [handle]. split.
    + rewrite (ids_settled _ _ (queryWithdrawalStatus_settles gw req w)). exact Hnd.
    + exact (rewrites_found_keeps_terminal _ _ x Hnd (queryWithdrawalStatus_rewrites gw req w) Hx Ht).
  - cbn [handle]. split.
    + rewrite (ids_settled _ _ (getWithdrawalStatus_settles gw req w)). exact Hnd.
    + exact (rewrites_found_keeps_terminal _ _ x Hnd (getWithdrawalStatus_rewrites gw req w) Hx Ht).
  - cbn [handle]. split.
    + rewrite (ids_settled _ _ (cancelWithdrawal_settles gw req w)). exact Hnd.
    + exact (rewrites_found_keeps_terminal _ _ x Hnd (cancelWithdrawal_rewrites gw req w) Hx Ht).
  - cbn [handle]. rewrite wechatNotify_withdrawals. split; assumption.
  - cbn [handle]. rewrite queryPayment_withdrawals. split; assumption.
Qed.

Lemma In_remove_nth {A} (k : nat) (l : list A) (a : A) :
  In a (remove_nth k l) -> In a l.
Proof.
  revert k. induction l as [|y l IH]; intros k; [destruct k; exact (fun H => H)|].
  destruct k as [|k]; cbn [remove_nth In]; [tauto|].
  intros [->|H]; [tauto|right; exact (IH k H)].
Qed.

(** One event of the interleaved service keeps a terminal row that no
    waiting call owns, together with what the next event needs. *)
Lemma step_keeps_terminal (e : Event) (s : Sys) (x : Withdrawal) :
  webhook_free e = true ->
  NoDup (map w_id (withdrawals (db (world s)))) ->
  not_awaited x s ->
  In x (withdrawals (db (world s))) -> is_terminal (w_status x) = true ->
  NoDup (map w_id (withdrawals (db (world (step e s)))))
  /\ not_awaited x (step e s)
  /\ In x (withdrawals (db (world (step e s)))).
Proof.
  intros He Hnd Hw Hx Ht.
  destruct e as [req|gw k|r]; cbn [step].
  - pose proof (begin_rows req (world s)) as Hb.
    destruct (withdraw_begin req (world s)) as [[resp|tf] w']; cbn [world waiting].
    + rewrite Hb. repeat split; assumption.
    + destruct Hb as (new & Hrows & Hid & Htf). rewrite Hrows.
      split; [apply NoDup_fresh_id; assumption|].
      split; [|apply in_or_app; left; exact Hx].
      intros tf' Hin. apply in_app_or in Hin. destruct Hin as [Hin|[<-|[]]].
      * exact (Hw tf' Hin).
      * apply next_id_above in Hx. lia.
  - destruct (nth_error (waiting s) k) as [tf|] eqn:Hk; cbn [world waiting].
    + assert (Hne : tf_withdrawal_id tf <> w_id x) by (apply Hw; eapply nth_error_In; exact Hk).
      destruct (resume_keeps_row gw tf (world s) x Hne Hnd Hx) as [Hnd' Hx'].
      split; [exact Hnd'|]. split; [|exact Hx'].
      intros tf' Hin. apply Hw. eapply In_remove_nth. exact Hin.
    + repeat split; assumption.
  - cbn [webhook_free] in He. apply negb_true_iff in He.
    destruct (handle_keeps_terminal r (world s) x He Hnd Hx Ht) as [Hnd' Hx'].
    cbn [world waiting]. repeat split; assumption.
Qed.

Lemma run_events_keeps_terminal (es : list Event) (s : Sys) (x : Withdrawal) :
  forallb webhook_free es = true ->
  NoDup (map w_id (withdrawals (db (world s)))) ->
  not_awaited x s ->
  In x (withdrawals (db (world s))) -> is_terminal (w_status x) = true ->
  In x (withdrawals (db (world (run_events es s)))).
Proof.
  revert s. induction es as [|e es IH]; intros s Hes Hnd Hw Hx Ht; cbn [run_events].
  - exact Hx.
  - cbn [forallb] in Hes. apply andb_prop in Hes. destruct Hes as [He Hes].
    destruct (step_keeps_terminal e s x He Hnd Hw Hx Ht) as (Hnd' & Hw' & Hx').
    apply IH; assumption.
Qed.

(** A call that resumes with the gateway's acceptance puts its row in
    [processing], whatever became of the row meanwhile. *)
Lemma resume_revives (gw : Gateway) (k : nat) (s : Sys) (tf : Transfer)
    (r : TransferResult) (x : Withdrawal) :
  nth_error (waiting s) k = Some tf -> tf_withdrawal_id tf = w_id x ->
  createTransferBill gw (transferParams tf) = Returned r ->
  In x (withdrawals (db (world s))) -> is_terminal (w_status x) = true ->
  let rows' := withdrawals (db (world (step (Resume gw k) s))) in
  ~ In x rows'
  /\ exists x', In x' rows' /\ w_id x' = w_id x /\ w_status x' = WProcessing
                /\ snapshot x' = snapshot x.
Proof.
  intros Hk Hid Hgw Hx Ht. cbv zeta. cbn [step]. rewrite Hk. cbn [world].
  destruct (resume_rows gw tf (world s)) as (f & Hkeep & -> & Hf).
  rewrite (Hf r Hgw). split.
  - intros Hin. apply In_update in Hin. destruct Hin as (y & Hy & Hxy).
    destruct (w_id y =? tf_withdrawal_id tf) eqn:E.
    + rewrite Hxy in Ht. discriminate.
    + subst y. apply Z.eqb_neq in E. congruence.
  - exists (set_processing (JS.or_opt (tr_transfer_bill_no r) (tr_out_bill_no r))
              (tr_package_info r) x).
    split; [|repeat split].
    unfold Table.update. apply in_map_iff. exists x. split; [|exact Hx].
    rewrite (proj2 (Z.eqb_eq _ _)) by congruence. reflexivity.
Qed.

(** A row settled while its call was waiting: the call commits row 1,
    a status query learns from the gateway that the transfer failed, and
    the call, resuming with the acceptance it was given, writes
    [processing] over it. *)
Example resume_after_settlement :
  let settled :=
    run_events [Begin Sample.req_30;
                Serve (QueryWithdrawalStatus (Sample.gw_state "FAIL") Sample.status_req)]
      (Sample.start Sample.base) in
  statuses (withdrawals (db (world settled))) = [(1, WFailed)]
  /\ statuses (withdrawals (db (world (step (Resume Sample.gw_ok 0) settled))))
     = [(1, WProcessing)].
Proof. split; reflexivity. Qed.

End Interleaved.

(** X15. With unique primary keys, a withdrawal row that has reached a
    terminal status ([success], [failed], [cancelled]) and whose own
    [withdraw] call is not waiting for the gateway any more is left exactly
    as it is by every sequence of events that contains no transfer
    webhook, an event being the first half of a [withdraw] call (up to its
    commit), the second half of a waiting one (after the gateway's
    answer), or another request served from start to end: a status query,
    [cancelWithdrawal], or one of the two payment handlers.  The condition
    on the row's own call is needed: [withdraw] updates its row by id
    after the gateway has answered, without looking at the status, so a
    call that resumes with the gateway's acceptance puts its row back in
    [processing] even when a status query has settled it in between.
    Status queries and cancellations that overlap each other are not
    covered. *)
Theorem terminal_rows_are_final (es : list Event) (s : Sys) (x : Withdrawal) :
  NoDup (map w_id (withdrawals (db (world s)))) ->
  In x (withdrawals (db (world s))) -> is_terminal (w_status x) = true ->
  (forallb Cover.webhook_free es = true -> Cover.not_awaited x s ->
   In x (withdrawals (db (world (run_events es s)))))
  /\ (forall gw k tf r,
        nth_error (waiting s) k = Some tf -> tf_withdrawal_id tf = w_id x ->
        createTransferBill gw (transferParams tf) = Returned r ->
        let rows' := withdrawals (db (world (step (Resume gw k) s))) in
        ~ In x rows'
        /\ exists x', In x' rows' /\ w_id x' = w_id x /\ w_status x' = WProcessing).
Proof.
  intros Hnd Hx Ht. split.
  - intros Hes Hw. exact (run_events_keeps_terminal es s x Hes Hnd Hw Hx Ht).
  - intros gw k tf r Hk Hid Hgw.
    destruct (resume_revives gw k s tf r x Hk Hid Hgw Hx Ht) as (Hout & x' & H1 & H2 & H3 & _).
    split; [exact Hout|]. exists x'. repeat split; assumption.
Qed.

Lemma terminal_rows_are_final_witness :
  NoDup (map w_id (withdrawals (db (world (Sample.start Sample.with_success)))))
  /\ In Sample.done_row (withdrawals (db (world (Sample.start Sample.with_success))))
  /\ is_terminal (w_status Sample.done_row) = true
  /\ In Sample.done_row
       (withdrawals
          (db (world (run_events
                        [Begin Sample.req_30;
                         Serve (CancelWithdrawal (Sample.gw_state "FAIL") Sample.cancel_own);
                         Resume Sample.gw_ok 0]
                        (Sample.start Sample.with_success))))).
Proof.
  assert (H1 : NoDup (map w_id (withdrawals (db (world (Sample.start Sample.with_success)))))).
  { cbn. constructor; [intros []|constructor]. }
  assert (H2 : In Sample.done_row
                 (withdrawals (db (world (Sample.start Sample.with_success)))))
    by (left; reflexivity).
  split; [exact H1|]. split; [exact H2|]. split; [reflexivity|].
  apply (proj1 (terminal_rows_are_final
                  [Begin Sample.req_30;
                   Serve (CancelWithdrawal (Sample.gw_state "FAIL") Sample.cancel_own);
                   Resume Sample.gw_ok 0]
                  (Sample.start Sample.with_success) Sample.done_row H1 H2 eq_refl)).
  - reflexivity.
  - intros tf [].
Defined.




Section CancelEffect.
Import Balance.
Local Open Scope Q_scope.




End CancelEffect.



Section RefusedTransfer.
Import Balance.

Lemma calculateBalance_app_failed (d : DB) (x : Withdrawal) (e : Z) :
  w_status x = WFailed ->
  calculateBalance (set_withdrawals (fun rows => (rows ++ [x])%list) d) e
  = calculateBalance d e.
Proof.
  intros Hst.
  assert (Hsum : forall st, wstatus_eqb WFailed st = false ->
            withdrawalSum (set_withdrawals (fun rows => (rows ++ [x])%list) d) e [st]
            = withdrawalSum d e [st]).
  { intros st Hne.
    apply (withdrawalSum_app_not_listed d e st x (withdrawals d ++ [x]) eq_refl).
    rewrite Hst. exact Hne. }
  unfold calculateBalance.
  rewrite (Hsum WSuccess eq_refl), (Hsum WProcessing eq_refl). reflexivity.
Qed.

End RefusedTransfer.

(** X19. A transfer the gateway refuses costs nothing: after [withdraw]
    has committed its row and the gateway call has failed (rate limit or
    not), the row is [failed] and the balance of every electrician, the
    caller included, is exactly what it was before the call. *)
Theorem refused_transfer_costs_nothing (gw : Gateway) (req : WithdrawReq) (w : World)
    (tf : Transfer) (e : ApiError) (account : Z) :
  fst (withdraw_reserve req (mkWState w fresh_tx)) = Ok tf ->
  createTransferBill gw (transferParams tf) = Failed e ->
  let d' := db (ws_world (snd (withdraw gw req w))) in
  (exists new, withdrawals d' = (withdrawals (db w) ++ [new])%list
               /\ w_id new = tf_withdrawal_id tf /\ w_status new = WFailed
               /\ w_amount new = Table.decimal_10_2 (tf_withdrawAmount tf))
  /\ Balance.calculateBalance d' account = Balance.calculateBalance (db w) account.
Proof.
  intros Hok Hgw. cbv zeta.
  destruct (withdraw_reserve_ok req w tf Hok)
    as (openid & real_name & _ & _ & _ & _ & Htf & Hr).
  rewrite (withdraw_committed gw req w _ _ Hr).
  match type of Hr with _ = (_, ?s) =>
    pose proof (withdraw_transfer_cases gw tf s eq_refl) as Hc end.
  rewrite Hgw in Hc.
  destruct (is_rate_limit (GatewayError e)); rewrite Hc; cbn [snd ws_world];
    rewrite after_transfer_db by (try rewrite Htf; reflexivity); cbn [db];
    (split; [eexists; split; [reflexivity|]; rewrite Htf; repeat split
            |apply calculateBalance_app_failed; reflexivity]).
Qed.

Lemma refused_transfer_costs_nothing_witness :
  fst (withdraw_reserve Sample.req_30 (mkWState (mkWorld Sample.base []) fresh_tx))
  = Ok Sample.transfer_30
  /\ Balance.calculateBalance
       (db (ws_world (snd (withdraw (Sample.gw_failing Sample.rate_limited) Sample.req_30
                             (mkWorld Sample.base []))))) 1
     = Balance.calculateBalance (db (mkWorld Sample.base [])) 1.
Proof.
  split; [reflexivity|].
  exact (proj2 (refused_transfer_costs_nothing (Sample.gw_failing Sample.rate_limited)
                  Sample.req_30 (mkWorld Sample.base []) Sample.transfer_30
                  Sample.rate_limited 1 eq_refl eq_refl)).
Defined.

(** ** The transfer request of the payment service *)

Section BillNumbers.
Import Wechat.

(** An ASCII letter or digit is a character of one byte, one code unit. *)
Lemma alnum_single (c : ascii) :
  is_alnum c = true -> (N_of_ascii c <? 240)%N = true /\ JS.utf8_bytes c = 1%nat.
Proof.
  destruct c as [[] [] [] [] [] [] [] []]; vm_compute; intros H;
    first [discriminate H | split; reflexivity].
Qed.

(** On letters and digits, code units are bytes. *)
Lemma substring0_bytes (n : nat) (s : string) :
  all_alnum s = true -> JS.substring0 n s = String.substring 0 n s.
Proof.
  unfold JS.substring0. revert n.
  induction s as [|c s IH]; intros [|n] H; try reflexivity.
  cbn [all_alnum] in H. apply andb_prop in H. destruct H as [Hc Hs].
  destruct (alnum_single c Hc) as [Hlt Hone].
  cbn [JS.take_units String.substring]. rewrite Hlt, Hone. cbn [Nat.sub].
  rewrite (IH n Hs). reflexivity.
Qed.

Lemma substring0_length (n : nat) (s : string) :
  all_alnum s = true -> (String.length (JS.substring0 n s) <= n)%nat.
Proof.
  intros H. rewrite (substring0_bytes n s H). clear H.
  revert s. induction n as [|n IH]; intros [|c s]; cbn; try lia.
  specialize (IH s). lia.
Qed.

Lemma substring0_short (n : nat) (s : string) :
  all_alnum s = true -> (String.length s <= n)%nat -> JS.substring0 n s = s.
Proof.
  intros H. rewrite (substring0_bytes n s H). clear H.
  revert s. induction n as [|n IH]; intros [|c s]; cbn; intros H;
    try reflexivity; try lia.
  rewrite IH by lia. reflexivity.
Qed.

Lemma substring0_alnum (n : nat) (s : string) :
  all_alnum s = true -> all_alnum (JS.substring0 n s) = true.
Proof.
  intros H. rewrite (substring0_bytes n s H).
  revert s H. induction n as [|n IH]; intros [|c s]; cbn; intros H;
    try reflexivity.
  apply andb_prop in H. destruct H as [Hc Hs]. rewrite Hc, (IH s Hs). reflexivity.
Qed.

Lemma strip_alnum (s : string) : all_alnum (strip s) = true.
Proof.
  induction s as [|c s IH]; cbn; [reflexivity|].
  destruct (is_alnum c) eqn:E; cbn; [rewrite E, IH; reflexivity|exact IH].
Qed.

Lemma strip_id (s : string) : all_alnum s = true -> strip s = s.
Proof.
  induction s as [|c s IH]; cbn; [reflexivity|]. intros H.
  apply andb_prop in H. destruct H as [Hc Hs]. rewrite Hc, (IH Hs). reflexivity.
Qed.

Lemma all_alnum_app (a b : string) :
  all_alnum (a ++ b) = all_alnum a && all_alnum b.
Proof.
  induction a as [|c a IH]; cbn; [reflexivity|]. rewrite IH. apply andb_assoc.
Qed.

Lemma length_append (a b : string) :
  String.length (a ++ b) = (String.length a + String.length b)%nat.
Proof. induction a as [|c a IH]; cbn; [reflexivity|now rewrite IH]. Qed.

Lemma uint_alnum (d : Decimal.uint) : all_alnum (NilEmpty.string_of_uint d) = true.
Proof. induction d; cbn; try reflexivity; exact IHd. Qed.

Lemma int_text_alnum (z : Z) : 0 <= z -> all_alnum (JS.int_text z) = true.
Proof.
  intros Hz. unfold JS.int_text, NilZero.string_of_int.
  destruct z as [|p|p]; [reflexivity| |lia].
  cbn [Z.to_int]. unfold NilZero.string_of_uint.
  destruct (Pos.to_uint p); try reflexivity; apply (uint_alnum (_ _)).
Qed.

Lemma safeOutBillNo_id (s : string) :
  all_alnum s = true -> (String.length s <= 32)%nat -> safeOutBillNo s = s.
Proof.
  intros Ha Hl. unfold safeOutBillNo. rewrite (strip_id s Ha).
  apply substring0_short; assumption.
Qed.

Lemma generateOutBatchNo_alnum (t e : Z) (random : string) :
  0 <= t -> 0 <= e -> all_alnum random = true ->
  all_alnum (generateOutBatchNo t e random) = true.
Proof.
  intros Ht He Hr. unfold generateOutBatchNo. apply substring0_alnum.
  rewrite !all_alnum_app, (int_text_alnum t Ht), (int_text_alnum e He), Hr. reflexivity.
Qed.

End BillNumbers.

(** X20. The batch number [withdraw] stores is the one the gateway gets.
    [generateOutBatchNo] yields at most 32 characters, all digits or
    ASCII letters when the random part is (it is hexadecimal), so the
    sanitizing of [createTransferBill] leaves it as it is; when
    ["W"], timestamp, id and random part fit in 32 characters nothing is
    cut off.  For any input the sanitized number has at most 32
    characters, digits and ASCII letters only, and sanitizing it again
    changes nothing. *)
Theorem transfer_bill_number_is_kept (t e : Z) (random s : string) :
  0 <= t -> 0 <= e -> Wechat.all_alnum random = true ->
  let no := generateOutBatchNo t e random in
  (String.length no <= 32)%nat
  /\ Wechat.all_alnum no = true
  /\ Wechat.safeOutBillNo no = no
  /\ ((1 + String.length (JS.int_text t) + String.length (JS.int_text e)
       + String.length random <= 32)%nat ->
      no = "W" ++ JS.int_text t ++ JS.int_text e ++ random)
  /\ (String.length (Wechat.safeOutBillNo s) <= 32)%nat
  /\ Wechat.all_alnum (Wechat.safeOutBillNo s) = true
  /\ Wechat.safeOutBillNo (Wechat.safeOutBillNo s) = Wechat.safeOutBillNo s.
Proof.
  intros Ht He Hr no.
  assert (Hraw : Wechat.all_alnum ("W" ++ JS.int_text t ++ JS.int_text e ++ random) = true).
  { rewrite !all_alnum_app, (int_text_alnum t Ht), (int_text_alnum e He), Hr. reflexivity. }
  assert (Hlen : (String.length no <= 32)%nat) by (apply substring0_length; exact Hraw).
  assert (Hal : Wechat.all_alnum no = true) by (apply generateOutBatchNo_alnum; assumption).
  assert (Hs1 : (String.length (Wechat.safeOutBillNo s) <= 32)%nat)
    by apply substring0_length, strip_alnum.
  assert (Hs2 : Wechat.all_alnum (Wechat.safeOutBillNo s) = true)
    by (apply substring0_alnum, strip_alnum).
  split; [exact Hlen|]. split; [exact Hal|].
  split; [apply safeOutBillNo_id; assumption|].
  split.
  - intros Hfit. subst no. unfold generateOutBatchNo. apply substring0_short; [exact Hraw|].
    cbn [String.length append]. rewrite !length_append. lia.
  - split; [exact Hs1|]. split; [exact Hs2|apply safeOutBillNo_id; assumption].
Qed.

Lemma transfer_bill_number_is_kept_witness :
  0 <= 1700000000000 /\ 0 <= 53 /\ Wechat.all_alnum "a1b2c3d4" = true
  /\ Wechat.safeOutBillNo (generateOutBatchNo 1700000000000 53 "a1b2c3d4")
     = generateOutBatchNo 1700000000000 53 "a1b2c3d4".
Proof.
  assert (H1 : 0 <= 1700000000000) by lia.
  assert (H2 : 0 <= 53) by lia.
  split; [exact H1|]. split; [exact H2|]. split; [reflexivity|].
  exact (proj1 (proj2 (proj2
           (transfer_bill_number_is_kept 1700000000000 53 "a1b2c3d4" "" H1 H2 eq_refl)))).
Defined.

Section TransferRequests.
Import Wechat.

Lemma Math_round_cents (x : Q) (c : Z) :
  (x == inject_Z c / 100)%Q -> Math_round (x * 100) = c.
Proof.
  intros H. unfold Math_round. apply Qfloor_half. rewrite H. field.
Qed.

End TransferRequests.

(** X21. What [createTransferBill] sends for a two-decimal amount of [c]
    hundredths: at most one request, none at all in sandbox mode (which
    answers [WAIT_USER_CONFIRM] by itself); the request carries the amount
    as [c] fen, the sanitized bill number and the payee's openid; the
    payee's name is sent only encrypted with the loaded platform key, and
    is left out when it is empty; and outside sandbox mode the call
    returns only the data of a 200 or 202 response to that request. *)
Theorem createTransferBill_request (env : Wechat.Env) (p : TransferParams) (c : Z) :
  (tp_transfer_amount p == inject_Z c / 100)%Q ->
  let sent := snd (Wechat.createTransferBill env p) in
  (List.length sent <= 1)%nat
  /\ (Wechat.isSandbox env = true ->
      sent = []
      /\ exists r, fst (Wechat.createTransferBill env p) = Returned r
                   /\ tr_out_bill_no r = Some (Wechat.safeOutBillNo (tp_out_bill_no p))
                   /\ tr_state r = Some "WAIT_USER_CONFIRM")
  /\ (forall rq, In rq sent ->
        Wechat.rq_transfer_amount rq = c
        /\ Wechat.rq_out_bill_no rq = Wechat.safeOutBillNo (tp_out_bill_no p)
        /\ Wechat.rq_openid rq = tp_openid p
        /\ (Wechat.rq_user_name rq = None <-> tp_user_name p = "")
        /\ (forall name, Wechat.rq_user_name rq = Some name ->
              Wechat.wechatPublicKey_loaded env = true
              /\ Wechat.publicEncrypt env (tp_user_name p) = Some name))
  /\ (forall r, Wechat.isSandbox env = false ->
        fst (Wechat.createTransferBill env p) = Returned r ->
        exists rq response,
          sent = [rq] /\ Wechat.request env rq = inl response
          /\ (Wechat.status response = 200 \/ Wechat.status response = 202)
          /\ Wechat.data response = r).
Proof.
  intros Hc. cbv zeta. unfold Wechat.createTransferBill.
  rewrite (Math_round_cents _ c Hc).
  destruct (Wechat.isSandbox env) eqn:Hsb.
  { cbn [fst snd List.length In]. split; [lia|].
    split; [intros _; split; [reflexivity|eexists; repeat split]|].
    split; [intros rq []|discriminate]. }
  unfold Wechat.encryptSensitiveField.
  destruct (String.eqb_spec (tp_user_name p) "") as [Hn|Hn].
  - (* no name to send *)
    destruct (Wechat.request env _) as [response|error] eqn:Hrq;
      [destruct ((Wechat.status response =? 200) || (Wechat.status response =? 202)) eqn:Hst|];
      cbn [fst snd List.length In]; (split; [lia|]); (split; [discriminate|]);
      (split;
       [intros rq [<-|[]]; cbn; repeat split; try tauto; try discriminate
       |intros r _ Hr; try discriminate]).
    injection Hr as <-. eexists; eexists. split; [reflexivity|]. split; [exact Hrq|].
    split; [|reflexivity]. apply orb_prop in Hst.
    destruct Hst as [H|H]; apply Z.eqb_eq in H; tauto.
  - destruct (Wechat.wechatPublicKey_loaded env) eqn:Hk; cbn [negb].
    2:{ cbn [fst snd List.length In]. split; [lia|]. split; [discriminate|].
        split; [intros rq []|discriminate]. }
    destruct (Wechat.publicEncrypt env (tp_user_name p)) as [enc|] eqn:He.
    2:{ cbn [fst snd List.length In]. split; [lia|]. split; [discriminate|].
        split; [intros rq []|discriminate]. }
    destruct (Wechat.request env _) as [response|error] eqn:Hrq;
      [destruct ((Wechat.status response =? 200) || (Wechat.status response =? 202)) eqn:Hst|];
      cbn [fst snd List.length In]; (split; [lia|]); (split; [discriminate|]);
      (split;
       [intros rq [<-|[]]; cbn; repeat split; try tauto; try discriminate; try congruence
       |intros r _ Hr; try discriminate]).
    injection Hr as <-. eexists; eexists. split; [reflexivity|]. split; [exact Hrq|].
    split; [|reflexivity]. apply orb_prop in Hst.
    destruct Hst as [H|H]; apply Z.eqb_eq in H; tauto.
Qed.

Lemma createTransferBill_request_witness :
  (tp_transfer_amount (transferParams Sample.transfer_30) == inject_Z 3000 / 100)%Q
  /\ (List.length (snd (Wechat.createTransferBill Cover.live_env
                          (transferParams Sample.transfer_30))) <= 1)%nat.
Proof.
  assert (H : (tp_transfer_amount (transferParams Sample.transfer_30)
               == inject_Z 3000 / 100)%Q) by reflexivity.
  split; [exact H|].
  exact (proj1 (createTransferBill_request Cover.live_env
                  (transferParams Sample.transfer_30) 3000 H)).
Defined.

(** X22. A transfer that fails inside [createTransferBill] never takes
    the rate-limit branch of [withdraw]: whatever went wrong (the name
    could not be encrypted, the HTTP client threw, with status 429 or
    not, or the response had another status than 200 and 202), the error
    that comes out has the message "转账失败: ..." and neither status nor
    code, so [withdraw] marks its row [failed] with that message and hands
    a 500 "提现申请失败：转账失败: ..." to the error middleware. *)
Theorem adapter_failure_is_never_rate_limited (env : Wechat.Env) (rest : Gateway)
    (req : WithdrawReq) (w : World) (tf : Transfer) (e : ApiError) :
  fst (withdraw_reserve req (mkWState w fresh_tx)) = Ok tf ->
  fst (Wechat.createTransferBill env (transferParams tf)) = Failed e ->
  let result := withdraw (Wechat.gateway env rest) req w in
  is_rate_limit (GatewayError e) = false
  /\ exists reason,
       e = mkApiError None None (Some ("转账失败: " ++ reason))
       /\ fst result = Next (AppError ("提现申请失败：转账失败: " ++ reason) 500)
       /\ exists new,
            withdrawals (db (ws_world (snd result))) = (withdrawals (db w) ++ [new])%list
            /\ w_id new = tf_withdrawal_id tf
            /\ w_status new = WFailed
            /\ w_fail_reason new = Some ("转账失败: " ++ reason).
Proof.
  intros Hok Hgw. cbv zeta.
  assert (He : exists reason, e = mkApiError None None (Some ("转账失败: " ++ reason))).
  { revert Hgw. unfold Wechat.createTransferBill.
    destruct (Wechat.isSandbox env); [discriminate|].
    destruct (if String.eqb _ "" then _ else _) as [name|message].
    - destruct (Wechat.request env _) as [response|error];
        [destruct ((Wechat.status response =? 200) || (Wechat.status response =? 202))|];
        cbn [fst]; intros H; try discriminate; injection H as <-; eexists; reflexivity.
    - cbn [fst]. intros H. injection H as <-. eexists. reflexivity. }
  destruct He as [reason ->].
  split; [reflexivity|]. exists reason. split; [reflexivity|].
  destruct (withdraw_reserve_ok req w tf Hok)
    as (openid & real_name & _ & _ & _ & _ & Htf & Hr).
  rewrite (withdraw_committed (Wechat.gateway env rest) req w _ _ Hr).
  match type of Hr with _ = (_, ?s) =>
    pose proof (withdraw_transfer_cases (Wechat.gateway env rest) tf s eq_refl) as Hc end.
  cbn [createTransferBill Wechat.gateway] in Hc. rewrite Hgw in Hc.
  cbn [is_rate_limit e_status e_code opt_Z_eqb orb] in Hc. rewrite Hc.
  cbn [fst snd ws_world]. split; [reflexivity|].
  rewrite after_transfer_db by (try rewrite Htf; reflexivity). cbn [db].
  eexists. split; [reflexivity|]. rewrite Htf. repeat split.
Qed.

Lemma adapter_failure_is_never_rate_limited_witness :
  fst (withdraw_reserve Sample.req_30 (mkWState (mkWorld Sample.base []) fresh_tx))
  = Ok Sample.transfer_30
  /\ fst (Wechat.createTransferBill Cover.live_env (transferParams Sample.transfer_30))
     = Failed (Adapter.rethrown Cover.too_many_requests)
  /\ is_rate_limit (GatewayError (Adapter.rethrown Cover.too_many_requests)) = false.
Proof.
  split; [reflexivity|]. split; [reflexivity|].
  exact (proj1 (adapter_failure_is_never_rate_limited Cover.live_env Sample.gw_ok
                  Sample.req_30 (mkWorld Sample.base []) Sample.transfer_30
                  (Adapter.rethrown Cover.too_many_requests) eq_refl eq_refl)).
Defined.

(** ** Certification *)

Section CertificationFacts.
Import Certification.





(** With one row per user, the rows of a user after an instance update
    are that one row, rewritten. *)
Lemma only_row_rewritten (u : Z) (f : ElectricianCertification -> ElectricianCertification)
    (rows : list ElectricianCertification) (c x : ElectricianCertification) :
  (rows_of u rows <= 1)%nat ->
  Table.findOne (of_user u) rows = Some c ->
  In x (update_first (of_user u) f rows) -> of_user u x = true -> x = f c.
Proof.
  unfold Table.findOne, rows_of. induction rows as [|r rows IH]; cbn; [discriminate|].
  destruct (of_user u r) eqn:E; cbn.
  - intros Hle Hc. injection Hc as <-. intros [<-|Hin] Hx; [reflexivity|].
    exfalso. assert (Hlen : List.length (filter (of_user u) rows) = 0%nat) by lia.
    apply length_zero_iff_nil in Hlen.
    assert (Hin' : In x (filter (of_user u) rows)) by (apply filter_In; tauto).
    rewrite Hlen in Hin'. exact Hin'.
  - intros Hle Hc [<-|Hin] Hx; [congruence|]. exact (IH Hle Hc Hin Hx).
Qed.



End CertificationFacts.


(** X24. Re-applying suspends withdrawals.  [reapplyCertification] puts
    the caller's certification, approved or not, back to [pending] (404
    without a row, 400 when it is already [pending]); with one
    certification row per user, an electrician who was approved and
    re-applies has no approved certification any more, so a [withdraw]
    that gets as far as the certification check is rejected with
    "请先完成实名认证" until the new application is approved. *)
Theorem reapplying_suspends_withdrawals (body : Certification.Application) (gw : Gateway)
    (req : WithdrawReq) (w : World) (c : ElectricianCertification) :
  (Certification.rows_of (wr_user_id req) (certifications (db w)) <= 1)%nat ->
  Table.findOne (Certification.of_user (wr_user_id req)) (certifications (db w)) = Some c ->
  c_status c <> "pending" ->
  let result := Certification.reapplyCertification (wr_user_id req) body w in
  fst result
  = Certification.Accepted 200 "重新认证申请已提交，请等待审核" (Certification.resubmitted body c)
  /\ Cover.outside_certifications (db (snd result)) = Cover.outside_certifications (db w)
  /\ gateway_calls (snd result) = gateway_calls w
  /\ approved_certification (db (snd result)) (wr_user_id req) = None
  /\ (processing_count (wr_user_id req) (withdrawals (db w)) = 0%nat ->
      bound_openid (User_findByPk (db w) (wr_user_id req)) <> None ->
      withdraw gw req (snd result)
      = (Next err_no_real_name, mkWState (snd result) (mkTx [] (Some TxRollback)))).
Proof.
  intros Hone Hf Hst. cbv zeta.
  unfold Certification.reapplyCertification, Certification.reapplyCertification_body,
    Certification.run_answer. run_handler. rewrite Hf.
  apply String.eqb_neq in Hst. rewrite Hst. cbn [fst snd].
  split; [reflexivity|]. split; [reflexivity|]. split; [reflexivity|].
  assert (Hnone : approved_certification
                    (db (on_db (Certification.set_certifications
                                  (Certification.update_first
                                     (Certification.of_user (wr_user_id req))
                                     (Certification.resubmitted body))) w))
                    (wr_user_id req) = None).
  { unfold approved_certification.
    cbn [db on_db Certification.set_certifications certifications].
    destruct (Table.findOne _ (Certification.update_first _ _ _)) as [x|] eqn:Hx;
      [|reflexivity].
    apply findOne_some in Hx. destruct Hx as [Hin Hp].
    apply andb_prop in Hp. destruct Hp as [Hu Hap].
    rewrite (only_row_rewritten _ _ _ c x Hone Hf Hin Hu) in Hap. discriminate. }
  split; [exact Hnone|].
  intros Hz Ho. apply withdraw_reserve_gate; [|reflexivity].
  unfold withdraw_reserve, bind, gets. rewrite tx_db_fresh.
  apply findOne_processing_count in Hz.
  cbn [db on_db Certification.set_certifications withdrawals] in *.
  rewrite Hz.
  change (User_findByPk _ (wr_user_id req)) with (User_findByPk (db w) (wr_user_id req)).
  destruct (bound_openid (User_findByPk (db w) (wr_user_id req))); [|congruence].
  rewrite Hnone. reflexivity.
Qed.

Lemma reapplying_suspends_withdrawals_witness :
  (Certification.rows_of (wr_user_id Sample.req_30) (certifications (db (mkWorld Sample.base [])))
   <= 1)%nat
  /\ approved_certification (db (mkWorld Sample.base [])) 1
     = Some (mkCertification 1 "approved" (Some "Zhang"))
  /\ approved_certification
       (db (snd (Certification.reapplyCertification (wr_user_id Sample.req_30)
                   (Certification.mkApplication None) (mkWorld Sample.base []))))
       (wr_user_id Sample.req_30)
     = None.
Proof.
  assert (H1 : (Certification.rows_of (wr_user_id Sample.req_30)
                  (certifications (db (mkWorld Sample.base []))) <= 1)%nat) by (cbn; lia).
  assert (H3 : c_status (mkCertification 1 "approved" (Some "Zhang")) <> "pending")
    by discriminate.
  split; [exact H1|]. split; [reflexivity|].
  exact (proj1 (proj2 (proj2 (proj2
           (reapplying_suspends_withdrawals (Certification.mkApplication None) Sample.gw_ok
              Sample.req_30 (mkWorld Sample.base [])
              (mkCertification 1 "approved" (Some "Zhang")) H1 eq_refl H3))))).
Defined.

(** ** Creating and confirming a payment *)

Section CheckoutFacts.
Import PaymentCtl Checkout.

(** What [priced] has checked when it settles on an amount. *)
Lemma priced_ok (cat : Catalog) (order : Order) (type : string)
    (ptype : PaymentType) (amount : Q) (description : string) :
  priced cat order type = inl (ptype, amount, description) ->
  (0 < amount)%Q
  /\ (type = "prepay" /\ ptype = Prepay /\ o_status order = "pending_payment"
      /\ (exists i s, od_service_type_id (details cat (o_id order)) = Some i
                      /\ Table.findOne (fun s => st_id s =? i) (service_types cat) = Some s
                      /\ st_prepay_amount s = Some amount)
      \/ type = "repair" /\ ptype = Repair /\ o_status order = "pending_repair_payment"
         /\ od_final_amount (details cat (o_id order)) = Some amount).
Proof.
  unfold priced.
  assert (Hpos : forall a, Qle_bool a 0 = false -> (0 < a)%Q).
  { intros a H. apply Qnot_le_lt. intros Hle. apply Qle_bool_iff in Hle. congruence. }
  destruct (String.eqb_spec type "prepay") as [->|_].
  - destruct (String.eqb_spec (o_status order) "pending_payment") as [Hs|_];
      cbn [negb]; [|discriminate].
    destruct (od_service_type_id _) as [i|] eqn:Hi; [|discriminate].
    destruct (Table.findOne _ (service_types cat)) as [s|] eqn:Hsv; [|discriminate].
    destruct (st_prepay_amount s) as [a|] eqn:Ha; [|discriminate].
    destruct (Qle_bool a 0) eqn:Hle; [discriminate|].
    intros H. injection H as <- <- <-. split; [apply Hpos, Hle|].
    left. repeat split; try assumption. exists i, s. repeat split; assumption.
  - destruct (String.eqb_spec type "repair") as [->|_]; [|discriminate].
    destruct (String.eqb_spec (o_status order) "pending_repair_payment") as [Hs|_];
      cbn [negb]; [|discriminate].
    destruct (od_final_amount _) as [a|] eqn:Ha; [|discriminate].
    destruct (Qle_bool a 0) eqn:Hle; [discriminate|].
    intros H. injection H as <- <- <-. split; [apply Hpos, Hle|].
    right. repeat split; assumption.
Qed.

Lemma In_update_hit {A} (f : A -> A) (p : A -> bool) (rows : list A) (x : A) :
  In x rows -> p x = true -> In (f x) (Table.update f p rows).
Proof.
  intros Hin Hp. unfold Table.update. apply in_map_iff. exists x. rewrite Hp. tauto.
Qed.

Lemma update_ids (f : Payment -> Payment) (p : Payment -> bool) (rows : list Payment) :
  (forall x, p_id (f x) = p_id x) ->
  map p_id (Table.update f p rows) = map p_id rows.
Proof.
  intros Hf. unfold Table.update. rewrite map_map. apply map_ext.
  intros x. destruct (p x); [apply Hf|reflexivity].
Qed.

Lemma payment_next_id_above (rows : list Payment) (x : Payment) :
  In x rows -> p_id x < Table.next_id p_id rows.
Proof.
  unfold Table.next_id. induction rows as [|y rows IH]; cbn [fold_right In]; [tauto|].
  intros [->|Hin]; [lia|]. specialize (IH Hin). lia.
Qed.

Lemma NoDup_create (rows : list Payment) (row : Payment) :
  NoDup (map p_id rows) -> p_id row = Table.next_id p_id rows ->
  NoDup (map p_id (rows ++ [row])).
Proof.
  intros Hnd Hid. rewrite map_app. cbn [map].
  apply NoDup_app; [exact Hnd|constructor; [intros []|constructor]|].
  intros i Hi [<-|[]]. apply in_map_iff in Hi. destruct Hi as (x & Hx & Hin).
  apply payment_next_id_above in Hin. lia.
Qed.

Lemma pending_count_app (o : Z) (t : PaymentType) (rows more : list Payment) :
  pending_count o t (rows ++ more)
  = (pending_count o t rows + pending_count o t more)%nat.
Proof. unfold pending_count. rewrite filter_app, length_app. reflexivity. Qed.

Lemma pending_count_none (o : Z) (t : PaymentType) (rows : list Payment) :
  Table.findOne (pending_for o t) rows = None -> pending_count o t rows = 0%nat.
Proof.
  unfold Table.findOne, pending_count. induction rows as [|r rows IH]; cbn; [reflexivity|].
  destruct (pending_for o t r); [discriminate|exact IH].
Qed.

(** Rows leaving [pending] cannot raise the number of pending payments. *)
Lemma pending_count_settled (o : Z) (t : PaymentType) (f : Payment -> Payment)
    (p : Payment -> bool) (rows : list Payment) :
  (forall x, p_status (f x) <> PPending) ->
  (pending_count o t (Table.update f p rows) <= pending_count o t rows)%nat.
Proof.
  intros Hf. unfold pending_count, Table.update.
  induction rows as [|x rows IH]; cbn [map filter List.length]; [lia|].
  destruct (p x).
  - assert (E : pending_for o t (f x) = false).
    { unfold pending_for. specialize (Hf x). destruct (p_status (f x));
        try congruence; cbn; now rewrite andb_false_r. }
    rewrite E. destruct (pending_for o t x); cbn [List.length]; lia.
  - destruct (pending_for o t x); cbn [List.length]; lia.
Qed.

(** Rewriting the row with the primary key of [x] into a row of the
    same class keeps every count. *)
Lemma pending_count_same_class (o : Z) (t : PaymentType) (f : Payment -> Payment)
    (x : Payment) (rows : list Payment) :
  NoDup (map p_id rows) -> In x rows ->
  pending_for o t (f x) = pending_for o t x ->
  pending_count o t (Table.update f (fun y => p_id y =? p_id x) rows)
  = pending_count o t rows.
Proof.
  intros Hnd Hin Hc. unfold pending_count, Table.update.
  induction rows as [|y rows IH]; [reflexivity|].
  inversion Hnd as [|? ? Hnotin Hnd']; subst.
  cbn [map filter].
  destruct (p_id y =? p_id x) eqn:E.
  - apply Z.eqb_eq in E. destruct Hin as [->|Hin].
    + rewrite Hc.
      assert (Hrest : map (fun r => if p_id r =? p_id x then f r else r) rows = rows).
      { rewrite <- (map_id rows) at 2. apply map_ext_in. intros z Hz.
        destruct (p_id z =? p_id x) eqn:Ez; [|reflexivity].
        apply Z.eqb_eq in Ez. exfalso. apply Hnotin. rewrite <- Ez. apply in_map, Hz. }
      rewrite Hrest. destruct (pending_for o t x); reflexivity.
    + exfalso. apply Hnotin. rewrite E. apply in_map, Hin.
  - destruct Hin as [->|Hin]; [rewrite Z.eqb_refl in E; discriminate|].
    specialize (IH Hnd' Hin).
    destruct (pending_for o t y); cbn [List.length]; rewrite IH; reflexivity.
Qed.

End CheckoutFacts.

Section CheckoutHandlers.
Import PaymentCtl Checkout.

Ltac settled_payments :=
  cbn [db payments on_db set_payments set_orders add_status_log add_message log_call snd fst];
  first
    [ left; reflexivity
    | right; eexists; eexists; split; [|reflexivity]; intros ?; split;
      [reflexivity|discriminate] ].

Lemma wechatNotify_settles_payments c req w :
  Cover.settles_payments (payments (db w)) (payments (db (snd (wechatNotify c req w)))).
Proof.
  unfold wechatNotify, wechatNotify_body, prepay_success, transitionRepairPaymentSuccess.
  run_handler.
  repeat (break_match; run_handler; try settled_payments).
Qed.

Lemma queryPayment_settles_payments gw req w :
  Cover.settles_payments (payments (db w)) (payments (db (snd (queryPayment gw req w)))).
Proof.
  unfold queryPayment, queryPayment_body, query_success, prepay_success.
  run_handler.
  repeat (break_match; run_handler; try settled_payments).
Qed.

Lemma confirmTestPayment_settles_payments req w :
  Cover.settles_payments (payments (db w)) (payments (db (snd (confirmTestPayment req w)))).
Proof.
  unfold confirmTestPayment, confirmTestPayment_body, transitionRepairPaymentSuccess.
  run_handler.
  repeat (break_match; run_handler; try settled_payments).
Qed.

Lemma settles_payments_in_order (d d' : DB) :
  Cover.settles_payments (payments d) (payments d') ->
  Cover.payments_in_order d -> Cover.payments_in_order d'.
Proof.
  intros [E|(f & p & Hf & E)] [Hnd Hone]; unfold Cover.payments_in_order; rewrite E.
  - split; assumption.
  - split.
    + rewrite update_ids by (intros x; apply Hf). exact Hnd.
    + intros o t. specialize (Hone o t).
      pose proof (pending_count_settled o t f p (payments d) (fun x => proj2 (Hf x))).
      lia.
Qed.

Lemma pending_for_found (o : Z) (t : PaymentType) (rows : list Payment) (p : Payment) :
  Table.findOne (pending_for o t) rows = Some p ->
  In p rows /\ p_order_id p = o /\ p_status p = PPending /\ p_type p = t.
Proof.
  intros H. apply findOne_some in H. destruct H as [Hin Hp]. split; [exact Hin|].
  unfold pending_for in Hp. apply andb_prop in Hp. destruct Hp as [Hp Ht].
  apply andb_prop in Hp. destruct Hp as [Ho Hs].
  apply Z.eqb_eq in Ho. apply pstatus_eqb_eq in Hs.
  destruct (p_type p), t; try discriminate; tauto.
Qed.

Lemma save_in_order (o u : Z) (t : PaymentType) (a : Q) (m : PaymentMethod) (no : string)
    (w : World) :
  Cover.payments_in_order (db w) ->
  Cover.payments_in_order
    (db (snd (save (Table.findOne (pending_for o t) (payments (db w))) o u a m no t w))).
Proof.
  intros [Hnd Hone]. unfold save, Cover.payments_in_order.
  destruct (Table.findOne _ (payments (db w))) as [p|] eqn:Hf;
    cbn [snd db on_db set_payments payments].
  - destruct (pending_for_found _ _ _ _ Hf) as (Hin & Ho & Hs & Ht).
    split; [rewrite update_ids by reflexivity; exact Hnd|].
    intros o' t'. rewrite pending_count_same_class; [apply Hone|exact Hnd|exact Hin|].
    unfold pending_for. cbn [set_paymentData p_order_id p_status p_type].
    rewrite Ho, Hs, Ht. reflexivity.
  - split; [apply NoDup_create; [exact Hnd|reflexivity]|].
    intros o' t'. rewrite pending_count_app.
    unfold pending_count at 2. cbn [filter].
    destruct (pending_for o' t' _) eqn:E; cbn [List.length]; [|specialize (Hone o' t'); lia].
    unfold pending_for in E. cbn [p_order_id p_status p_type] in E.
    apply andb_prop in E. destruct E as [E Et]. apply andb_prop in E. destruct E as [Eo _].
    apply Z.eqb_eq in Eo. subst o'.
    assert (t' = t) by (destruct t, t'; try discriminate; reflexivity). subst t'.
    rewrite (pending_count_none o t _ Hf). lia.
Qed.

Lemma failed_in_order (payment : option Payment) (message : string) (w : World) :
  Cover.payments_in_order (db w) ->
  Cover.payments_in_order (db (snd (failed payment message w))).
Proof.
  apply settles_payments_in_order. unfold failed. cbn [snd].
  destruct payment as [p|]; [destruct (negb (p_id p =? 0))|]; settled_payments.
Qed.

Lemma createPayment_in_order cat js req w :
  Cover.payments_in_order (db w) ->
  Cover.payments_in_order (db (snd (fst (createPayment cat js req w)))).
Proof.
  intros H. unfold createPayment.
  destruct (Table.findOne _ (orders (db w))) as [order|]; [|exact H].
  destruct (negb (o_user_id order =? cr_user_id req)); [exact H|].
  destruct (priced cat order _) as [[[ptype amount] description]|message]; [|exact H].
  destruct (String.eqb _ "wechat").
  - destruct (js _) as [result|message]; [|apply failed_in_order, H].
    destruct (negb (js_success result)); [apply failed_in_order, H|].
    pose proof (save_in_order (cr_order_id req) (cr_user_id req) ptype amount Wechat
                  (match Table.findOne (pending_for (cr_order_id req) ptype) (payments (db w))
                   with Some p => p_out_trade_no p | None => cr_fresh_no req end) w H) as Hs.
    destruct (save _ _ _ _ _ _ _ w) as [row w']. exact Hs.
  - destruct (String.eqb _ "test"); [|exact H].
    pose proof (save_in_order (cr_order_id req) (cr_user_id req) ptype amount TestPay
                  (match Table.findOne (pending_for (cr_order_id req) ptype) (payments (db w))
                   with Some p => p_out_trade_no p | None => cr_fresh_no req end) w H) as Hs.
    destruct (save _ _ _ _ _ _ _ w) as [row w']. exact Hs.
Qed.

End CheckoutHandlers.

(** X25. [createPayment] turns a request away without any effect: every
    reply with a code other than 500 is a 404 (unknown order), a 403
    (order of another user) or a 400 (order not in the state the payment
    type requires, amount not configured or not positive, unknown type or
    method); the database is left as it was and nothing is asked of the
    gateway. *)
Theorem createPayment_rejects_without_effect (cat : Checkout.Catalog)
    (js : Checkout.JsapiOrder -> Checkout.JsapiResult + string)
    (req : Checkout.CreateReq) (w : World) (message : string) (code : Z) :
  fst (fst (Checkout.createPayment cat js req w)) = Checkout.Rejected message code ->
  code <> 500 ->
  Checkout.createPayment cat js req w = (Checkout.Rejected message code, w, [])
  /\ (code = 404 \/ code = 403 \/ code = 400).
Proof.
  unfold Checkout.createPayment, Checkout.failed.
  destruct (Table.findOne _ (orders (db w))) as [order|].
  2:{ cbn. intros H _. injection H as <- <-. tauto. }
  destruct (negb (o_user_id order =? Checkout.cr_user_id req)).
  { cbn. intros H _. injection H as <- <-. tauto. }
  destruct (Checkout.priced cat order _) as [[[ptype amount] description]|m].
  2:{ cbn. intros H _. injection H as <- <-. tauto. }
  destruct (String.eqb _ "wechat").
  - destruct (js _) as [result|m]; [destruct (negb (Checkout.js_success result))|];
      try (cbn; intros H Hc; injection H as _ <-; congruence).
    destruct (Checkout.save _ _ _ _ _ _ _ w) as [row w']. discriminate.
  - destruct (String.eqb _ "test").
    + destruct (Checkout.save _ _ _ _ _ _ _ w) as [row w']. discriminate.
    + cbn. intros H _. injection H as <- <-. tauto.
Qed.

Lemma createPayment_rejects_without_effect_witness :
  fst (fst (Checkout.createPayment Cover.catalog Cover.jsapi_ok
              (Checkout.mkCreateReq 8 3 None None None "PAY4" "soon")
              (mkWorld Cover.prepay_ledger [])))
  = Checkout.Rejected "无权限支付此工单" 403
  /\ Checkout.createPayment Cover.catalog Cover.jsapi_ok
       (Checkout.mkCreateReq 8 3 None None None "PAY4" "soon") (mkWorld Cover.prepay_ledger [])
     = (Checkout.Rejected "无权限支付此工单" 403, mkWorld Cover.prepay_ledger [], []).
Proof.
  assert (H : 403 <> 500) by lia.
  split; [reflexivity|].
  exact (proj1 (createPayment_rejects_without_effect Cover.catalog Cover.jsapi_ok
                  (Checkout.mkCreateReq 8 3 None None None "PAY4" "soon")
                  (mkWorld Cover.prepay_ledger []) "无权限支付此工单" 403 eq_refl H)).
Defined.

Section Overlap.
Import Checkout.

(** Serving a [createPayment] call in one go is running its two halves
    back to back. *)
Lemma createPayment_cut cat js req w :
  createPayment cat js req w
  = match createPayment_begin cat req w with
    | inl (r, w') => (r, w', [])
    | inr pl => (createPayment_resume (js (pl_order_data pl)) pl w, [pl_order_data pl])
    end.
Proof.
  unfold createPayment, createPayment_begin, createPayment_resume.
  destruct (Table.findOne _ (orders (db w))) as [order|]; [|reflexivity].
  destruct (negb (o_user_id order =? cr_user_id req)); [reflexivity|].
  destruct (priced cat order _) as [[[ptype amount] description]|message]; [|reflexivity].
  destruct (String.eqb _ "wechat").
  - cbn [pl_order_data pl_payment pl_order_id pl_user_id pl_amount pl_out_trade_no pl_type].
    destruct (js _) as [result|message]; [|reflexivity].
    destruct (negb (js_success result)); [reflexivity|].
    destruct (save _ _ _ _ _ _ _ w) as [row w']. reflexivity.
  - destruct (String.eqb _ "test"); [|reflexivity].
    destruct (save _ _ _ _ _ _ _ w) as [row w']. reflexivity.
Qed.

(** What a suspended call closes over. *)
Lemma begin_placed cat req w pl :
  createPayment_begin cat req w = inr pl ->
  pl_order_id pl = cr_order_id req
  /\ pl_user_id pl = cr_user_id req
  /\ pl_payment pl
     = Table.findOne (pending_for (pl_order_id pl) (pl_type pl)) (payments (db w)).
Proof.
  unfold createPayment_begin.
  destruct (Table.findOne _ (orders (db w))) as [order|]; [|discriminate].
  destruct (negb (o_user_id order =? cr_user_id req)); [discriminate|].
  destruct (priced cat order _) as [[[ptype amount] description]|message]; [|discriminate].
  destruct (String.eqb _ "wechat").
  - intros H. injection H as <-. repeat split.
  - destruct (String.eqb _ "test"); [|discriminate].
    destruct (save _ _ _ _ _ _ _ w) as [row w']. discriminate.
Qed.

(** A call that found no pending payment creates one when the gateway
    has taken the order, whatever the table holds by then. *)
Lemma resume_creates (r : JsapiResult) (pl : Placed) (w : World) :
  js_success r = true -> pl_payment pl = None ->
  exists row,
    payments (db (snd (createPayment_resume (inl r) pl w)))
    = (payments (db w) ++ [row])%list
    /\ pending_for (pl_order_id pl) (pl_type pl) row = true.
Proof.
  intros Hs Hp. unfold createPayment_resume, save. rewrite Hs, Hp.
  cbn [negb snd db on_db set_payments payments].
  eexists. split; [reflexivity|].
  unfold pending_for. cbn [p_order_id p_status p_type pstatus_eqb].
  rewrite Z.eqb_refl. destruct (pl_type pl); reflexivity.
Qed.

Lemma overlapping_calls_both_create cat req req' w pl pl' r r' :
  createPayment_begin cat req w = inr pl ->
  createPayment_begin cat req' w = inr pl' ->
  pl_order_id pl' = pl_order_id pl -> pl_type pl' = pl_type pl ->
  pl_payment pl = None ->
  js_success r = true -> js_success r' = true ->
  let w1 := snd (createPayment_resume (inl r) pl w) in
  let w2 := snd (createPayment_resume (inl r') pl' w1) in
  pending_count (pl_order_id pl) (pl_type pl) (payments (db w2)) = 2%nat.
Proof.
  intros Hb Hb' Ho Ht Hnone Hs Hs'. cbv zeta.
  destruct (begin_placed cat req w pl Hb) as (_ & _ & Hf).
  destruct (begin_placed cat req' w pl' Hb') as (_ & _ & Hf').
  assert (Hnone' : pl_payment pl' = None) by (rewrite Hf', Ho, Ht, <- Hf; exact Hnone).
  destruct (resume_creates r pl w Hs Hnone) as (row & Hrows & Hrow).
  destruct (resume_creates r' pl' (snd (createPayment_resume (inl r) pl w)) Hs' Hnone')
    as (row' & Hrows' & Hrow').
  rewrite Hrows', Hrows, !pending_count_app.
  rewrite (pending_count_none (pl_order_id pl) (pl_type pl) (payments (db w)))
    by (rewrite <- Hf; exact Hnone).
  rewrite Ho, Ht in Hrow'.
  unfold pending_count. cbn [filter]. rewrite Hrow, Hrow'. reflexivity.
Qed.

End Overlap.

(** X26. Served one request at a time, the payment handlers keep the
    primary keys unique and at most one [pending] payment per order and
    payment type: [createPayment] (which reuses the pending payment it
    finds), [confirmTestPayment], [wechatNotify] and [queryPayment], each
    run from start to end, preserve both.  Overlapping calls are another
    matter: [createPayment] looks for a pending payment before it asks the
    gateway and saves one afterwards, so two calls for the same order and
    type that both start before either is answered, on an order without a
    pending payment, leave two pending payments once the gateway has
    taken both orders. *)
Theorem one_pending_payment_per_order (cat : Checkout.Catalog)
    (js : Checkout.JsapiOrder -> Checkout.JsapiResult + string)
    (creq : Checkout.CreateReq) (freq : Checkout.ConfirmReq)
    (c : Service.Crypto PaymentCtl.PaymentNotice) (nreq : PaymentCtl.NotifyReq)
    (gw : Gateway) (qreq : PaymentCtl.QueryReq) (w : World) :
  Cover.payments_in_order (db w) ->
  Cover.payments_in_order (db (snd (fst (Checkout.createPayment cat js creq w))))
  /\ Cover.payments_in_order (db (snd (Checkout.confirmTestPayment freq w)))
  /\ Cover.payments_in_order (db (snd (PaymentCtl.wechatNotify c nreq w)))
  /\ Cover.payments_in_order (db (snd (PaymentCtl.queryPayment gw qreq w)))
  /\ Checkout.createPayment cat js creq w
     = match Checkout.createPayment_begin cat creq w with
       | inl (r, w') => (r, w', [])
       | inr pl => (Checkout.createPayment_resume (js (Checkout.pl_order_data pl)) pl w,
                    [Checkout.pl_order_data pl])
       end
  /\ (forall creq' pl pl' r r',
        Checkout.createPayment_begin cat creq w = inr pl ->
        Checkout.createPayment_begin cat creq' w = inr pl' ->
        Checkout.pl_order_id pl' = Checkout.pl_order_id pl ->
        Checkout.pl_type pl' = Checkout.pl_type pl ->
        Checkout.pl_payment pl = None ->
        Checkout.js_success r = true -> Checkout.js_success r' = true ->
        let w1 := snd (Checkout.createPayment_resume (inl r) pl w) in
        let w2 := snd (Checkout.createPayment_resume (inl r') pl' w1) in
        Checkout.pending_count (Checkout.pl_order_id pl) (Checkout.pl_type pl)
          (payments (db w2)) = 2%nat
        /\ ~ Cover.payments_in_order (db w2)).
Proof.
  intros H. split; [apply createPayment_in_order, H|].
  split; [exact (settles_payments_in_order _ _ (confirmTestPayment_settles_payments freq w) H)|].
  split; [exact (settles_payments_in_order _ _ (wechatNotify_settles_payments c nreq w) H)|].
  split; [exact (settles_payments_in_order _ _ (queryPayment_settles_payments gw qreq w) H)|].
  split; [apply createPayment_cut|].
  intros creq' pl pl' r r' Hb Hb' Ho Ht Hnone Hs Hs'.
  pose proof (overlapping_calls_both_create cat creq creq' w pl pl' r r'
                Hb Hb' Ho Ht Hnone Hs Hs') as Htwo.
  cbv zeta in *. split; [exact Htwo|].
  intros [_ Hone]. specialize (Hone (Checkout.pl_order_id pl) (Checkout.pl_type pl)).
  rewrite Htwo in Hone. lia.
Qed.

Lemma one_pending_payment_per_order_witness :
  Cover.payments_in_order (db (mkWorld Cover.unpaid_ledger []))
  /\ Cover.payments_in_order
       (db (snd (fst (Checkout.createPayment Cover.catalog Cover.jsapi_ok
                        Cover.wechat_checkout (mkWorld Cover.unpaid_ledger [])))))
  /\ exists pl pl',
       Checkout.createPayment_begin Cover.catalog Cover.wechat_checkout
         (mkWorld Cover.unpaid_ledger []) = inr pl
       /\ Checkout.createPayment_begin Cover.catalog Cover.wechat_checkout'
            (mkWorld Cover.unpaid_ledger []) = inr pl'
       /\ Checkout.pending_count 3 Prepay
            (payments
               (db (snd (Checkout.createPayment_resume
                           (Cover.jsapi_ok (Checkout.pl_order_data pl')) pl'
                           (snd (Checkout.createPayment_resume
                                   (Cover.jsapi_ok (Checkout.pl_order_data pl)) pl
                                   (mkWorld Cover.unpaid_ledger [])))))))
          = 2%nat.
Proof.
  assert (H : Cover.payments_in_order (db (mkWorld Cover.unpaid_ledger []))).
  { split; [constructor|]. intros o t. cbn. lia. }
  pose proof (one_pending_payment_per_order Cover.catalog Cover.jsapi_ok
                Cover.wechat_checkout (Checkout.mkConfirmReq "PAY3" 7 0)
                (Sample.crypto_ok Cover.prepay_notice) Sample.notify_req
                Sample.gw_ok Cover.prepay_query (mkWorld Cover.unpaid_ledger []) H)
    as (H1 & _ & _ & _ & _ & H6).
  split; [exact H|]. split; [exact H1|].
  eexists. eexists. split; [reflexivity|]. split; [reflexivity|].
  exact (proj1 (H6 Cover.wechat_checkout' _ _
                  (Checkout.mkJsapiResult true None (Some "prepay-1") "{}")
                  (Checkout.mkJsapiResult true None (Some "prepay-1") "{}")
                  eq_refl eq_refl eq_refl eq_refl eq_refl eq_refl eq_refl)).
Defined.

Section Saving.
Import PaymentCtl Checkout.

Lemma save_row (o u : Z) (t : PaymentType) (a : Q) (m : PaymentMethod) (no : string)
    (w : World) (payment : option Payment) :
  (forall p, payment = Some p -> In p (payments (db w))) ->
  let row := fst (save payment o u a m no t w) in
  let w' := snd (save payment o u a m no t w) in
  In row (payments (db w'))
  /\ (p_order_id row, p_user_id row, p_amount row, p_payment_method row, p_out_trade_no row,
      p_type row, p_status row)
     = (o, u, a, m, no, t, PPending)
  /\ orders (db w') = orders (db w)
  /\ gateway_calls w' = gateway_calls w.
Proof.
  intros Hin. cbv zeta. unfold save. destruct payment as [p|]; cbn [fst snd].
  - split; [|repeat split].
    cbn [db on_db set_payments payments].
    apply (In_update_hit (set_paymentData o u a m no t) (fun x => p_id x =? p_id p)
             (payments (db w)) p (Hin p eq_refl)).
    apply Z.eqb_refl.
  - split; [|repeat split].
    cbn [db on_db set_payments payments]. apply in_or_app. right. left. reflexivity.
Qed.

End Saving.

(** X27. A payment [createPayment] answers with was priced by the
    server: the reply names a [pending] payment of the caller for the
    caller's own order, whose amount is positive and is the prepayment
    amount of the order's service type (order in [pending_payment]) or
    the order's final amount (order in [pending_repair_payment]); the
    request has no say in the amount.  The orders are not written, and a
    test payment asks nothing of the gateway. *)
Theorem createPayment_amount_is_priced (cat : Checkout.Catalog)
    (js : Checkout.JsapiOrder -> Checkout.JsapiResult + string)
    (req : Checkout.CreateReq) (w : World) (id : Z) (no : string) (amount : Q) :
  (exists pay_params,
      fst (fst (Checkout.createPayment cat js req w))
      = Checkout.WechatCreated id no amount pay_params)
  \/ fst (fst (Checkout.createPayment cat js req w)) = Checkout.TestCreated id no amount ->
  let w' := snd (fst (Checkout.createPayment cat js req w)) in
  (fst (fst (Checkout.createPayment cat js req w)) = Checkout.TestCreated id no amount ->
   snd (Checkout.createPayment cat js req w) = [])
  /\ exists order row,
    Table.findOne (fun o => o_id o =? Checkout.cr_order_id req) (orders (db w)) = Some order
    /\ o_user_id order = Checkout.cr_user_id req
    /\ In row (payments (db w'))
    /\ (p_id row, p_out_trade_no row, p_amount row) = (id, no, amount)
    /\ (p_order_id row, p_user_id row, p_status row)
       = (Checkout.cr_order_id req, Checkout.cr_user_id req, PPending)
    /\ (0 < amount)%Q
    /\ (p_type row = Prepay /\ o_status order = "pending_payment"
        /\ (exists i s,
              Checkout.od_service_type_id (Checkout.details cat (o_id order)) = Some i
              /\ Table.findOne (fun s => Checkout.st_id s =? i) (Checkout.service_types cat)
                 = Some s
              /\ Checkout.st_prepay_amount s = Some amount)
        \/ p_type row = Repair /\ o_status order = "pending_repair_payment"
           /\ Checkout.od_final_amount (Checkout.details cat (o_id order)) = Some amount)
    /\ orders (db w') = orders (db w)
    /\ gateway_calls w' = gateway_calls w.
Proof.
  cbv zeta. unfold Checkout.createPayment, Checkout.failed.
  destruct (Table.findOne _ (orders (db w))) as [order|] eqn:Hord.
  2:{ intros [[pp H]|H]; discriminate. }
  destruct (o_user_id order =? Checkout.cr_user_id req) eqn:Hu; cbn [negb].
  2:{ intros [[pp H]|H]; discriminate. }
  apply Z.eqb_eq in Hu.
  destruct (Checkout.priced cat order _) as [[[ptype a] description]|m] eqn:Hp.
  2:{ intros [[pp H]|H]; discriminate. }
  apply priced_ok in Hp. destruct Hp as [Hpos Hp].
  set (found := Table.findOne (Checkout.pending_for (Checkout.cr_order_id req) ptype)
                  (payments (db w))).
  set (no0 := match found with
              | Some p => p_out_trade_no p
              | None => Checkout.cr_fresh_no req
              end).
  assert (Hfound : forall p, found = Some p -> In p (payments (db w))).
  { intros p H. apply findOne_some in H. tauto. }
  assert (Hsave : forall m row w',
            Checkout.save found (Checkout.cr_order_id req) (Checkout.cr_user_id req) a m
              no0 ptype w = (row, w') ->
            (p_id row, p_out_trade_no row, p_amount row) = (id, no, amount) ->
            exists order0 row0,
              Some order = Some order0
              /\ o_user_id order0 = Checkout.cr_user_id req
              /\ In row0 (payments (db w'))
              /\ (p_id row0, p_out_trade_no row0, p_amount row0) = (id, no, amount)
              /\ (p_order_id row0, p_user_id row0, p_status row0)
                 = (Checkout.cr_order_id req, Checkout.cr_user_id req, PPending)
              /\ (0 < amount)%Q
              /\ (p_type row0 = Prepay /\ o_status order0 = "pending_payment"
                  /\ (exists i s,
                        Checkout.od_service_type_id (Checkout.details cat (o_id order0)) = Some i
                        /\ Table.findOne (fun s => Checkout.st_id s =? i)
                             (Checkout.service_types cat) = Some s
                        /\ Checkout.st_prepay_amount s = Some amount)
                  \/ p_type row0 = Repair /\ o_status order0 = "pending_repair_payment"
                     /\ Checkout.od_final_amount (Checkout.details cat (o_id order0))
                        = Some amount)
              /\ orders (db w') = orders (db w)
              /\ gateway_calls w' = gateway_calls w).
  { intros m row w' Hs Hrow.
    pose proof (save_row (Checkout.cr_order_id req) (Checkout.cr_user_id req) ptype a m no0 w
                  found Hfound) as H.
    cbv zeta in H. rewrite Hs in H. cbn [fst snd] in H.
    destruct H as (Hin & Hcols & Ho & Hg).
    injection Hcols as H1 H2 H3 H4 H5 H6 H7. injection Hrow as R1 R2 R3.
    assert (Ea : p_amount row = a) by congruence.
    assert (Eb : amount = a) by congruence. clear R3 H3. subst amount.
    exists order, row.
    split; [reflexivity|]. split; [exact Hu|]. split; [exact Hin|].
    split; [congruence|]. split; [congruence|]. split; [exact Hpos|].
    split; [|split; assumption].
    destruct Hp as [(_ & Ht & Hst & Hsv)|(_ & Ht & Hst & Hfa)]; [left|right];
      (split; [congruence|split; assumption]). }
  destruct (String.eqb _ "wechat").
  - destruct (js _) as [result|m]; [destruct (negb (Checkout.js_success result))|];
      try (intros [[pp H]|H]; discriminate).
    destruct (Checkout.save _ _ _ _ _ _ _ w) as [row w'] eqn:Hs. cbn [fst snd].
    intros [[pp H]|H]; [|discriminate]. split; [discriminate|].
    injection H as H1 H2 H3 _. apply (Hsave Wechat row w' Hs). congruence.
  - destruct (String.eqb _ "test"); [|intros [[pp H]|H]; discriminate].
    destruct (Checkout.save _ _ _ _ _ _ _ w) as [row w'] eqn:Hs. cbn [fst snd].
    intros [[pp H]|H]; [discriminate|]. split; [reflexivity|].
    injection H as H1 H2 H3. apply (Hsave TestPay row w' Hs). congruence.
Qed.

Lemma createPayment_amount_is_priced_witness :
  fst (fst (Checkout.createPayment Cover.catalog Cover.jsapi_ok Cover.test_checkout
              (mkWorld Cover.unpaid_ledger [])))
  = Checkout.TestCreated 1 "PAY4" (3000 # 100)
  /\ exists order row,
       Table.findOne (fun o => o_id o =? Checkout.cr_order_id Cover.test_checkout)
         (orders (db (mkWorld Cover.unpaid_ledger []))) = Some order
       /\ o_user_id order = Checkout.cr_user_id Cover.test_checkout
       /\ In row (payments (db (snd (fst (Checkout.createPayment Cover.catalog Cover.jsapi_ok
                                            Cover.test_checkout
                                            (mkWorld Cover.unpaid_ledger []))))))
       /\ (p_id row, p_out_trade_no row, p_amount row) = (1, "PAY4", 3000 # 100).
Proof.
  split; [reflexivity|].
  destruct (createPayment_amount_is_priced Cover.catalog Cover.jsapi_ok Cover.test_checkout
              (mkWorld Cover.unpaid_ledger []) 1 "PAY4" (3000 # 100)
              (or_intror eq_refl))
    as (_ & order & row & H1 & H2 & H3 & H4 & _).
  exists order, row. repeat split; assumption.
Defined.

Section Failing.
Import Checkout.

Lemma utf8_bytes_pair (c : ascii) :
  (N_of_ascii c <? 240)%N = false -> JS.utf8_bytes c = 4%nat /\ JS.utf16_units c = 2%nat.
Proof.
  intros H. unfold JS.utf8_bytes, JS.utf16_units. rewrite H.
  apply N.ltb_ge in H.
  destruct (N.ltb_spec (N_of_ascii c) 192); [lia|].
  destruct (N.ltb_spec (N_of_ascii c) 224); [lia|].
  split; reflexivity.
Qed.

Lemma utf16_units_single (c : ascii) :
  (N_of_ascii c <? 240)%N = true -> JS.utf16_units c = 1%nat.
Proof. intros H. unfold JS.utf16_units. rewrite H. reflexivity. Qed.

(** [take_units n] yields at most [n] code units. *)
Lemma units_take_units (s : string) (n skip : nat) :
  (JS.units_after skip (JS.take_units n skip s) <= n)%nat.
Proof.
  revert n skip. induction s as [|c s IH]; intros n skip; cbn [JS.take_units].
  - cbn. lia.
  - destruct skip as [|k]; [|cbn [JS.units_after]; apply IH].
    destruct n as [|m]; [cbn; lia|].
    destruct (N_of_ascii c <? 240)%N eqn:Hc.
    + cbn [JS.units_after]. rewrite (utf16_units_single c Hc).
      specialize (IH m (JS.utf8_bytes c - 1)%nat). lia.
    + destruct (utf8_bytes_pair c Hc) as [Hb Hu].
      destruct m as [|m']; [vm_compute; lia|].
      cbn [JS.units_after]. rewrite Hb, Hu. cbn [Nat.sub].
      specialize (IH m' 3%nat). lia.
Qed.

(** A string of at most [n] code units is left whole. *)
Lemma take_units_whole (s : string) (n skip : nat) :
  (JS.units_after skip s <= n)%nat -> JS.take_units n skip s = s.
Proof.
  revert n skip. induction s as [|c s IH]; intros n skip H; [reflexivity|].
  cbn [JS.take_units JS.units_after] in *.
  destruct skip as [|k]; [|rewrite (IH n k H); reflexivity].
  destruct (N_of_ascii c <? 240)%N eqn:Hc.
  - rewrite (utf16_units_single c Hc) in H.
    destruct n as [|m]; [lia|].
    rewrite (IH m (JS.utf8_bytes c - 1)%nat) by lia. reflexivity.
  - destruct (utf8_bytes_pair c Hc) as [Hb Hu]. rewrite Hb, Hu in H. cbn [Nat.sub] in H.
    destruct n as [|[|m']]; [lia|lia|].
    rewrite (IH m' 3%nat) by lia. reflexivity.
Qed.

(** Within the basic plane the result is a prefix, byte for byte. *)
Lemma take_units_prefix (s : string) (n skip : nat) :
  Cover.bmp s = true -> exists rest, s = JS.take_units n skip s ++ rest.
Proof.
  revert n skip. induction s as [|c s IH]; intros n skip H.
  - exists "". reflexivity.
  - cbn [Cover.bmp] in H. apply andb_prop in H. destruct H as [Hc Hs].
    cbn [JS.take_units].
    destruct skip as [|k].
    + destruct n as [|m]; [exists (String c s); reflexivity|].
      rewrite Hc. destruct (IH m (JS.utf8_bytes c - 1)%nat Hs) as [rest Hr].
      exists rest. cbn [append]. rewrite <- Hr. reflexivity.
    + destruct (IH n k Hs) as [rest Hr].
      exists rest. cbn [append]. rewrite <- Hr. reflexivity.
Qed.

(** Code units are counted, not bytes: the text [createJsapiOrder] puts
    in front of its messages is eight characters of three bytes each. *)
Example substring0_counts_code_units :
  JS.units "微信支付下单失败: " = 10%nat
  /\ String.length "微信支付下单失败: " = 26%nat
  /\ JS.substring0 4 "微信支付下单失败: " = "微信支付".
Proof. repeat split. Qed.

Lemma failed_effect (payment : option Payment) (m0 : string) (w : World) :
  fst (failed payment m0 w) = Rejected (JS.or_str (Some m0) "支付创建失败") 500
  /\ match payment with
     | None => snd (failed payment m0 w) = w
     | Some p =>
         p_id p <> 0 ->
         snd (failed payment m0 w)
         = on_db (set_payments
                    (Table.update (set_failed (JS.substring0 250 m0))
                       (fun x => p_id x =? p_id p))) w
         /\ (In p (payments (db w)) ->
             In (set_failed (JS.substring0 250 m0) p)
                (payments (db (snd (failed payment m0 w)))))
     end.
Proof.
  unfold failed. cbn [fst snd]. split; [reflexivity|].
  destruct payment as [p|]; [|reflexivity].
  intros Hid. apply Z.eqb_neq in Hid. rewrite Hid. cbn [negb].
  split; [reflexivity|]. intros Hin.
  cbn [db on_db set_payments payments].
  apply (In_update_hit (set_failed (JS.substring0 250 m0))
           (fun x => p_id x =? p_id p) (payments (db w)) p Hin).
  apply Z.eqb_refl.
Qed.

(** What the [catch] of [createPayment] does with the message thrown. *)
Lemma failed_reason_effect (payment : option Payment) (m0 : string) (w : World) :
  match payment with
  | None => snd (failed payment m0 w) = w
  | Some p =>
      p_id p <> 0 ->
      exists reason,
        reason = JS.substring0 250 m0
        /\ (JS.units reason <= 250)%nat
        /\ ((JS.units m0 <= 250)%nat -> reason = m0)
        /\ (Cover.bmp m0 = true -> exists rest, m0 = reason ++ rest)
        /\ snd (failed payment m0 w)
           = on_db (set_payments
                      (Table.update (set_failed reason) (fun x => p_id x =? p_id p))) w
        /\ (In p (payments (db w)) ->
            In (set_failed reason p) (payments (db (snd (failed payment m0 w)))))
  end.
Proof.
  pose proof (failed_effect payment m0 w) as [_ H].
  destruct payment as [p|]; [|exact H].
  intros Hid. destruct (H Hid) as [Hw Hin].
  exists (JS.substring0 250 m0). split; [reflexivity|].
  split; [apply units_take_units|].
  split; [apply take_units_whole|].
  split; [apply take_units_prefix|].
  split; [exact Hw|exact Hin].
Qed.

End Failing.

(** X28. When the gateway does not take the order, [createPayment]
    answers 500 after handing the gateway exactly one order for the priced
    amount.  The message of the answer is the message thrown (what
    [createJsapiOrder] threw, or the [error] of its result, or a fixed
    text), replaced by a fixed text when empty, so it is never empty.  If
    the order had no [pending] payment of that type, nothing is written.
    If it had one (it would have been reused), that payment is marked
    [failed] with [message.substring(0, 250)] of the message thrown as
    reason: at most 250 UTF-16 code units, the whole message when it has
    no more, and a prefix of it when it has no character outside the
    basic plane. *)
Theorem createPayment_gateway_failure (cat : Checkout.Catalog)
    (js : Checkout.JsapiOrder -> Checkout.JsapiResult + string)
    (req : Checkout.CreateReq) (w : World) (message : string) :
  fst (fst (Checkout.createPayment cat js req w)) = Checkout.Rejected message 500 ->
  let w' := snd (fst (Checkout.createPayment cat js req w)) in
  message <> ""
  /\ exists order ptype amount description order_data thrown,
       Table.findOne (fun o => o_id o =? Checkout.cr_order_id req) (orders (db w)) = Some order
       /\ Checkout.priced cat order (Checkout.default (Checkout.cr_type req) "prepay")
          = inl (ptype, amount, description)
       /\ snd (Checkout.createPayment cat js req w) = [order_data]
       /\ Checkout.jo_amount order_data = amount
       /\ Checkout.jo_description order_data = description
       /\ Cover.thrown_message js order_data = Some thrown
       /\ message = JS.or_str (Some thrown) "支付创建失败"
       /\ match Table.findOne (Checkout.pending_for (Checkout.cr_order_id req) ptype)
                  (payments (db w)) with
          | None => w' = w
          | Some p =>
              p_id p <> 0 ->
              exists reason,
                reason = JS.substring0 250 thrown
                /\ (JS.units reason <= 250)%nat
                /\ ((JS.units thrown <= 250)%nat -> reason = thrown)
                /\ (Cover.bmp thrown = true -> exists rest, thrown = reason ++ rest)
                /\ w' = on_db (set_payments
                                 (Table.update (Checkout.set_failed reason)
                                    (fun x => p_id x =? p_id p))) w
                /\ (In p (payments (db w)) ->
                    In (Checkout.set_failed reason p) (payments (db w')))
          end.
Proof.
  cbv zeta. unfold Checkout.createPayment, Cover.thrown_message.
  destruct (Table.findOne _ (orders (db w))) as [order|] eqn:Hord; [|discriminate].
  destruct (negb (o_user_id order =? Checkout.cr_user_id req)); [discriminate|].
  destruct (Checkout.priced cat order _) as [[[ptype a] description]|m] eqn:Hp;
    [|discriminate].
  destruct (String.eqb _ "wechat").
  - destruct (js _) as [result|m] eqn:Hjs;
      [destruct (Checkout.js_success result) eqn:Hsucc; cbn [negb]|].
    1:{ destruct (Checkout.save _ _ _ _ _ _ _ w) as [row w']. discriminate. }
    all: match goal with
         | |- context [Checkout.failed ?found ?m0 ?w0] =>
             destruct (failed_effect found m0 w0) as [Hr _];
             pose proof (failed_reason_effect found m0 w0) as Hw;
             cbn [fst snd]; rewrite Hr;
             intros H; injection H as <-;
             (split;
              [match goal with
               | |- (if ?c then _ else _) <> _ =>
                   destruct c eqn:Ec; [discriminate|apply String.eqb_neq in Ec; exact Ec]
               end|]);
             exists order, ptype, a, description; eexists; exists m0;
             (split; [reflexivity|]); (split; [exact Hp|]);
             (split; [reflexivity|]); cbn [Checkout.jo_amount Checkout.jo_description];
             (split; [reflexivity|]); (split; [reflexivity|]);
             rewrite Hjs; try rewrite Hsucc;
             (split; [reflexivity|]); (split; [reflexivity|]); exact Hw
         end.
  - destruct (String.eqb _ "test"); [|discriminate].
    destruct (Checkout.save _ _ _ _ _ _ _ w) as [row w']. discriminate.
Qed.

Lemma createPayment_gateway_failure_witness :
  fst (fst (Checkout.createPayment Cover.catalog Cover.jsapi_down
              (Checkout.mkCreateReq 7 3 None None None "PAY4" "soon")
              (mkWorld Cover.prepay_ledger [])))
  = Checkout.Rejected "微信支付下单失败: connect ETIMEDOUT" 500
  /\ "微信支付下单失败: connect ETIMEDOUT" <> "".
Proof.
  split; [reflexivity|].
  exact (proj1 (createPayment_gateway_failure Cover.catalog Cover.jsapi_down
                  (Checkout.mkCreateReq 7 3 None None None "PAY4" "soon")
                  (mkWorld Cover.prepay_ledger [])
                  "微信支付下单失败: connect ETIMEDOUT" eq_refl)).
Defined.

Section TestCheckout.
Import PaymentCtl Checkout.




End TestCheckout.

(** ** The status route *)

(** X30. The status route is open.  [authenticateToken] lets every
    request for the path [/withdrawal/status] through as user 53, whether
    it carries a token or not and whatever the token is, so the route
    [GET /withdrawal/status] serves (and may settle) the withdrawals of
    user 53 for anyone.  On every other path a request gets through only
    with a token taken from the second field of the authorization header
    that [jwt.verify] accepts, for an existing user who is not banned,
    and as that user; the blacklist stops a token only while redis
    answers: when redis fails the check is skipped. *)
Theorem status_route_is_open (env : Auth.AuthEnv) (gw : Gateway) (req : Auth.AuthReq)
    (q : Auth.StatusParams) (w : World) :
  (Auth.path req = "/withdrawal/status" ->
   Auth.authenticateToken env req = Auth.Proceed 53
   /\ Auth.status_route env gw req q w
      = (Auth.Handled
           (fst (queryWithdrawalStatus gw
                   (mkStatusQuery (Some 53) (Auth.sp_withdrawal_id q) (Auth.sp_out_batch_no q)
                      (Auth.sp_now q)) w)),
         snd (queryWithdrawalStatus gw
                (mkStatusQuery (Some 53) (Auth.sp_withdrawal_id q) (Auth.sp_out_batch_no q)
                   (Auth.sp_now q)) w)))
  /\ (Auth.path req <> "/withdrawal/status" ->
      forall user_id, Auth.authenticateToken env req = Auth.Proceed user_id ->
        exists token id user,
          Auth.token_of (Auth.authorization req) = Some token
          /\ (forall v, Auth.redis_get env ("blacklist:" ++ token) = Auth.RedisValue v ->
                JS.truthy_str v = false)
          /\ Auth.jwt_verify env token = Auth.Decoded id
          /\ Auth.User_findById env id = Some user
          /\ Auth.au_id user = user_id
          /\ Auth.au_status user <> "banned")
  /\ (Auth.path req <> "/withdrawal/status" ->
      forall token,
        Auth.token_of (Auth.authorization req) = Some token ->
        Auth.redis_get env ("blacklist:" ++ token) = Auth.RedisError ->
        Auth.authenticateToken env req
        = Auth.authenticateToken
            (Auth.mkAuthEnv (fun _ => Auth.RedisValue None) (Auth.jwt_verify env)
               (Auth.User_findById env))
            req).
Proof.
  split; [|split].
  - intros Hp. unfold Auth.status_route, Auth.authenticateToken. rewrite Hp.
    cbn [String.eqb Ascii.eqb Bool.eqb]. split; reflexivity.
  - intros Hp user_id. unfold Auth.authenticateToken.
    apply String.eqb_neq in Hp. rewrite Hp.
    destruct (Auth.token_of (Auth.authorization req)) as [token|]; [|discriminate].
    destruct (Auth.redis_get env ("blacklist:" ++ token)) as [v|] eqn:Hr.
    + destruct (JS.truthy_str v) eqn:Hv; [discriminate|].
      destruct (Auth.jwt_verify env token) as [id|name] eqn:Hj.
      * destruct (Auth.User_findById env id) as [user|] eqn:Hu; [|discriminate].
        destruct (String.eqb_spec (Auth.au_status user) "banned") as [|Hb]; [discriminate|].
        intros H. injection H as <-. exists token, id, user.
        repeat split; try assumption. intros v' Hv'. congruence.
      * destruct (String.eqb name "JsonWebTokenError"); [discriminate|].
        destruct (String.eqb name "TokenExpiredError"); discriminate.
    + destruct (Auth.jwt_verify env token) as [id|name] eqn:Hj.
      * destruct (Auth.User_findById env id) as [user|] eqn:Hu; [|discriminate].
        destruct (String.eqb_spec (Auth.au_status user) "banned") as [|Hb]; [discriminate|].
        intros H. injection H as <-. exists token, id, user.
        repeat split; try assumption. intros v' Hv'. congruence.
      * destruct (String.eqb name "JsonWebTokenError"); [discriminate|].
        destruct (String.eqb name "TokenExpiredError"); discriminate.
  - intros Hp token Ht Hr. unfold Auth.authenticateToken.
    apply String.eqb_neq in Hp. rewrite Hp, Ht, Hr. reflexivity.
Qed.

Lemma status_route_is_open_witness :
  Auth.path (Auth.mkAuthReq "/withdrawal/status" None) = "/withdrawal/status"
  /\ Auth.authenticateToken
       (Auth.mkAuthEnv (fun _ => Auth.RedisError) (fun _ => Auth.JwtThrows "JsonWebTokenError")
          (fun _ => None))
       (Auth.mkAuthReq "/withdrawal/status" None)
     = Auth.Proceed 53.
Proof.
  split; [reflexivity|].
  exact (proj1 (proj1 (status_route_is_open
                         (Auth.mkAuthEnv (fun _ => Auth.RedisError)
                            (fun _ => Auth.JwtThrows "JsonWebTokenError") (fun _ => None))
                         Sample.gw_ok (Auth.mkAuthReq "/withdrawal/status" None)
                         (Auth.mkStatusParams (Some 1) None 0) (mkWorld Sample.base []))
                  eq_refl)).
Defined.
